(** * Gemini provider: cost accounting and image generation

    A shallow embedding of [GeminiHandler.calculateCost] and
    [GeminiHandler.generateImage] (api/providers/gemini.ts) together with the
    [ImageGenerationResult] interface of the shared types package.

    Conventions of the embedding:
    - a JavaScript [number] is an IEEE 754 binary64 value, i.e. Rocq's
      primitive [float]; arithmetic and comparisons are the primitive ones;
    - an optional field or parameter ([x?: T]) is an [option];
    - a JavaScript string is the list of its UTF-16 code units;
    - the outbound call [client.models.generateContent] is an oracle that
      either returns a response or throws; every call is recorded in the
      world, so that "no call was made" is a statement about the record. *)

From Stdlib Require Import List Bool NArith String Ascii Lia.
From Stdlib Require Import Floats.PrimFloat.
Import ListNotations.

Set Implicit Arguments.

(** ** JavaScript numbers *)

Module Number.

(** [ToBoolean] on a number: [+0], [-0] and [NaN] are falsy. *)
Definition truthy (x : float) : bool :=
  negb ((x =? 0)%float || is_nan x).

(** [ToBoolean] on an optional number: [undefined] is falsy as well. *)
Definition truthy_opt (x : option float) : bool :=
  match x with
  | Some v => truthy v
  | None => false
  end.

End Number.

(** [a ?? b] where [a] is an optional value. *)
Definition nullish (A : Type) (a : option A) (b : A) : A :=
  match a with
  | Some v => v
  | None => b
  end.

Infix "??" := nullish (at level 45, left associativity).

(** ** Price tables

    [ModelInfo] is declared in the shared types package; only the fields that
    [calculateCost] reads are kept. *)

Module Tier.
Record t : Type := Build
  { contextWindow : float
  ; inputPrice : option float
  ; outputPrice : option float
  ; cacheReadsPrice : option float }.
End Tier.

Module ModelInfo.
Record t : Type := Build
  { inputPrice : option float
  ; outputPrice : option float
  ; cacheReadsPrice : option float
  ; tiers : option (list Tier.t) }.
End ModelInfo.

(** ** calculateCost *)

(** One entry of the local [trace] record. *)
Record TraceEntry : Type := mkTraceEntry
  { price : float
  ; tokens : float
  ; cost : float }.

(** [Record<string, { price; tokens; cost }>], in insertion order. *)
Definition Trace : Type := list (string * TraceEntry).

Fixpoint trace_get (k : string) (tr : Trace) : option TraceEntry :=
  match tr with
  | [] => None
  | (k', e) :: rest => if String.eqb k k' then Some e else trace_get k rest
  end.

(** The values a caller of [calculateCost] may observe. *)
Inductive JsValue : Type :=
| JsUndefined
| JsNumber (n : float)
| JsObject (fields : JsFields)
with JsFields : Type :=
| JsNoField
| JsField (key : string) (value : JsValue) (rest : JsFields).

(** The price triple in force after the tier adjustment. *)
Record Prices : Type := mkPrices
  { p_input : float
  ; p_output : float
  ; p_cacheReads : float }.

(** [info.tiers.find((tier) => inputTokens <= tier.contextWindow)] *)
Definition findTier (inputTokens : float) (ts : list Tier.t) : option Tier.t :=
  List.find (fun tier => (inputTokens <=? Tier.contextWindow tier)%float) ts.

(** The [if (info.tiers) { ... }] block: the three [let] prices after it. *)
Definition adjustPrices (tiers : option (list Tier.t)) (inputTokens : float)
    (base : Prices) : Prices :=
  match tiers with
  | None => base
  | Some ts =>
      match findTier inputTokens ts with
      | None => base
      | Some tier =>
          {| p_input := Tier.inputPrice tier ?? p_input base
           ; p_output := Tier.outputPrice tier ?? p_output base
           ; p_cacheReads := Tier.cacheReadsPrice tier ?? p_cacheReads base |}
      end
  end.

(** The locals that are live at the [return] statement. *)
Record CostLocals : Type := mkCostLocals
  { totalCost : float
  ; trace : Trace }.

(** Everything after the price adjustment. *)
Definition costOf (ps : Prices) (inputTokens outputTokens cacheReadTokens : float)
    : CostLocals :=
  let uncachedInputTokens := (inputTokens - cacheReadTokens)%float in
  let cacheReadCost :=
    if (0 <? cacheReadTokens)%float
    then (p_cacheReads ps * (cacheReadTokens / 1000000))%float
    else 0%float in
  let inputTokensCost := (p_input ps * (uncachedInputTokens / 1000000))%float in
  let outputTokensCost := (p_output ps * (outputTokens / 1000000))%float in
  let totalCost := (inputTokensCost + outputTokensCost + cacheReadCost)%float in
  let trace : Trace :=
    [ ("input"%string, mkTraceEntry (p_input ps) uncachedInputTokens inputTokensCost)
    ; ("output"%string, mkTraceEntry (p_output ps) outputTokens outputTokensCost) ] in
  let trace :=
    if (0 <? cacheReadTokens)%float
    then trace ++ [ ("cacheRead"%string,
                     mkTraceEntry (p_cacheReads ps) cacheReadTokens cacheReadCost) ]
    else trace in
  mkCostLocals totalCost trace.

(** The body of [calculateCost] up to, and excluding, the [return]:
    [None] is the early [return undefined]. *)
Definition calculateCost_locals (info : ModelInfo.t)
    (inputTokens outputTokens : float) (cacheReadTokens : option float)
    : option CostLocals :=
  let cacheReadTokens := cacheReadTokens ?? 0%float in
  match ModelInfo.inputPrice info, ModelInfo.outputPrice info,
        ModelInfo.cacheReadsPrice info with
  | Some inputPrice, Some outputPrice, Some cacheReadsPrice =>
      if negb (Number.truthy inputPrice) || negb (Number.truthy outputPrice)
         || negb (Number.truthy cacheReadsPrice)
      then None
      else
        let ps := adjustPrices (ModelInfo.tiers info) inputTokens
                    (mkPrices inputPrice outputPrice cacheReadsPrice) in
        Some (costOf ps inputTokens outputTokens cacheReadTokens)
  | _, _, _ => None
  end.

(** [calculateCost]: what the method hands back to its caller. *)
Definition calculateCost (info : ModelInfo.t)
    (inputTokens outputTokens : float) (cacheReadTokens : option float)
    : JsValue :=
  match calculateCost_locals info inputTokens outputTokens cacheReadTokens with
  | None => JsUndefined
  | Some locals => JsNumber (totalCost locals)
  end.

(** *** Sample price tables *)

Definition flatModel : ModelInfo.t :=
  ModelInfo.Build (Some 2%float) (Some 10%float) (Some 1%float) None.

Definition tieredModel : ModelInfo.t :=
  ModelInfo.Build (Some 2%float) (Some 10%float) (Some 1%float)
    (Some [ Tier.Build 128000 (Some 1%float) None None
          ; Tier.Build 1000000 (Some 0.5%float) None None ]).

(** A free-input model: the input price is listed, and it is zero. *)
Definition freeInputModel : ModelInfo.t :=
  ModelInfo.Build (Some 0%float) (Some 10%float) (Some 1%float) None.

(** A model without a cache-read price. *)
Definition noCacheModel : ModelInfo.t :=
  ModelInfo.Build (Some 2%float) (Some 10%float) None None.

(** A model whose first tier makes input free. *)
Definition freeTierModel : ModelInfo.t :=
  ModelInfo.Build (Some 2%float) (Some 10%float) (Some 1%float)
    (Some [ Tier.Build 128000 (Some 0%float) None None ]).

(** The tiers of [tieredModel] over a base table whose input price is listed
    as zero. *)
Definition freeBaseTieredModel : ModelInfo.t :=
  ModelInfo.Build (Some 0%float) (Some 10%float) (Some 1%float)
    (Some [ Tier.Build 128000 (Some 1%float) None None
          ; Tier.Build 1000000 (Some 0.5%float) None None ]).

(** *** The spec's reading of the cost

    [price * tokens / 1e6] per category, grouped as the spec's worked example
    groups it: [2 * (1,000,000 / 1e6)]. *)
Definition specCost (inputPrice outputPrice cacheReadsPrice : float)
    (inputTokens outputTokens cacheReadTokens : float) : float :=
  (inputPrice * ((inputTokens - cacheReadTokens) / 1000000)
   + outputPrice * (outputTokens / 1000000)
   + (if 0 <? cacheReadTokens
      then cacheReadsPrice * (cacheReadTokens / 1000000)
      else 0))%float.

(** The base prices pass the availability check and are [ip], [op], [crp]. *)
Definition Available (info : ModelInfo.t) (ip op crp : float) : Prop :=
  ModelInfo.inputPrice info = Some ip /\
  ModelInfo.outputPrice info = Some op /\
  ModelInfo.cacheReadsPrice info = Some crp /\
  Number.truthy ip = true /\ Number.truthy op = true /\
  Number.truthy crp = true.

(** No tier changes the base prices for this token count. *)
Definition NoTierOverride (info : ModelInfo.t) (inputTokens : float) : Prop :=
  forall base, adjustPrices (ModelInfo.tiers info) inputTokens base = base.

(** ** JavaScript strings *)

(** A UTF-16 code unit. *)
Definition codeunit : Type := N.

Definition jsstring : Type := list codeunit.

(** A string literal of the source (all of them are ASCII). *)
Definition lit (s : string) : jsstring :=
  List.map N_of_ascii (list_ascii_of_string s).

Arguments lit : simpl never.

Module JsString.

(** [ToBoolean] on a string: only the empty string is falsy. *)
Definition truthy (s : jsstring) : bool :=
  match s with
  | [] => false
  | _ :: _ => true
  end.

(** [ToBoolean] on an optional string. *)
Definition truthy_opt (s : option jsstring) : bool :=
  match s with
  | Some v => truthy v
  | None => false
  end.

(** [a === b] on strings *)
Fixpoint eqb (a b : jsstring) : bool :=
  match a, b with
  | [], [] => true
  | x :: a', y :: b' => N.eqb x y && eqb a' b'
  | _, _ => false
  end.

(** [s.startsWith(p)] *)
Fixpoint startsWith (p s : jsstring) : bool :=
  match p, s with
  | [], _ => true
  | _ :: _, [] => false
  | a :: p', b :: s' => N.eqb a b && startsWith p' s'
  end.

(** [s.replace(pat, rep)] with a string pattern: the first occurrence only.
    The replacement texts of the source contain no [$]. *)
Fixpoint replace (pat rep s : jsstring) : jsstring :=
  if startsWith pat s then rep ++ skipn (List.length pat) s
  else
    match s with
    | [] => []
    | c :: s' => c :: replace pat rep s'
    end.

(** A value interpolated in a template literal: [undefined] prints as the
    word. *)
Definition interpolate (s : option jsstring) : jsstring :=
  match s with
  | Some v => v
  | None => lit "undefined"
  end.

(** [s.includes(p)] *)
Fixpoint includes (p s : jsstring) : bool :=
  startsWith p s ||
  match s with
  | [] => false
  | _ :: s' => includes p s'
  end.

End JsString.

(** ** The data-URL pattern [/^data:image\/(png|jpeg|jpg);base64,(.+)$/] *)

Module DataUrlPattern.

(** Line terminators, which [.] does not match: LF, CR, LS, PS. *)
Definition isLineTerminator (c : codeunit) : bool :=
  N.eqb c 10 || N.eqb c 13 || N.eqb c 8232 || N.eqb c 8233.

(** [p] is a prefix of [s]: the rest of [s]. *)
Definition after (p s : jsstring) : option jsstring :=
  if JsString.startsWith p s then Some (skipn (List.length p) s) else None.

(** [(.+)$] : the whole rest, non-empty and on one line. *)
Definition dotPlusToEnd (s : jsstring) : option jsstring :=
  if JsString.truthy s && forallb (fun c => negb (isLineTerminator c)) s
  then Some s else None.

(** One alternative of the first group followed by the tail of the
    pattern. *)
Definition tryAlternative (alt rest : jsstring) : option (jsstring * jsstring) :=
  match after alt rest with
  | None => None
  | Some r1 =>
      match after (lit ";base64,") r1 with
      | None => None
      | Some r2 =>
          match dotPlusToEnd r2 with
          | None => None
          | Some payload => Some (alt, payload)
          end
      end
  end.

(** The alternatives are tried left to right, backtracking on failure. *)
Fixpoint firstAlternative (alts : list jsstring) (rest : jsstring)
    : option (jsstring * jsstring) :=
  match alts with
  | [] => None
  | alt :: alts' =>
      match tryAlternative alt rest with
      | Some m => Some m
      | None => firstAlternative alts' rest
      end
  end.

(** [s.match(pattern)]: the two capture groups, or [None] for [null]. *)
Definition matchDataUrl (s : jsstring) : option (jsstring * jsstring) :=
  match after (lit "data:image/") s with
  | None => None
  | Some rest => firstAlternative [lit "png"; lit "jpeg"; lit "jpg"] rest
  end.

End DataUrlPattern.

(** ** The provider SDK types that [generateImage] touches *)

Module GenAI.

Record Blob : Type := mkBlob
  { mimeType : option jsstring
  ; data : option jsstring }.

Record Part : Type := mkPart
  { text : option jsstring
  ; inlineData : option Blob }.

Record Content : Type := mkContent
  { role : option jsstring
  ; parts : option (list Part) }.

Record Candidate : Type := mkCandidate
  { content : option Content }.

Record GenerateContentResponse : Type := mkResponse
  { candidates : option (list Candidate) }.

Record HttpOptions : Type := mkHttpOptions
  { baseUrl : jsstring }.

Record GenerateContentConfig : Type := mkConfig
  { httpOptions : option HttpOptions
  ; temperature : float }.

Record GenerateContentParameters : Type := mkParams
  { model : jsstring
  ; contents : list Content
  ; config : GenerateContentConfig }.

(** A client is known by how it was obtained. *)
Inductive GoogleGenAI : Type :=
| NewGoogleGenAI (apiKey : jsstring)
| Configured (id : N).

End GenAI.

Import GenAI.

(** ** ImageGenerationResult *)

Record ImageGenerationResult : Type := mkResult
  { success : bool
  ; imageData : option jsstring
  ; imageFormat : option jsstring
  ; error : option jsstring }.

(** [{ success: false, error }] *)
Definition failure (msg : jsstring) : ImageGenerationResult :=
  mkResult false None None (Some msg).

(** [{ success: true, imageData, imageFormat }] *)
Definition generated (imageData imageFormat : jsstring) : ImageGenerationResult :=
  mkResult true (Some imageData) (Some imageFormat) None.

(** ** Effects: the call record, the console, thrown values *)

(** What a [catch] clause can receive: an [Error] with its message, or
    anything else. *)
Inductive Thrown : Type :=
| ThrownError (message : jsstring)
| ThrownOther.

Inductive Completion (A : Type) : Type :=
| Normal (a : A)
| Abrupt (t : Thrown).

Arguments Normal {A} a.
Arguments Abrupt {A} t.

Record World : Type := mkWorld
  { calls : list (GoogleGenAI * GenerateContentParameters)
  ; console : list (list jsstring) }.

Definition Eff (A : Type) : Type := World -> Completion A * World.

Definition ret (A : Type) (a : A) : Eff A := fun w => (Normal a, w).

Definition bind (A B : Type) (m : Eff A) (k : A -> Eff B) : Eff B :=
  fun w =>
    match m w with
    | (Normal a, w') => k a w'
    | (Abrupt t, w') => (Abrupt t, w')
    end.

Definition tryCatch (A : Type) (body : Eff A) (handler : Thrown -> Eff A) : Eff A :=
  fun w =>
    match body w with
    | (Normal a, w') => (Normal a, w')
    | (Abrupt t, w') => handler t w'
    end.

Notation "x <- m ;; k" := (bind m (fun x => k))
  (at level 61, m at next level, right associativity).
Notation "m ;;; k" := (bind m (fun _ => k))
  (at level 61, right associativity).

(** The provider endpoint: what one call does, given who calls and with
    what. *)
Definition Transport : Type :=
  GoogleGenAI -> GenerateContentParameters -> Completion GenerateContentResponse.

(** [console.error(...args)] *)
Definition console_error (args : list jsstring) : Eff unit :=
  fun w => (Normal tt, mkWorld (calls w) (console w ++ [args])).

(** ** GeminiHandler *)

Record ApiHandlerOptions : Type := mkOptions
  { vertexProjectId : option jsstring
  ; googleGeminiBaseUrl : option jsstring }.

Record GeminiHandler : Type := mkHandler
  { options : ApiHandlerOptions
  ; client : GoogleGenAI }.

(** The messages of [generateImage]. *)
Definition msgInvalidInput : jsstring :=
  lit "Invalid input image format. Expected base64 data URL.".
Definition msgNoCandidates : jsstring :=
  lit "No candidates returned in the response".
Definition msgNoContentParts : jsstring :=
  lit "No content parts in the response".
Definition msgNoImageData : jsstring :=
  lit "No image data found in the response".
Definition msgUnknown : jsstring :=
  lit "Unknown error occurred".
Definition msgFailedPrefix : jsstring :=
  lit "Failed to generate image: ".

(** The [for (const part of candidate.content.parts)] loop over the two
    [let] variables [imageData] and [imageFormat]; returning from the
    recursion is the [break]. *)
Fixpoint scanParts (ps : list Part) (imageData : option jsstring)
    (imageFormat : jsstring) : option jsstring * jsstring :=
  match ps with
  | [] => (imageData, imageFormat)
  | part :: rest =>
      match inlineData part with
      | Some blob =>
          match mimeType blob with
          | Some mime =>
              if JsString.startsWith (lit "image/") mime
              then
                (Some (lit "data:" ++ mime ++ lit ";base64,"
                         ++ JsString.interpolate (data blob)),
                 JsString.replace (lit "jpeg") (lit "jpg")
                   (JsString.replace (lit "image/") [] mime))
              else scanParts rest imageData imageFormat
          | None => scanParts rest imageData imageFormat
          end
      | None => scanParts rest imageData imageFormat
      end
  end.

(** The statements after [await client.models.generateContent(params)]. *)
Definition extractImage (result : GenerateContentResponse) : ImageGenerationResult :=
  match candidates result with
  | None | Some [] => failure msgNoCandidates
  | Some (candidate :: _) =>
      match content candidate with
      | None => failure msgNoContentParts
      | Some c =>
          match parts c with
          | None => failure msgNoContentParts
          | Some ps =>
              let '(imageData, imageFormat) := scanParts ps None (lit "png") in
              match imageData with
              | Some d =>
                  if JsString.truthy d then generated d imageFormat
                  else failure msgNoImageData
              | None => failure msgNoImageData
              end
          end
      end
  end.

(** The [contents] array, or the early [return] on a malformed input
    image. *)
Definition prepareContents (prompt : jsstring) (inputImage : option jsstring)
    : ImageGenerationResult + list Content :=
  let textOnly :=
    inr [ mkContent (Some (lit "user")) (Some [ mkPart (Some prompt) None ]) ] in
  match inputImage with
  | Some img =>
      if JsString.truthy img then
        match DataUrlPattern.matchDataUrl img with
        | None => inl (failure msgInvalidInput)
        | Some (g1, g2) =>
            let mimeType :=
              if JsString.eqb g1 (lit "jpg") then lit "image/jpeg"
              else lit "image/" ++ g1 in
            let base64Data := g2 in
            inr [ mkContent (Some (lit "user"))
                    (Some [ mkPart (Some prompt) None
                          ; mkPart None (Some (mkBlob (Some mimeType)
                                                       (Some base64Data))) ]) ]
        end
      else textOnly
  | None => textOnly
  end.

(** The client the request goes through. *)
Definition chooseClient (this : GeminiHandler) (apiKey : option jsstring)
    : GoogleGenAI :=
  match apiKey with
  | Some key =>
      if JsString.truthy key
         && negb (JsString.truthy_opt (vertexProjectId (options this)))
      then NewGoogleGenAI key
      else client this
  | None => client this
  end.

(** [params] for a given [contents]. *)
Definition requestParams (this : GeminiHandler) (model : jsstring)
    (contents : list Content) : GenerateContentParameters :=
  let config :=
    mkConfig
      (match googleGeminiBaseUrl (options this) with
       | Some url => if JsString.truthy url then Some (mkHttpOptions url) else None
       | None => None
       end)
      1.0%float in
  mkParams model contents config.

(** [error instanceof Error ? error.message : "Unknown error occurred"] *)
Definition errorMessageOf (error : Thrown) : jsstring :=
  match error with
  | ThrownError message => message
  | ThrownOther => msgUnknown
  end.

Section WithTransport.

Variable transport : Transport.

(** [await client.models.generateContent(params)] *)
Definition generateContent (c : GoogleGenAI) (params : GenerateContentParameters)
    : Eff GenerateContentResponse :=
  fun w => (transport c params, mkWorld (calls w ++ [(c, params)]) (console w)).

(** The [try] block. *)
Definition generateImage_try (this : GeminiHandler) (prompt model : jsstring)
    (apiKey inputImage : option jsstring) : Eff ImageGenerationResult :=
  let client := chooseClient this apiKey in
  match prepareContents prompt inputImage with
  | inl early => ret early
  | inr contents =>
      let params := requestParams this model contents in
      result <- generateContent client params ;;
      ret (extractImage result)
  end.

(** The [catch (error)] block. *)
Definition generateImage_catch (error : Thrown) : Eff ImageGenerationResult :=
  let errorMessage := errorMessageOf error in
  console_error [lit "Gemini image generation error:"; errorMessage] ;;;
  ret (failure (msgFailedPrefix ++ errorMessage)).

Definition generateImage (this : GeminiHandler) (prompt model : jsstring)
    (apiKey inputImage : option jsstring) : Eff ImageGenerationResult :=
  tryCatch (generateImage_try this prompt model apiKey inputImage)
           generateImage_catch.

End WithTransport.

(** The world before any call. *)
Definition emptyWorld : World := mkWorld [] [].

(** A handler with a plain configured client and no Vertex project. *)
Definition plainHandler : GeminiHandler :=
  mkHandler (mkOptions None None) (Configured 0).

(** Stub transports. *)
Definition respondWith (r : GenerateContentResponse) : Transport :=
  fun _ _ => Normal r.

Definition failWith (t : Thrown) : Transport :=
  fun _ _ => Abrupt t.

Definition pngPart : Part :=
  mkPart None (Some (mkBlob (Some (lit "image/png")) (Some (lit "iVBORw0KGgo=")))).

Definition jpegPart : Part :=
  mkPart None (Some (mkBlob (Some (lit "image/jpeg")) (Some (lit "/9j/4AAQ")))).

Definition textPart : Part :=
  mkPart (Some (lit "Here is your image")) None.

Definition responseOf (ps : list Part) : GenerateContentResponse :=
  mkResponse (Some [ mkCandidate (Some (mkContent (Some (lit "model")) (Some ps))) ]).

Definition undataPart : Part :=
  mkPart None (Some (mkBlob (Some (lit "image/png")) None)).

Definition audioPart : Part :=
  mkPart None (Some (mkBlob (Some (lit "audio/wav")) (Some (lit "UklGRg==")))).

(** ** Vocabulary of the statements *)

(** The part carries inline data whose MIME type starts with [image/]. *)
Definition isImagePart (part : Part) : bool :=
  match inlineData part with
  | Some blob =>
      match mimeType blob with
      | Some mime => JsString.startsWith (lit "image/") mime
      | None => false
      end
  | None => false
  end.

Definition hasImagePart (ps : list Part) : bool := existsb isImagePart ps.

(** The response has no candidate at all. *)
Definition NoCandidates (r : GenerateContentResponse) : Prop :=
  candidates r = None \/ candidates r = Some [].

(** The candidate has no content, or content without a [parts] array. *)
Definition NoContentParts (c : Candidate) : Prop :=
  content c = None \/ exists ct, content c = Some ct /\ parts ct = None.

(** A data URL in the sense of the glossary:
    [data:<mime>;base64,<payload>]. *)
Definition isDataUrl (s : jsstring) : bool :=
  JsString.startsWith (lit "data:") s
  && JsString.includes (lit ";base64,") (skipn 5 s).

(** The request reaches the provider: [contents] is what is sent, and the
    provider answers [r]. *)
Definition Answered (transport : Transport) (this : GeminiHandler)
    (prompt model : jsstring) (apiKey inputImage : option jsstring)
    (r : GenerateContentResponse) : Prop :=
  exists contents,
    prepareContents prompt inputImage = inr contents /\
    transport (chooseClient this apiKey) (requestParams this model contents)
      = Normal r.

(** The request reaches the provider, and the call throws [t]. *)
Definition Failed (transport : Transport) (this : GeminiHandler)
    (prompt model : jsstring) (apiKey inputImage : option jsstring)
    (t : Thrown) : Prop :=
  exists contents,
    prepareContents prompt inputImage = inr contents /\
    transport (chooseClient this apiKey) (requestParams this model contents)
      = Abrupt t.

(** The words of the data-URL pattern: a listed subtype, then a non-empty
    payload that stays on one line. *)
Definition MatchesPattern (s sub payload : jsstring) : Prop :=
  In sub [lit "png"; lit "jpeg"; lit "jpg"] /\
  s = lit "data:image/" ++ sub ++ lit ";base64," ++ payload /\
  payload <> [] /\
  forallb (fun c => negb (DataUrlPattern.isLineTerminator c)) payload = true.


(** * The rest of the image-generation feature

    The model catalog and the settings panel that reads it, the grounding
    and streaming paths of the Gemini handler, and the [generate_image]
    tool that drives [generateImage]. *)

(** [`${n}`] for a non-negative integer below 1e21: its decimal digits. *)
Fixpoint digitsOf (d : Decimal.uint) : jsstring :=
  match d with
  | Decimal.Nil => []
  | Decimal.D0 d' => 48%N :: digitsOf d'
  | Decimal.D1 d' => 49%N :: digitsOf d'
  | Decimal.D2 d' => 50%N :: digitsOf d'
  | Decimal.D3 d' => 51%N :: digitsOf d'
  | Decimal.D4 d' => 52%N :: digitsOf d'
  | Decimal.D5 d' => 53%N :: digitsOf d'
  | Decimal.D6 d' => 54%N :: digitsOf d'
  | Decimal.D7 d' => 55%N :: digitsOf d'
  | Decimal.D8 d' => 56%N :: digitsOf d'
  | Decimal.D9 d' => 57%N :: digitsOf d'
  end.

Definition decimal (n : N) : jsstring := digitsOf (N.to_uint n).

(** [a || b] on strings, [a] optional. *)
Definition orElse (a : option jsstring) (b : jsstring) : jsstring :=
  match a with
  | Some v => if JsString.truthy v then v else b
  | None => b
  end.

(** [a || b] on optional strings, both sides optional. *)
Definition orElseOpt (a b : option jsstring) : option jsstring :=
  match a with
  | Some v => if JsString.truthy v then Some v else b
  | None => b
  end.

(** [parts.join(sep)] *)
Fixpoint join (sep : jsstring) (items : list jsstring) : jsstring :=
  match items with
  | [] => []
  | [x] => x
  | x :: rest => x ++ sep ++ join sep rest
  end.

(** ** The model catalog *)

Inductive ImageGenerationProvider : Type :=
| openrouter
| gemini.

Definition providerEqb (a b : ImageGenerationProvider) : bool :=
  match a, b with
  | openrouter, openrouter | gemini, gemini => true
  | _, _ => false
  end.

(** The string a provider is written as. *)
Definition providerName (p : ImageGenerationProvider) : jsstring :=
  match p with
  | openrouter => lit "openrouter"
  | gemini => lit "gemini"
  end.

Definition imageGenerationProviders : list ImageGenerationProvider :=
  [openrouter; gemini].

Module ImageGenerationModelInfo.
Record t : Type := Build
  { provider : ImageGenerationProvider
  ; modelId : jsstring
  ; label : jsstring
  ; supportsEditMode : option bool
  ; maxInputSize : option float
  ; outputFormats : option (list jsstring) }.
End ImageGenerationModelInfo.

(** [IMAGE_GENERATION_MODELS], key by key in the order of the literal. *)
Definition IMAGE_GENERATION_MODELS
    : list (ImageGenerationProvider * list ImageGenerationModelInfo.t) :=
  [ (openrouter,
     [ ImageGenerationModelInfo.Build openrouter
         (lit "google/gemini-2.5-flash-image-preview")
         (lit "Gemini 2.5 Flash Image Preview")
         (Some true) None (Some [lit "png"; lit "jpeg"])
     ; ImageGenerationModelInfo.Build openrouter
         (lit "google/gemini-2.5-flash-image-preview:free")
         (lit "Gemini 2.5 Flash Image Preview (Free)")
         (Some true) None (Some [lit "png"; lit "jpeg"]) ])
  ; (gemini,
     [ ImageGenerationModelInfo.Build gemini
         (lit "gemini-2.5-flash-image-preview")
         (lit "Gemini 2.5 Flash Image Preview")
         (Some true) None (Some [lit "png"; lit "jpeg"]) ]) ].

(** [record[key]] *)
Fixpoint recordGet (A : Type) (key : ImageGenerationProvider)
    (record : list (ImageGenerationProvider * A)) : option A :=
  match record with
  | [] => None
  | (k, v) :: rest => if providerEqb key k then Some v else recordGet key rest
  end.

(** [IMAGE_GENERATION_MODELS[provider] || []] *)
Definition getImageGenerationModelsForProvider (provider : ImageGenerationProvider)
    : list ImageGenerationModelInfo.t :=
  match recordGet provider IMAGE_GENERATION_MODELS with
  | Some models => models
  | None => []
  end.

(** [Object.values(IMAGE_GENERATION_MODELS).flat()] *)
Definition getAllImageGenerationModels : list ImageGenerationModelInfo.t :=
  List.concat (List.map snd IMAGE_GENERATION_MODELS).

(** ** The settings panel *)

Module Settings.

Record Props : Type := mkProps
  { enabled : bool
  ; openRouterImageApiKey : option jsstring
  ; geminiApiKey : option jsstring
  ; openRouterImageGenerationSelectedModel : option jsstring
  ; geminiImageGenerationSelectedModel : option jsstring
  ; imageGenerationProvider : option ImageGenerationProvider
  ; hasSetGeminiApiKey : bool
  ; hasSetImageGenerationProvider : bool }.

(** The four [useState] cells. *)
Record State : Type := mkState
  { provider : ImageGenerationProvider
  ; openRouterApiKeyLocal : jsstring
  ; geminiApiKeyLocal : jsstring
  ; selectedModel : jsstring }.

(** A call of one of the setters received through the props. *)
Inductive Callback : Type :=
| SetOpenRouterImageApiKey (apiKey : jsstring)
| SetGeminiApiKey (apiKey : jsstring)
| SetImageGenerationSelectedModel (model : jsstring)
| SetImageGenerationProvider (provider : ImageGenerationProvider).

(** [models.length > 0 ? models[0].modelId : ""] *)
Definition getDefaultModel (provider : ImageGenerationProvider) : jsstring :=
  match getImageGenerationModelsForProvider provider with
  | first :: _ => ImageGenerationModelInfo.modelId first
  | [] => []
  end.

(** The selected model for the provider held in [provider]. *)
Definition getCurrentSelectedModel (props : Props)
    (provider : ImageGenerationProvider) : jsstring :=
  match provider with
  | openrouter =>
      orElse (openRouterImageGenerationSelectedModel props)
        (getDefaultModel openrouter)
  | gemini =>
      orElse (geminiImageGenerationSelectedModel props) (getDefaultModel gemini)
  end.

(** The destructuring default [imageGenerationProvider = "openrouter"]. *)
Definition providerProp (props : Props) : ImageGenerationProvider :=
  match imageGenerationProvider props with
  | Some p => p
  | None => openrouter
  end.

(** The state of the first render. *)
Definition initialState (props : Props) : State :=
  let provider := providerProp props in
  mkState provider
    (orElse (openRouterImageApiKey props) [])
    (orElse (geminiApiKey props) [])
    (getCurrentSelectedModel props provider).

(** The [useEffect] body, run in a render whose state is [st]: the model is
    chosen with the [provider] of that render, not with the one being set. *)
Definition syncFromProps (props : Props) (st : State) : State :=
  mkState (providerProp props)
    (orElse (openRouterImageApiKey props) [])
    (orElse (geminiApiKey props) [])
    (getCurrentSelectedModel props (provider st)).

Definition handleProviderChange (props : Props) (value : ImageGenerationProvider)
    (st : State) : State * list Callback :=
  let defaultModel := getDefaultModel value in
  (mkState value (openRouterApiKeyLocal st) (geminiApiKeyLocal st) defaultModel,
   (if hasSetImageGenerationProvider props
    then [SetImageGenerationProvider value] else [])
   ++ [SetImageGenerationSelectedModel defaultModel]).

Definition handleOpenRouterApiKeyChange (value : jsstring) (st : State)
    : State * list Callback :=
  (mkState (provider st) value (geminiApiKeyLocal st) (selectedModel st),
   [SetOpenRouterImageApiKey value]).

Definition handleGeminiApiKeyChange (props : Props) (value : jsstring)
    (st : State) : State * list Callback :=
  (mkState (provider st) (openRouterApiKeyLocal st) value (selectedModel st),
   if hasSetGeminiApiKey props then [SetGeminiApiKey value] else []).

Definition handleModelChange (value : jsstring) (st : State)
    : State * list Callback :=
  (mkState (provider st) (openRouterApiKeyLocal st) (geminiApiKeyLocal st) value,
   [SetImageGenerationSelectedModel value]).

Definition getCurrentApiKey (st : State) : jsstring :=
  match provider st with
  | openrouter => openRouterApiKeyLocal st
  | gemini => geminiApiKeyLocal st
  end.

(** The two status boxes at the bottom of the panel. *)
Inductive StatusBox : Type :=
| WarningMissingKey (provider : ImageGenerationProvider)
| SuccessConfigured.

(** The boxes that the render shows, top to bottom. *)
Definition statusBoxes (props : Props) (st : State) : list StatusBox :=
  if enabled props then
    (if enabled props && negb (JsString.truthy (getCurrentApiKey st))
     then [WarningMissingKey (provider st)] else [])
    ++ (if enabled props && JsString.truthy (getCurrentApiKey st)
        then [SuccessConfigured] else [])
  else [].

End Settings.

(** ** Grounding sources *)

Module Grounding.

Record Web : Type := mkWeb
  { uri : option jsstring
  ; webTitle : option jsstring }.

Record GroundingChunk : Type := mkChunk
  { web : option Web }.

Record GroundingMetadata : Type := mkMetadata
  { groundingChunks : option (list GroundingChunk) }.

Record GroundingSource : Type := mkSource
  { title : jsstring
  ; url : jsstring }.

(** The address a chunk contributes: its non-empty [web.uri], if any. *)
Definition linkOf (chunk : GroundingChunk) : list jsstring :=
  match web chunk with
  | Some w =>
      match uri w with
      | Some u => if JsString.truthy u then [u] else []
      | None => []
      end
  | None => []
  end.

(** The callback given to [chunks.map]. *)
Definition sourceOfChunk (chunk : GroundingChunk) : option GroundingSource :=
  let uri := match web chunk with Some w => uri w | None => None end in
  let title :=
    orElse
      (orElseOpt (match web chunk with Some w => webTitle w | None => None end)
         uri)
      (lit "Unknown Source") in
  match uri with
  | Some u => if JsString.truthy u then Some (mkSource title u) else None
  | None => None
  end.

(** [.filter((source) => source !== null)] *)
Fixpoint dropNulls (A : Type) (l : list (option A)) : list A :=
  match l with
  | [] => []
  | Some x :: rest => x :: dropNulls rest
  | None :: rest => dropNulls rest
  end.

Definition extractGroundingSources (groundingMetadata : option GroundingMetadata)
    : list GroundingSource :=
  match groundingMetadata with
  | Some md =>
      match groundingChunks md with
      | Some chunks => dropNulls (List.map sourceOfChunk chunks)
      | None => []
      end
  | None => []
  end.

(** [sources.map((source, i) => `[${i + 1}](${source.url})`)], from index
    [i] on. *)
Fixpoint citationLinks (i : N) (sources : list GroundingSource) : list jsstring :=
  match sources with
  | [] => []
  | source :: rest =>
      (lit "[" ++ decimal (i + 1) ++ lit "](" ++ url source ++ lit ")")
      :: citationLinks (N.succ i) rest
  end.

(** [null] is [None]. *)
Definition extractCitationsOnly (groundingMetadata : option GroundingMetadata)
    : option jsstring :=
  let sources := extractGroundingSources groundingMetadata in
  match sources with
  | [] => None
  | _ :: _ => Some (join (lit ", ") (citationLinks 0 sources))
  end.

End Grounding.

(** ** Streaming chat completions *)

Module Stream.

Record Part : Type := mkPart
  { thought : option bool
  ; text : option jsstring }.

Record Content : Type := mkContent
  { parts : option (list Part) }.

Record Candidate : Type := mkCandidate
  { groundingMetadata : option Grounding.GroundingMetadata
  ; content : option Content }.

Record UsageMetadata : Type := mkUsage
  { promptTokenCount : option float
  ; candidatesTokenCount : option float
  ; cachedContentTokenCount : option float
  ; thoughtsTokenCount : option float }.

(** One streamed response; [chunkText] is the SDK's [text] accessor. *)
Record Chunk : Type := mkChunk
  { candidates : option (list Candidate)
  ; chunkText : option jsstring
  ; usageMetadata : option UsageMetadata }.

(** What the generator yields. *)
Inductive ApiStreamChunk : Type :=
| Reasoning (text : jsstring)
| Text (text : jsstring)
| GroundingEvent (sources : list Grounding.GroundingSource)
| Usage (inputTokens outputTokens : float)
        (cacheReadTokens reasoningTokens : option float)
        (totalCost : JsValue).

(** The body of [for (const part of candidate.content.parts)]. *)
Definition partEvents (part : Part) : list ApiStreamChunk :=
  match thought part with
  | Some true =>
      match text part with
      | Some t => if JsString.truthy t then [Reasoning t] else []
      | None => []
      end
  | _ =>
      match text part with
      | Some t => if JsString.truthy t then [Text t] else []
      | None => []
      end
  end.

(** What one chunk makes the generator yield. *)
Definition chunkEvents (chunk : Chunk) : list ApiStreamChunk :=
  match candidates chunk with
  | Some (candidate :: _) =>
      match content candidate with
      | Some c =>
          match parts c with
          | Some ps => List.flat_map partEvents ps
          | None => []
          end
      | None => []
      end
  | _ =>
      match chunkText chunk with
      | Some t => if JsString.truthy t then [Text t] else []
      | None => []
      end
  end.

(** The last value that [f] finds along the chunks, if any: what a variable
    assigned under [if (f chunk)] holds after the loop. *)
Fixpoint lastSome (A : Type) (f : Chunk -> option A) (chunks : list Chunk)
    (init : option A) : option A :=
  match chunks with
  | [] => init
  | chunk :: rest =>
      lastSome f rest (match f chunk with Some a => Some a | None => init end)
  end.

(** The grounding metadata of the chunk's first candidate. *)
Definition groundingOf (chunk : Chunk) : option Grounding.GroundingMetadata :=
  match candidates chunk with
  | Some (candidate :: _) => groundingMetadata candidate
  | _ => None
  end.

(** The text that a text or reasoning event carries is not empty. *)
Definition carriesText (e : ApiStreamChunk) : bool :=
  match e with
  | Reasoning t | Text t => JsString.truthy t
  | _ => true
  end.

Definition isTextEvent (e : ApiStreamChunk) : bool :=
  match e with
  | Reasoning _ | Text _ => true
  | _ => false
  end.

Definition isUsageEvent (e : ApiStreamChunk) : bool :=
  match e with
  | Usage _ _ _ _ _ => true
  | _ => false
  end.

Definition isGroundingEvent (e : ApiStreamChunk) : bool :=
  match e with
  | GroundingEvent _ => true
  | _ => false
  end.

(** The two [let] variables of the loop. *)
Record LoopState : Type := mkLoop
  { lastUsageMetadata : option UsageMetadata
  ; pendingGroundingMetadata : option Grounding.GroundingMetadata }.

(** The assignments one chunk makes. *)
Definition stepLoop (st : LoopState) (chunk : Chunk) : LoopState :=
  let pending :=
    match candidates chunk with
    | Some (candidate :: _) =>
        match groundingMetadata candidate with
        | Some md => Some md
        | None => pendingGroundingMetadata st
        end
    | _ => pendingGroundingMetadata st
    end in
  let usage :=
    match usageMetadata chunk with
    | Some u => Some u
    | None => lastUsageMetadata st
    end in
  mkLoop usage pending.

(** The whole [for await] loop: what is yielded, and the variables after
    it. *)
Fixpoint runLoop (chunks : list Chunk) (st : LoopState)
    : list ApiStreamChunk * LoopState :=
  match chunks with
  | [] => ([], st)
  | chunk :: rest =>
      let '(events, st') := runLoop rest (stepLoop st chunk) in
      (chunkEvents chunk ++ events, st')
  end.

(** The two [if] statements after the loop. *)
Definition epilogue (info : ModelInfo.t) (st : LoopState) : list ApiStreamChunk :=
  (match pendingGroundingMetadata st with
   | Some md =>
       match Grounding.extractGroundingSources (Some md) with
       | [] => []
       | sources => [GroundingEvent sources]
       end
   | None => []
   end)
  ++
  (match lastUsageMetadata st with
   | Some u =>
       let inputTokens := promptTokenCount u ?? 0%float in
       let outputTokens := candidatesTokenCount u ?? 0%float in
       let cacheReadTokens := cachedContentTokenCount u in
       let reasoningTokens := thoughtsTokenCount u in
       [Usage inputTokens outputTokens cacheReadTokens reasoningTokens
          (calculateCost info inputTokens outputTokens cacheReadTokens)]
   | None => []
   end).

(** A stream as the consumer meets it: the chunks it delivers, then either
    its end or a thrown value. A call that throws at once delivers no
    chunk. *)
Record Delivery : Type := mkDelivery
  { delivered : list Chunk
  ; thrown : option Thrown }.

Section WithTranslation.

(** [t(key, { error })] of i18next. *)
Variable t : jsstring -> option jsstring -> jsstring.

(** [if (error instanceof Error) throw new Error(t(key, ...)); throw error] *)
Definition rethrow (key : jsstring) (error : Thrown) : Thrown :=
  match error with
  | ThrownError message => ThrownError (t key (Some message))
  | ThrownOther => ThrownOther
  end.

(** [createMessage] from the [try] on, for the model [info] that [getModel]
    gave: everything yielded, and how the generator ends ([None]: it
    returns). *)
Definition createMessage (info : ModelInfo.t) (stream : Delivery)
    : list ApiStreamChunk * option Thrown :=
  let '(events, st) := runLoop (delivered stream) (mkLoop None None) in
  match thrown stream with
  | Some error =>
      (events, Some (rethrow (lit "common:errors.gemini.generate_stream") error))
  | None => (events ++ epilogue info st, None)
  end.

(** A response of [generateContent] as [completePrompt] reads it. *)
Record PromptResponse : Type := mkPromptResponse
  { responseText : option jsstring
  ; responseCandidates : option (list Candidate) }.

(** [completePrompt] from the answer of the provider on. *)
Definition completePrompt (answer : Completion PromptResponse)
    : Completion jsstring :=
  match answer with
  | Normal result =>
      let text := responseText result ?? [] in
      let groundingMetadata :=
        match responseCandidates result with
        | Some (candidate :: _) => groundingMetadata candidate
        | _ => None
        end in
      match groundingMetadata with
      | Some md =>
          match Grounding.extractCitationsOnly (Some md) with
          | Some citations =>
              if JsString.truthy citations
              then Normal (text ++ [10%N; 10%N]
                             ++ t (lit "common:errors.gemini.sources") None
                             ++ lit " " ++ citations)
              else Normal text
          | None => Normal text
          end
      | None => Normal text
      end
  | Abrupt error =>
      Abrupt (rethrow (lit "common:errors.gemini.generate_complete_prompt") error)
  end.

End WithTranslation.

End Stream.
(** ** The [generate_image] tool *)

Module Tool.

(** The fields of the provider state that the tool reads. *)
Record ApiConfiguration : Type := mkApiConfiguration
  { apiProvider : option jsstring
  ; geminiApiKey : option jsstring }.

Record ProviderState : Type := mkProviderState
  { imageGenerationProvider : option jsstring
  ; openRouterImageApiKey : option jsstring
  ; openRouterImageGenerationSelectedModel : option jsstring
  ; geminiImageApiKey : option jsstring
  ; geminiImageGenerationSelectedModel : option jsstring
  ; apiConfiguration : option ApiConfiguration }.

(** [block.params.prompt], [.path], [.image] and [block.partial]. *)
Record ToolUse : Type := mkToolUse
  { prompt : option jsstring
  ; path : option jsstring
  ; image : option jsstring
  ; partial : bool }.

(** The object handed to [JSON.stringify] for the approval prompt. *)
Record ApprovalMessage : Type := mkApprovalMessage
  { am_tool : jsstring
  ; am_path : jsstring
  ; am_content : jsstring
  ; am_isOutsideWorkspace : bool
  ; am_isProtected : bool
  ; am_inputImage : option jsstring }.

(** Everything the tool does to its surroundings, in order. The provider
    call of the Gemini handler is not listed here: it shows in the world's
    call record. *)
Inductive Action : Type :=
| Say (kind text : jsstring)
| SayImage (imageUri imagePath : jsstring)
| PushToolResult (content : jsstring)
| RecordToolError (tool : jsstring)
| SayMissingParam (tool param : jsstring)
| AskApproval (message : ApprovalMessage) (isProtected : bool)
| OpenRouterGenerateImage (prompt model apiKey : jsstring)
    (inputImage : option jsstring)
| Mkdir (directory : jsstring)
| WriteFile (absolutePath base64Data : jsstring)
| TrackFileContext (filePath : jsstring)
| RecordToolUsage (tool : jsstring)
| HandleError (action : jsstring) (error : Thrown).

(** The task object as far as the tool touches it, with the record of what
    was done and the world of the Gemini provider. *)
Record Task : Type := mkTask
  { actions : list Action
  ; consecutiveMistakeCount : N
  ; didEditFile : bool
  ; world : World }.

(** The collaborators of the tool: what they answer when asked. *)
Record Env : Type := mkEnv
  { state : option ProviderState
  ; isImageGenerationEnabled : bool
  ; cwd : jsstring
  ; rooIgnoreController : option (jsstring -> bool)
  ; rooProtectedController : option (jsstring -> bool)
  ; missingParamError : jsstring -> jsstring -> jsstring
  ; toolError : jsstring -> jsstring
  ; rooIgnoreError : jsstring -> jsstring
  ; toolResult : jsstring -> jsstring
  ; getReadablePath : jsstring -> jsstring -> jsstring
  ; resolve : jsstring -> jsstring -> jsstring
  ; dirname : jsstring -> jsstring
  ; pathJoin : jsstring -> jsstring -> jsstring
  ; extnameLower : jsstring -> jsstring
  ; removeClosingTag : jsstring -> jsstring -> jsstring
  ; isPathOutsideWorkspace : jsstring -> bool
  ; fileExistsAtPath : jsstring -> bool
  ; readFileBase64 : jsstring -> Completion jsstring
  ; askApproval : ApprovalMessage -> bool -> bool
  ; openRouterGenerateImage :
      jsstring -> jsstring -> jsstring -> option jsstring ->
      Completion ImageGenerationResult
  ; geminiTransport : Transport
  ; mkdir : jsstring -> option Thrown
  ; writeFile : jsstring -> jsstring -> option Thrown
  ; webviewUri : jsstring -> jsstring
  ; now : N }.

Definition emit (a : Action) (s : Task) : Task :=
  mkTask (actions s ++ [a]) (consecutiveMistakeCount s) (didEditFile s)
    (world s).

(** [x] when it is a non-empty string. *)
Definition present (x : option jsstring) : option jsstring :=
  match x with
  | Some v => if JsString.truthy v then Some v else None
  | None => None
  end.

(** [await cline.say("error", msg); pushToolResult(formatResponse.toolError(msg))] *)
Definition reportError (env : Env) (msg : jsstring) (s : Task) : Task :=
  emit (PushToolResult (toolError env msg)) (emit (Say (lit "error") msg) s).

(** The [rooignore_error] exit. *)
Definition reportIgnored (env : Env) (p : jsstring) (s : Task) : Task :=
  emit (PushToolResult (toolError env (rooIgnoreError env p)))
    (emit (Say (lit "rooignore_error") p) s).

(** The missing-parameter exit. *)
Definition reportMissing (env : Env) (param : jsstring) (s : Task) : Task :=
  let s1 :=
    mkTask (actions s) (consecutiveMistakeCount s + 1) (didEditFile s)
      (world s) in
  emit (PushToolResult (missingParamError env (lit "generate_image") param))
    (emit (SayMissingParam (lit "generate_image") param)
       (emit (RecordToolError (lit "generate_image")) s1)).

(** [cline.rooIgnoreController?.validateAccess(p)], read as a condition. *)
Definition accessAllowed (env : Env) (p : jsstring) : bool :=
  match rooIgnoreController env with
  | Some validateAccess => validateAccess p
  | None => false
  end.

(** [cline.rooProtectedController?.isWriteProtected(p) || false] *)
Definition isWriteProtected (env : Env) (p : jsstring) : bool :=
  match rooProtectedController env with
  | Some f => f p
  | None => false
  end.

Definition supportedFormats : list jsstring :=
  [lit "png"; lit "jpg"; lit "jpeg"; lit "gif"; lit "webp"].

(** [supportedFormats.includes(ext)] *)
Definition isSupportedFormat (ext : jsstring) : bool :=
  existsb (JsString.eqb ext) supportedFormats.

(** The data URL built for an input image read from disk. *)
Definition inputImageDataUrl (imageExtension base64 : jsstring) : jsstring :=
  let mimeType :=
    if JsString.eqb imageExtension (lit "jpg") then lit "jpeg"
    else imageExtension in
  lit "data:image/" ++ mimeType ++ lit ";base64," ++ base64.

(** The [if (inputImagePath) { ... }] block: an early exit, or the value of
    [inputImageData] after it. *)
Definition readInputImage (env : Env) (block : ToolUse) (s : Task)
    : Task + option jsstring :=
  match present (image block) with
  | None => inr None
  | Some inputImagePath =>
      let inputImageFullPath := resolve env (cwd env) inputImagePath in
      if negb (fileExistsAtPath env inputImageFullPath) then
        inl (reportError env
               (lit "Input image not found: "
                  ++ getReadablePath env (cwd env) inputImagePath) s)
      else if negb (accessAllowed env inputImagePath) then
        inl (reportIgnored env inputImagePath s)
      else
        match readFileBase64 env inputImageFullPath with
        | Abrupt error =>
            inl (reportError env
                   (lit "Failed to read input image: "
                      ++ match error with
                         | ThrownError message => message
                         | ThrownOther => lit "Unknown error"
                         end) s)
        | Normal base64 =>
            let imageExtension :=
              JsString.replace (lit ".") [] (extnameLower env inputImageFullPath) in
            if negb (isSupportedFormat imageExtension) then
              inl (reportError env
                     (lit "Unsupported image format: " ++ imageExtension
                        ++ lit ". Supported formats: "
                        ++ join (lit ", ") supportedFormats) s)
            else inr (Some (inputImageDataUrl imageExtension base64))
        end
  end.

(** [state?.field] *)
Definition stateField (A : Type) (env : Env) (f : ProviderState -> option A)
    : option A :=
  match state env with
  | Some st => f st
  | None => None
  end.

(** [models[0]?.modelId ?? fallback] *)
Definition firstModelOr (provider : ImageGenerationProvider) (fallback : jsstring)
    : jsstring :=
  match getImageGenerationModelsForProvider provider with
  | first :: _ => ImageGenerationModelInfo.modelId first
  | [] => fallback
  end.

Definition msgOpenRouterKey : jsstring :=
  lit "OpenRouter API key is required for image generation. Please configure it in the Image Generation experimental settings.".

Definition msgGeminiKey : jsstring :=
  lit "Gemini API key is required for image generation. Please configure it in the Image Generation experimental settings or in the Gemini provider settings.".

Definition msgExperimental : jsstring :=
  lit "Image generation is an experimental feature that must be enabled in settings. Please enable 'Image Generation' in the Experimental Settings section.".

(** The provider, key and model that the settings resolve to, or the message
    of the exit taken. *)
Definition selectProvider (env : Env)
    : jsstring + (ImageGenerationProvider * jsstring * jsstring) :=
  let selectedProvider :=
    orElse (stateField env imageGenerationProvider) (lit "openrouter") in
  if JsString.eqb selectedProvider (lit "openrouter") then
    match present (stateField env openRouterImageApiKey) with
    | None => inl msgOpenRouterKey
    | Some apiKey =>
        inr (openrouter, apiKey,
             orElse (stateField env openRouterImageGenerationSelectedModel)
               (firstModelOr openrouter
                  (lit "google/gemini-2.5-flash-image-preview")))
    end
  else if JsString.eqb selectedProvider (lit "gemini") then
    let providerKey :=
      match stateField env apiConfiguration with
      | Some c =>
          match apiProvider c with
          | Some p => if JsString.eqb p (lit "gemini") then geminiApiKey c else None
          | None => None
          end
      | None => None
      end in
    match present (orElseOpt (stateField env geminiImageApiKey) providerKey) with
    | None => inl msgGeminiKey
    | Some apiKey =>
        inr (gemini, apiKey,
             orElse (stateField env geminiImageGenerationSelectedModel)
               (firstModelOr gemini (lit "gemini-2.5-flash-image-preview")))
    end
  else
    inl (lit "Unsupported image generation provider: " ++ selectedProvider).

(** ASCII upper case of a code unit; others are left alone. *)
Definition upperAscii (c : codeunit) : codeunit :=
  if (N.leb 97 c && N.leb c 122)%bool then (c - 32)%N else c.

(** One pattern character of an ASCII pattern under the [i] flag. *)
Definition sameLetter (p c : codeunit) : bool :=
  N.ltb c 128 && N.eqb (upperAscii c) (upperAscii p).

Fixpoint startsWithCI (p s : jsstring) : bool :=
  match p, s with
  | [], _ => true
  | _ :: _, [] => false
  | a :: p', b :: s' => sameLetter a b && startsWithCI p' s'
  end.

(** The pattern [p] followed by the end of the string, case-insensitively. *)
Definition endsWithCI (p s : jsstring) : bool :=
  startsWithCI (List.rev p) (List.rev s).

(** [finalPath.match(/\.(png|jpg|jpeg)$/i)], read as a condition. *)
Definition hasImageExtension (p : jsstring) : bool :=
  existsb (fun ext => endsWithCI (lit "." ++ ext) p)
    [lit "png"; lit "jpg"; lit "jpeg"].

(** The path the image is written to. *)
Definition finalPathOf (relPath imageFormat : jsstring) : jsstring :=
  if hasImageExtension relPath then relPath
  else relPath ++ lit "."
         ++ (if JsString.eqb imageFormat (lit "jpeg") then lit "jpg"
             else imageFormat).

(** [new GeminiHandler({ geminiApiKey: apiKey })]: no Vertex setting, no
    base URL, and a client of its own for that key. *)
Definition newGeminiHandler (apiKey : jsstring) : GeminiHandler :=
  mkHandler (mkOptions None None) (NewGoogleGenAI apiKey).

(** What the pre-flight checks hand to the [try] block. *)
Record Request : Type := mkRequest
  { rq_prompt : jsstring
  ; rq_relPath : jsstring
  ; rq_inputImagePath : option jsstring
  ; rq_inputImageData : option jsstring
  ; rq_isWriteProtected : bool
  ; rq_provider : ImageGenerationProvider
  ; rq_apiKey : jsstring
  ; rq_model : jsstring }.

(** Everything before the [try] block: an exit, or the request. *)
Definition preflight (env : Env) (block : ToolUse) (s : Task) : Task + Request :=
  if negb (isImageGenerationEnabled env) then
    inl (emit (PushToolResult (toolError env msgExperimental)) s)
  else if partial block then inl s
  else
    match present (prompt block) with
    | None => inl (reportMissing env (lit "prompt") s)
    | Some prompt =>
        match present (path block) with
        | None => inl (reportMissing env (lit "path") s)
        | Some relPath =>
            if negb (accessAllowed env relPath) then
              inl (reportIgnored env relPath s)
            else
              match readInputImage env block s with
              | inl exit => inl exit
              | inr inputImageData =>
                  match selectProvider env with
                  | inl msg => inl (reportError env msg s)
                  | inr (provider, apiKey, model) =>
                      inr (mkRequest prompt relPath (present (image block))
                             inputImageData (isWriteProtected env relPath)
                             provider apiKey model)
                  end
              end
        end
    end.

(** The provider call: the result or the thrown value, and the task after
    it. *)
Definition callProvider (env : Env) (rq : Request) (s : Task)
    : Completion ImageGenerationResult * Task :=
  match rq_provider rq with
  | openrouter =>
      (openRouterGenerateImage env (rq_prompt rq) (rq_model rq) (rq_apiKey rq)
         (rq_inputImageData rq),
       emit (OpenRouterGenerateImage (rq_prompt rq) (rq_model rq) (rq_apiKey rq)
               (rq_inputImageData rq)) s)
  | gemini =>
      let '(outcome, w) :=
        generateImage (geminiTransport env) (newGeminiHandler (rq_apiKey rq))
          (rq_prompt rq) (rq_model rq) (Some (rq_apiKey rq))
          (rq_inputImageData rq) (world s) in
      (outcome,
       mkTask (actions s) (consecutiveMistakeCount s) (didEditFile s) w)
  end.

(** The statements from [fs.mkdir] to the end of the [try] block. *)
Definition saveImage (env : Env) (rq : Request) (imageFormat base64Data : jsstring)
    (s : Task) : Task :=
  let finalPath := finalPathOf (rq_relPath rq) imageFormat in
  let absolutePath := resolve env (cwd env) finalPath in
  let directory := dirname env absolutePath in
  let s1 := emit (Mkdir directory) s in
  match mkdir env directory with
  | Some error => emit (HandleError (lit "generating image") error) s1
  | None =>
      let s2 := emit (WriteFile absolutePath base64Data) s1 in
      match writeFile env absolutePath base64Data with
      | Some error => emit (HandleError (lit "generating image") error) s2
      | None =>
          let s3 :=
            if JsString.truthy finalPath
            then emit (TrackFileContext finalPath) s2 else s2 in
          let s4 :=
            emit (RecordToolUsage (lit "generate_image"))
              (mkTask (actions s3) (consecutiveMistakeCount s3) true (world s3)) in
          let fullImagePath := pathJoin env (cwd env) finalPath in
          let imageUri := webviewUri env fullImagePath in
          let imageUri :=
            if JsString.includes (lit "?") imageUri
            then imageUri ++ lit "&t=" ++ decimal (now env)
            else imageUri ++ lit "?t=" ++ decimal (now env) in
          emit (PushToolResult
                  (toolResult env (getReadablePath env (cwd env) finalPath)))
            (emit (SayImage imageUri fullImagePath) s4)
      end
  end.

(** The approval prompt of a request. *)
Definition approvalMessageOf (env : Env) (rq : Request) : ApprovalMessage :=
  let shownPath :=
    getReadablePath env (cwd env)
      (removeClosingTag env (lit "path") (rq_relPath rq)) in
  let fullPath :=
    resolve env (cwd env) (removeClosingTag env (lit "path") (rq_relPath rq)) in
  mkApprovalMessage (lit "generateImage") shownPath (rq_prompt rq)
    (isPathOutsideWorkspace env fullPath) (rq_isWriteProtected rq)
    (match rq_inputImagePath rq with
     | Some p => Some (getReadablePath env (cwd env) p)
     | None => None
     end).

(** The [try] block with its [catch]. *)
Definition execute (env : Env) (rq : Request) (s : Task) : Task :=
  let s0 := mkTask (actions s) 0 (didEditFile s) (world s) in
  let message := approvalMessageOf env rq in
  let s1 := emit (AskApproval message (rq_isWriteProtected rq)) s0 in
  if negb (askApproval env message (rq_isWriteProtected rq)) then s1
  else
    match callProvider env rq s1 with
    | (Abrupt error, s2) => emit (HandleError (lit "generating image") error) s2
    | (Normal result, s2) =>
        if negb (success result) then
          reportError env (orElse (error result) (lit "Failed to generate image")) s2
        else
          match present (imageData result) with
          | None => reportError env (lit "No image data received") s2
          | Some imageData =>
              match DataUrlPattern.matchDataUrl imageData with
              | None => reportError env (lit "Invalid image format received") s2
              | Some (imageFormat, base64Data) =>
                  saveImage env rq imageFormat base64Data s2
              end
          end
    end.

Definition generateImageTool (env : Env) (block : ToolUse) (s : Task) : Task :=
  match preflight env block s with
  | inl exit => exit
  | inr rq => execute env rq s
  end.

(** *** Vocabulary of the statements *)

(** What was done by a run that took [s] to [s']. *)
Definition doneBy (s s' : Task) : list Action :=
  skipn (List.length (actions s)) (actions s').

Definition isPush (a : Action) : bool :=
  match a with
  | PushToolResult _ => true
  | _ => false
  end.

(** The action reaches outside the conversation: a provider call or a change
    on disk. *)
Definition isOutward (a : Action) : bool :=
  match a with
  | OpenRouterGenerateImage _ _ _ _ | Mkdir _ | WriteFile _ _
  | TrackFileContext _ => true
  | _ => false
  end.

(** The action is an approval that the user gave. *)
Definition isGranted (env : Env) (a : Action) : bool :=
  match a with
  | AskApproval message isProtected => askApproval env message isProtected
  | _ => false
  end.

(** The same collaborators, with another ignore controller. *)
Definition withIgnore (env : Env) (c : option (jsstring -> bool)) : Env :=
  mkEnv (state env) (isImageGenerationEnabled env) (cwd env) c
    (rooProtectedController env) (missingParamError env) (toolError env)
    (rooIgnoreError env) (toolResult env) (getReadablePath env) (resolve env)
    (dirname env) (pathJoin env) (extnameLower env) (removeClosingTag env)
    (isPathOutsideWorkspace env) (fileExistsAtPath env) (readFileBase64 env)
    (askApproval env) (openRouterGenerateImage env) (geminiTransport env)
    (mkdir env) (writeFile env) (webviewUri env) (now env).

End Tool.

(** The exits of the pre-flight checks: what each one does, and to the
    mistake counter. *)
Inductive PreflightExit (env : Tool.Env) (block : Tool.ToolUse) (s : Tool.Task)
    : list Tool.Action -> N -> Prop :=
| ExitSilent :
    Tool.isImageGenerationEnabled env = true ->
    Tool.partial block = true ->
    PreflightExit env block s [] (Tool.consecutiveMistakeCount s)
| ExitPush (content : jsstring) :
    Tool.isImageGenerationEnabled env = false ->
    content = Tool.toolError env Tool.msgExperimental ->
    PreflightExit env block s [Tool.PushToolResult content]
      (Tool.consecutiveMistakeCount s)
| ExitSay (kind text content : jsstring) :
    Tool.isImageGenerationEnabled env = true ->
    Tool.partial block = false ->
    PreflightExit env block s [Tool.Say kind text; Tool.PushToolResult content]
      (Tool.consecutiveMistakeCount s)
| ExitMissing (param : jsstring) :
    Tool.isImageGenerationEnabled env = true ->
    Tool.partial block = false ->
    Tool.present (Tool.prompt block) = None \/
    Tool.present (Tool.path block) = None ->
    PreflightExit env block s
      [ Tool.RecordToolError (lit "generate_image")
      ; Tool.SayMissingParam (lit "generate_image") param
      ; Tool.PushToolResult
          (Tool.missingParamError env (lit "generate_image") param) ]
      (Tool.consecutiveMistakeCount s + 1).

(** The task after an exit of the pre-flight checks. *)
Definition exited (s : Tool.Task) (done : list Tool.Action) (count : N)
    : Tool.Task :=
  Tool.mkTask (Tool.actions s ++ done) count (Tool.didEditFile s) (Tool.world s).

(** A small environment for runs of the tool: every check passes, the files
    are where they are looked for, and the user approves. *)
Definition sampleState : Tool.ProviderState :=
  Tool.mkProviderState (Some (lit "gemini")) None None (Some (lit "key")) None
    None.

Definition sampleEnv (transport : Transport) : Tool.Env :=
  Tool.mkEnv (Some sampleState) true (lit "/work")
    (Some (fun _ => true)) None
    (fun tool param => lit "Missing value for required parameter '" ++ param ++ lit "'")
    (fun msg => lit "ERROR: " ++ msg)
    (fun p => lit "Access blocked by .rooignore: " ++ p)
    (fun p => lit "Saved " ++ p)
    (fun _ p => p)
    (fun cwd p => cwd ++ lit "/" ++ p)
    (fun _ => lit "/work")
    (fun cwd p => cwd ++ lit "/" ++ p)
    (fun _ => lit ".gif")
    (fun _ p => p)
    (fun _ => false)
    (fun _ => true)
    (fun _ => Normal (lit "R0lGODlh"))
    (fun _ _ => true)
    (fun _ _ _ _ => Normal (failure (lit "unused")))
    transport
    (fun _ => None)
    (fun _ _ => None)
    (fun p => lit "vscode-resource:" ++ p)
    1700000000000.

Definition emptyTask : Tool.Task := Tool.mkTask [] 0 false emptyWorld.

(** * Properties of [calculateCost] *)

Section CostFacts.

Variable info : ModelInfo.t.
Variables inputTokens outputTokens : float.
Variable cacheReadTokens : option float.

Lemma truthy_opt_Some (x : option float) :
  Number.truthy_opt x = true -> exists v, x = Some v /\ Number.truthy v = true.
Proof.
  destruct x as [v|]; simpl; intros H; [exists v; auto | discriminate].
Qed.

(** Past the availability check the locals are those of [costOf] under the
    adjusted prices. *)
Lemma calculateCost_locals_available (ip op crp : float) :
  Available info ip op crp ->
  calculateCost_locals info inputTokens outputTokens cacheReadTokens
  = Some (costOf (adjustPrices (ModelInfo.tiers info) inputTokens
                    (mkPrices ip op crp))
            inputTokens outputTokens (cacheReadTokens ?? 0%float)).
Proof.
  intros (Hi & Ho & Hc & Ti & To & Tc).
  unfold calculateCost_locals.
  rewrite Hi, Ho, Hc, Ti, To, Tc. reflexivity.
Qed.

Lemma calculateCost_available (ip op crp : float) :
  Available info ip op crp ->
  calculateCost info inputTokens outputTokens cacheReadTokens
  = JsNumber (totalCost
                (costOf (adjustPrices (ModelInfo.tiers info) inputTokens
                           (mkPrices ip op crp))
                   inputTokens outputTokens (cacheReadTokens ?? 0%float))).
Proof.
  intros H. unfold calculateCost.
  rewrite (calculateCost_locals_available H). reflexivity.
Qed.

(** A falsy base price stops the computation, whatever it is. *)
Lemma calculateCost_falsy :
  Number.truthy_opt (ModelInfo.inputPrice info) = false \/
  Number.truthy_opt (ModelInfo.outputPrice info) = false \/
  Number.truthy_opt (ModelInfo.cacheReadsPrice info) = false ->
  calculateCost info inputTokens outputTokens cacheReadTokens = JsUndefined.
Proof.
  unfold calculateCost, calculateCost_locals.
  destruct (ModelInfo.inputPrice info) as [ip|],
           (ModelInfo.outputPrice info) as [op|],
           (ModelInfo.cacheReadsPrice info) as [crp|]; simpl; try reflexivity.
  intros [H | [H | H]]; rewrite H; simpl;
    rewrite ?orb_true_r; reflexivity.
Qed.

End CostFacts.

(** The total is the sum the spec writes down. *)
Lemma totalCost_costOf (ps : Prices) (it ot crt : float) :
  totalCost (costOf ps it ot crt)
  = specCost (p_input ps) (p_output ps) (p_cacheReads ps) it ot crt.
Proof. reflexivity. Qed.

(** [find] returns the first element that passes, in list order. *)
Lemma findTier_first (it : float) (before after : list Tier.t) (tier : Tier.t) :
  Forall (fun t => (it <=? Tier.contextWindow t)%float = false) before ->
  (it <=? Tier.contextWindow tier)%float = true ->
  findTier it (before ++ tier :: after) = Some tier.
Proof.
  intros Hb Ht. unfold findTier.
  induction Hb as [|t l Hx _ IH]; simpl.
  - now rewrite Ht.
  - now rewrite Hx.
Qed.

Lemma findTier_none (it : float) (ts : list Tier.t) :
  Forall (fun t => (it <=? Tier.contextWindow t)%float = false) ts ->
  findTier it ts = None.
Proof.
  intros H. unfold findTier.
  induction H as [|t l Hx _ IH]; simpl; [reflexivity | now rewrite Hx].
Qed.

Lemma noTiers_NoTierOverride (info : ModelInfo.t) (it : float) :
  ModelInfo.tiers info = None -> NoTierOverride info it.
Proof. intros H base. unfold adjustPrices. now rewrite H. Qed.

Lemma noMatch_NoTierOverride (info : ModelInfo.t) (it : float)
    (ts : list Tier.t) :
  ModelInfo.tiers info = Some ts ->
  Forall (fun t => (it <=? Tier.contextWindow t)%float = false) ts ->
  NoTierOverride info it.
Proof.
  intros H Hall base. unfold adjustPrices.
  now rewrite H, (findTier_none Hall).
Qed.

Lemma zero_is_falsy (z : float) :
  (z =? 0)%float = true -> Number.truthy z = false.
Proof. intros H. unfold Number.truthy. now rewrite H. Qed.

Lemma flatModel_available : Available flatModel 2 10 1.
Proof. repeat split. Qed.

Lemma tieredModel_available : Available tieredModel 2 10 1.
Proof. repeat split. Qed.

(** Rounding makes the grouping of [price * tokens / 1e6] observable: the
    source divides the token count first. *)
#[warnings="-inexact-float"]
Example grouping_is_observable :
  (0.3 * 7 / 1000000)%float <> (0.3 * (7 / 1000000))%float.
Proof. vm_compute. discriminate. Qed.


(** C1 (as stated, refuted). The claim has [calculateCost] hand back a cost
    breakdown. On the flat model of the spec's worked example, all three
    prices listed, the method hands back the number 8 and no object. *)
Lemma C1_result_is_a_bare_number :
  Available flatModel 2 10 1 /\
  calculateCost flatModel 2000000 500000 (Some 1000000%float) = JsNumber 8 /\
  forall fields,
    calculateCost flatModel 2000000 500000 (Some 1000000%float)
    <> JsObject fields.
Proof.
  split; [exact flatModel_available |].
  split; [vm_compute; reflexivity |].
  intros fields. vm_compute. discriminate.
Qed.

(** C1 (amended). When the three base prices pass the availability check
    (present, non-zero, not NaN), [calculateCost] returns the total alone, as
    a number; for every other model it returns [undefined]; it never returns
    an object. The per-category breakdown exists only as the local [trace]:
    an [input] and an [output] entry, and a [cacheRead] entry exactly when
    [cacheReadTokens > 0], each with the price in force, the token count and
    the sub-cost; the returned total is the sum of these sub-costs. *)
Theorem C1_total_returned_breakdown_local
    (info : ModelInfo.t) (it ot : float) (crt : option float) :
  (forall ip op crp : float,
      Available info ip op crp ->
      let ps := adjustPrices (ModelInfo.tiers info) it (mkPrices ip op crp) in
      let c := crt ?? 0%float in
      let inputEntry :=
        mkTraceEntry (p_input ps) (it - c)
          (p_input ps * ((it - c) / 1000000)) in
      let outputEntry :=
        mkTraceEntry (p_output ps) ot (p_output ps * (ot / 1000000)) in
      let cacheEntry :=
        mkTraceEntry (p_cacheReads ps) c (p_cacheReads ps * (c / 1000000)) in
      exists locals,
        calculateCost_locals info it ot crt = Some locals /\
        calculateCost info it ot crt = JsNumber (totalCost locals) /\
        trace_get "input" (trace locals) = Some inputEntry /\
        trace_get "output" (trace locals) = Some outputEntry /\
        trace_get "cacheRead" (trace locals)
          = (if (0 <? c)%float then Some cacheEntry else None) /\
        totalCost locals
          = (cost inputEntry + cost outputEntry
             + (if (0 <? c)%float then cost cacheEntry else 0))%float)
  /\
  ((forall ip op crp : float, ~ Available info ip op crp) ->
   calculateCost_locals info it ot crt = None /\
   calculateCost info it ot crt = JsUndefined)
  /\
  (forall fields : JsFields, calculateCost info it ot crt <> JsObject fields).
Proof.
  split; [| split].
  - intros ip op crp H ps c inputEntry outputEntry cacheEntry.
    exists (costOf ps it ot c).
    split; [exact (calculateCost_locals_available it ot crt H) |].
    split; [exact (calculateCost_available it ot crt H) |].
    unfold costOf; simpl.
    destruct (0 <? c)%float; simpl; repeat split; reflexivity.
  - intros Hnone.
    assert (F : Number.truthy_opt (ModelInfo.inputPrice info) = false \/
                Number.truthy_opt (ModelInfo.outputPrice info) = false \/
                Number.truthy_opt (ModelInfo.cacheReadsPrice info) = false).
    { destruct (ModelInfo.inputPrice info) as [ip|] eqn:Ei;
        [| left; reflexivity].
      destruct (ModelInfo.outputPrice info) as [op|] eqn:Eo;
        [| right; left; reflexivity].
      destruct (ModelInfo.cacheReadsPrice info) as [crp|] eqn:Ec;
        [| right; right; reflexivity].
      simpl.
      destruct (Number.truthy ip) eqn:Ti; [| left; reflexivity].
      destruct (Number.truthy op) eqn:To; [| right; left; reflexivity].
      destruct (Number.truthy crp) eqn:Tc; [| right; right; reflexivity].
      exfalso. apply (Hnone ip op crp). repeat split; assumption. }
    pose proof (@calculateCost_falsy info it ot crt F) as Hu.
    split; [| exact Hu].
    unfold calculateCost in Hu.
    destruct (calculateCost_locals info it ot crt); [discriminate | reflexivity].
  - intros fields. unfold calculateCost.
    destruct (calculateCost_locals info it ot crt); discriminate.
Qed.

Lemma C1_total_returned_breakdown_local_witness :
  Available flatModel 2 10 1 /\
  exists locals,
    calculateCost_locals flatModel 2000000 500000 (Some 1000000%float)
      = Some locals /\
    calculateCost flatModel 2000000 500000 (Some 1000000%float)
      = JsNumber (totalCost locals) /\
    List.map fst (trace locals) = ["input"; "output"; "cacheRead"]%string.
Proof.
  split; [exact flatModel_available |].
  destruct (proj1 (@C1_total_returned_breakdown_local flatModel
                     2000000 500000 (Some 1000000))
              2 10 1 flatModel_available)%float
    as (locals & Hl & Hc & _).
  exists locals. split; [exact Hl |]. split; [exact Hc |].
  vm_compute in Hl. injection Hl as <-. reflexivity.
Defined.

(** C6 (as stated, refuted). The free-input model lists all three prices and
    has no tiers, yet its cost is [undefined], not the value of the
    formula. *)
Lemma C6_listed_zero_price_gives_undefined :
  ModelInfo.inputPrice freeInputModel = Some 0%float /\
  ModelInfo.outputPrice freeInputModel = Some 10%float /\
  ModelInfo.cacheReadsPrice freeInputModel = Some 1%float /\
  ModelInfo.tiers freeInputModel = None /\
  calculateCost freeInputModel 2000000 500000 (Some 1000000%float)
    = JsUndefined /\
  calculateCost freeInputModel 2000000 500000 (Some 1000000%float)
    <> JsNumber (specCost 0 10 1 2000000 500000 1000000).
Proof.
  repeat split; try reflexivity. vm_compute. discriminate.
Qed.

(** C6 (amended). When the three base prices pass the availability check
    (listed, non-zero, not NaN) and no tier changes them, [calculateCost]
    returns exactly
    [inputPrice * ((inputTokens - cacheReadTokens) / 1e6)
     + outputPrice * (outputTokens / 1e6)
     + (cacheReadTokens > 0 ? cacheReadsPrice * (cacheReadTokens / 1e6) : 0)]
    in binary64; on the worked example (prices 2, 10, 1 and 2,000,000 /
    500,000 / 1,000,000 tokens) the sub-costs are 2, 5 and 1 and the total
    is 8. *)
Theorem C6_cost_formula :
  (forall (info : ModelInfo.t) (ip op crp it ot : float) (crt : option float),
      Available info ip op crp ->
      NoTierOverride info it ->
      calculateCost info it ot crt
      = JsNumber (specCost ip op crp it ot (crt ?? 0%float)))
  /\
  (calculateCost flatModel 2000000 500000 (Some 1000000%float) = JsNumber 8 /\
   option_map
     (fun l => List.map (fun e => (fst e, cost (snd e))) (trace l))
     (calculateCost_locals flatModel 2000000 500000 (Some 1000000%float))
   = Some [ ("input"%string, 2%float); ("output"%string, 5%float);
            ("cacheRead"%string, 1%float) ]).
Proof.
  split.
  - intros info ip op crp it ot crt H Hno.
    rewrite (calculateCost_available it ot crt H).
    rewrite Hno, totalCost_costOf. reflexivity.
  - split; vm_compute; reflexivity.
Qed.

Lemma C6_cost_formula_witness :
  Available flatModel 2 10 1 /\
  NoTierOverride flatModel 2000000 /\
  calculateCost flatModel 2000000 500000 (Some 1000000%float)
  = JsNumber (specCost 2 10 1 2000000 500000 1000000).
Proof.
  split; [exact flatModel_available |].
  split; [intros base; reflexivity |].
  apply (proj1 C6_cost_formula flatModel 2 10 1 2000000 500000
           (Some 1000000))%float.
  - exact flatModel_available.
  - intros base; reflexivity.
Defined.

(** C7 (as stated, refuted). A model that defines the claim's own tiers
    and lists all three base prices, the input price being zero: with 500000
    input tokens the second tier qualifies and defines the input price 0.5,
    yet no tier is selected and no price overridden -- the availability check
    on the base prices comes first and the cost is [undefined]. *)
Lemma C7_tiers_unused_when_base_price_is_zero :
  ModelInfo.inputPrice freeBaseTieredModel = Some 0%float /\
  ModelInfo.outputPrice freeBaseTieredModel = Some 10%float /\
  ModelInfo.cacheReadsPrice freeBaseTieredModel = Some 1%float /\
  ModelInfo.tiers freeBaseTieredModel
  = Some [ Tier.Build 128000 (Some 1%float) None None
         ; Tier.Build 1000000 (Some 0.5%float) None None ] /\
  findTier 500000 [ Tier.Build 128000 (Some 1%float) None None
                  ; Tier.Build 1000000 (Some 0.5%float) None None ]
  = Some (Tier.Build 1000000 (Some 0.5%float) None None) /\
  calculateCost_locals freeBaseTieredModel 500000 0 None = None /\
  calculateCost freeBaseTieredModel 500000 0 None = JsUndefined /\
  calculateCost freeBaseTieredModel 500000 0 None
  <> JsNumber (specCost 0.5 10 1 500000 0 0).
Proof.
  repeat split; try reflexivity. vm_compute. discriminate.
Qed.

(** C7 (amended). When the three base prices pass the availability check
    (present, non-zero, not NaN) and the model has tiers, the tier used is
    the first one in list order with [inputTokens <= contextWindow]; each
    price that this tier defines replaces the base price and each price it
    leaves undefined falls back to the base price; when no tier qualifies the
    base prices stay. With base prices 2, 10, 1, tiers
    [{128000, inputPrice 1}; {1000000, inputPrice 0.5}] and 500000 input
    tokens the input price in force is 0.5, not the base price 2. *)
Theorem C7_first_matching_tier_overrides :
  (forall (info : ModelInfo.t) (ip op crp it ot : float) (crt : option float)
          (before after : list Tier.t) (tier : Tier.t),
      Available info ip op crp ->
      ModelInfo.tiers info = Some (before ++ tier :: after) ->
      Forall (fun t => (it <=? Tier.contextWindow t)%float = false) before ->
      (it <=? Tier.contextWindow tier)%float = true ->
      findTier it (before ++ tier :: after) = Some tier /\
      calculateCost info it ot crt
      = JsNumber (specCost (Tier.inputPrice tier ?? ip)
                    (Tier.outputPrice tier ?? op)
                    (Tier.cacheReadsPrice tier ?? crp)
                    it ot (crt ?? 0%float)))
  /\
  (forall (info : ModelInfo.t) (ip op crp it ot : float) (crt : option float)
          (ts : list Tier.t),
      Available info ip op crp ->
      ModelInfo.tiers info = Some ts ->
      Forall (fun t => (it <=? Tier.contextWindow t)%float = false) ts ->
      calculateCost info it ot crt
      = JsNumber (specCost ip op crp it ot (crt ?? 0%float)))
  /\
  (findTier 500000 [ Tier.Build 128000 (Some 1%float) None None
                   ; Tier.Build 1000000 (Some 0.5%float) None None ]
   = Some (Tier.Build 1000000 (Some 0.5%float) None None) /\
   (forall (ot : float) (crt : option float),
       calculateCost tieredModel 500000 ot crt
       = JsNumber (specCost 0.5 10 1 500000 ot (crt ?? 0%float))) /\
   calculateCost tieredModel 500000 0 None = JsNumber 0.25 /\
   specCost 2 10 1 500000 0 0 = 1%float).
Proof.
  split; [| split].
  - intros info ip op crp it ot crt before after tier H Hts Hb Ht.
    pose proof (@findTier_first it before after tier Hb Ht) as Hfind.
    split; [exact Hfind |].
    rewrite (calculateCost_available it ot crt H), totalCost_costOf.
    unfold adjustPrices. rewrite Hts, Hfind. reflexivity.
  - intros info ip op crp it ot crt ts H Hts Hall.
    rewrite (calculateCost_available it ot crt H), totalCost_costOf.
    unfold adjustPrices. rewrite Hts, (findTier_none Hall). reflexivity.
  - split; [vm_compute; reflexivity |].
    split; [| split; vm_compute; reflexivity].
    intros ot crt.
    rewrite (calculateCost_available 500000 ot crt tieredModel_available).
    rewrite totalCost_costOf. reflexivity.
Qed.

Lemma C7_first_matching_tier_overrides_witness :
  Available tieredModel 2 10 1 /\
  (500000 <=? 128000)%float = false /\
  (500000 <=? 1000000)%float = true /\
  calculateCost tieredModel 500000 500000 None = JsNumber 5.25.
Proof.
  split; [exact tieredModel_available |].
  split; [reflexivity |]. split; [reflexivity |].
  destruct (proj1 C7_first_matching_tier_overrides tieredModel
              2 10 1 500000 500000 None
              [Tier.Build 128000 (Some 1) None None] []
              (Tier.Build 1000000 (Some 0.5) None None)
              tieredModel_available eq_refl)%float
    as [_ Hcost].
  - constructor; [reflexivity | constructor].
  - reflexivity.
  - rewrite Hcost. vm_compute. reflexivity.
Defined.

(** C8. A model whose price table lacks [inputPrice], [outputPrice] or
    [cacheReadsPrice] has cost [undefined] -- not a number, so not zero --
    whatever the token counts and the remaining fields are. *)
Theorem C8_missing_price_gives_undefined
    (info : ModelInfo.t) (it ot : float) (crt : option float) :
  ModelInfo.inputPrice info = None \/
  ModelInfo.outputPrice info = None \/
  ModelInfo.cacheReadsPrice info = None ->
  calculateCost info it ot crt = JsUndefined /\
  forall n, calculateCost info it ot crt <> JsNumber n.
Proof.
  intros H.
  assert (E : calculateCost info it ot crt = JsUndefined).
  { apply calculateCost_falsy.
    destruct H as [H | [H | H]]; rewrite H; simpl; auto. }
  split; [exact E |]. intros n. rewrite E. discriminate.
Qed.

Lemma C8_missing_price_gives_undefined_witness :
  ModelInfo.cacheReadsPrice noCacheModel = None /\
  calculateCost noCacheModel 2000000 500000 (Some 1000000%float) = JsUndefined.
Proof.
  split; [reflexivity |].
  apply (C8_missing_price_gives_undefined noCacheModel 2000000 500000
           (Some 1000000%float)).
  right; right; reflexivity.
Defined.

(** C10. A base price that is listed but equal to zero fails the
    availability check exactly as a missing one does, so the cost is
    [undefined]; a price of zero in the selected tier, on the contrary,
    replaces a non-zero base price, and the corresponding sub-cost is
    computed with the price zero. *)
Theorem C10_zero_base_price_versus_zero_tier_price :
  (forall (info : ModelInfo.t) (it ot z : float) (crt : option float),
      (z =? 0)%float = true ->
      ModelInfo.inputPrice info = Some z \/
      ModelInfo.outputPrice info = Some z \/
      ModelInfo.cacheReadsPrice info = Some z ->
      calculateCost info it ot crt = JsUndefined)
  /\
  (forall (info : ModelInfo.t) (ip op crp it ot : float) (crt : option float)
          (ts : list Tier.t) (tier : Tier.t),
      Available info ip op crp ->
      ModelInfo.tiers info = Some ts ->
      findTier it ts = Some tier ->
      let ps := adjustPrices (ModelInfo.tiers info) it (mkPrices ip op crp) in
      (Tier.inputPrice tier = Some 0%float -> p_input ps = 0%float) /\
      (Tier.outputPrice tier = Some 0%float -> p_output ps = 0%float) /\
      (Tier.cacheReadsPrice tier = Some 0%float -> p_cacheReads ps = 0%float) /\
      calculateCost info it ot crt
      = JsNumber (specCost (p_input ps) (p_output ps) (p_cacheReads ps)
                    it ot (crt ?? 0%float)))
  /\
  (calculateCost freeInputModel 125000 0 None = JsUndefined /\
   calculateCost freeTierModel 125000 0 None = JsNumber 0 /\
   specCost 2 10 1 125000 0 0 = 0.25%float).
Proof.
  split; [| split].
  - intros info it ot z crt Hz H.
    apply calculateCost_falsy.
    destruct H as [H | [H | H]]; rewrite H; simpl;
      rewrite (@zero_is_falsy z Hz); auto.
  - intros info ip op crp it ot crt ts tier H Hts Hfind ps.
    assert (Eps : ps = mkPrices (Tier.inputPrice tier ?? ip)
                         (Tier.outputPrice tier ?? op)
                         (Tier.cacheReadsPrice tier ?? crp)).
    { unfold ps, adjustPrices. rewrite Hts, Hfind. reflexivity. }
    repeat split.
    + intros E. rewrite Eps. simpl. now rewrite E.
    + intros E. rewrite Eps. simpl. now rewrite E.
    + intros E. rewrite Eps. simpl. now rewrite E.
    + rewrite (calculateCost_available it ot crt H), totalCost_costOf.
      reflexivity.
  - repeat split; vm_compute; reflexivity.
Qed.

Lemma C10_zero_base_price_versus_zero_tier_price_witness :
  (0 =? 0)%float = true /\
  ModelInfo.inputPrice freeInputModel = Some 0%float /\
  calculateCost freeInputModel 2000000 500000 (Some 1000000%float)
  = JsUndefined.
Proof.
  split; [reflexivity |]. split; [reflexivity |].
  apply (proj1 C10_zero_base_price_versus_zero_tier_price freeInputModel
           2000000 500000 0 (Some 1000000) eq_refl)%float.
  left; reflexivity.
Defined.

(** * Properties of the string operations *)

Lemma startsWith_app (p r : jsstring) : JsString.startsWith p (p ++ r) = true.
Proof.
  induction p as [|a p IH]; simpl; [reflexivity |].
  now rewrite N.eqb_refl, IH.
Qed.

Lemma startsWith_split (p s : jsstring) :
  JsString.startsWith p s = true -> s = p ++ skipn (List.length p) s.
Proof.
  revert s. induction p as [|a p IH]; intros s H; simpl in *; [reflexivity |].
  destruct s as [|b s]; [discriminate |].
  apply andb_true_iff in H as [Hab Hps].
  apply N.eqb_eq in Hab. subst b.
  f_equal. now apply IH.
Qed.

Lemma skipn_prefix (p r : jsstring) : skipn (List.length p) (p ++ r) = r.
Proof. induction p as [|a p IH]; simpl; auto. Qed.

Lemma after_app (p r : jsstring) : DataUrlPattern.after p (p ++ r) = Some r.
Proof.
  unfold DataUrlPattern.after. now rewrite startsWith_app, skipn_prefix.
Qed.

Lemma after_inv (p s r : jsstring) :
  DataUrlPattern.after p s = Some r -> s = p ++ r.
Proof.
  unfold DataUrlPattern.after.
  destruct (JsString.startsWith p s) eqn:E; [| discriminate].
  intros [= <-]. now apply startsWith_split.
Qed.

Lemma includes_unfold (p s : jsstring) :
  JsString.includes p s
  = JsString.startsWith p s
    || match s with [] => false | _ :: s' => JsString.includes p s' end.
Proof. destruct s; reflexivity. Qed.

Lemma includes_app (a p b : jsstring) : JsString.includes p (a ++ p ++ b) = true.
Proof.
  induction a as [|x a IH].
  - simpl app. now rewrite includes_unfold, startsWith_app.
  - change ((x :: a) ++ p ++ b) with (x :: (a ++ p ++ b)).
    rewrite includes_unfold. cbv beta iota. rewrite IH. apply orb_true_r.
Qed.

(** Replacing a prefix removes it. *)
Lemma replace_unfold (p rep s : jsstring) :
  JsString.replace p rep s
  = if JsString.startsWith p s then rep ++ skipn (List.length p) s
    else match s with [] => [] | c :: s' => c :: JsString.replace p rep s' end.
Proof. destruct s; reflexivity. Qed.

Lemma replace_prefix (p rep r : jsstring) :
  JsString.replace p rep (p ++ r) = rep ++ r.
Proof. now rewrite replace_unfold, startsWith_app, skipn_prefix. Qed.

Lemma truthy_nonempty (s : jsstring) : JsString.truthy s = true <-> s <> [].
Proof. destruct s; simpl; split; congruence. Qed.

Lemma dotPlusToEnd_iff (s payload : jsstring) :
  DataUrlPattern.dotPlusToEnd s = Some payload <->
  payload = s /\ s <> [] /\
  forallb (fun c => negb (DataUrlPattern.isLineTerminator c)) s = true.
Proof.
  unfold DataUrlPattern.dotPlusToEnd.
  destruct (JsString.truthy s) eqn:T; simpl.
  - apply truthy_nonempty in T.
    destruct (forallb _ s) eqn:F; split.
    + intros [= <-]; auto.
    + intros (-> & _ & _); reflexivity.
    + discriminate.
    + intros (_ & _ & ?); discriminate.
  - split; [discriminate |].
    intros (_ & Hne & _). apply truthy_nonempty in Hne. congruence.
Qed.

Lemma tryAlternative_inv (alt rest sub payload : jsstring) :
  DataUrlPattern.tryAlternative alt rest = Some (sub, payload) ->
  sub = alt /\ rest = alt ++ lit ";base64," ++ payload /\ payload <> [] /\
  forallb (fun c => negb (DataUrlPattern.isLineTerminator c)) payload = true.
Proof.
  unfold DataUrlPattern.tryAlternative.
  destruct (DataUrlPattern.after alt rest) as [r1|] eqn:E1; [| discriminate].
  destruct (DataUrlPattern.after (lit ";base64,") r1) as [r2|] eqn:E2;
    [| discriminate].
  destruct (DataUrlPattern.dotPlusToEnd r2) as [pl|] eqn:E3; [| discriminate].
  intros [= <- <-].
  apply after_inv in E1, E2. apply dotPlusToEnd_iff in E3 as (-> & Hne & Hl).
  subst. auto.
Qed.

Lemma tryAlternative_app (alt payload : jsstring) :
  payload <> [] ->
  forallb (fun c => negb (DataUrlPattern.isLineTerminator c)) payload = true ->
  DataUrlPattern.tryAlternative alt (alt ++ lit ";base64," ++ payload)
  = Some (alt, payload).
Proof.
  intros Hne Hl. unfold DataUrlPattern.tryAlternative.
  rewrite !after_app.
  assert (E : DataUrlPattern.dotPlusToEnd payload = Some payload)
    by (apply dotPlusToEnd_iff; auto).
  now rewrite E.
Qed.

Lemma firstAlternative_cons (alt : jsstring) (alts : list jsstring)
    (rest : jsstring) :
  DataUrlPattern.firstAlternative (alt :: alts) rest
  = match DataUrlPattern.tryAlternative alt rest with
    | Some m => Some m
    | None => DataUrlPattern.firstAlternative alts rest
    end.
Proof. reflexivity. Qed.

Lemma firstAlternative_inv (alts : list jsstring) (rest sub payload : jsstring) :
  DataUrlPattern.firstAlternative alts rest = Some (sub, payload) ->
  In sub alts /\ rest = sub ++ lit ";base64," ++ payload /\ payload <> [] /\
  forallb (fun c => negb (DataUrlPattern.isLineTerminator c)) payload = true.
Proof.
  induction alts as [|alt alts IH]; [discriminate |].
  rewrite firstAlternative_cons.
  destruct (DataUrlPattern.tryAlternative alt rest) as [m|] eqn:E.
  - intros [= ->]. apply tryAlternative_inv in E as (-> & -> & ? & ?).
    simpl; auto.
  - intros H. apply IH in H as (? & ? & ? & ?). simpl; auto.
Qed.

(** The embedded pattern accepts exactly the strings of the written
    pattern, and returns its two groups. *)
Lemma matchDataUrl_spec (s sub payload : jsstring) :
  DataUrlPattern.matchDataUrl s = Some (sub, payload) <->
  MatchesPattern s sub payload.
Proof.
  unfold DataUrlPattern.matchDataUrl, MatchesPattern. split.
  - destruct (DataUrlPattern.after (lit "data:image/") s) as [rest|] eqn:E;
      [| discriminate].
    apply after_inv in E. subst s. intros H.
    apply firstAlternative_inv in H as (Hin & -> & Hne & Hl). auto.
  - intros (Hin & -> & Hne & Hl).
    rewrite after_app, !firstAlternative_cons.
    destruct Hin as [<- | [<- | [<- | []]]].
    + now rewrite (tryAlternative_app (lit "png") Hne Hl).
    + replace (DataUrlPattern.tryAlternative (lit "png")
                 (lit "jpeg" ++ lit ";base64," ++ payload))
        with (@None (jsstring * jsstring)) by reflexivity.
      now rewrite (tryAlternative_app (lit "jpeg") Hne Hl).
    + replace (DataUrlPattern.tryAlternative (lit "png")
                 (lit "jpg" ++ lit ";base64," ++ payload))
        with (@None (jsstring * jsstring)) by reflexivity.
      replace (DataUrlPattern.tryAlternative (lit "jpeg")
                 (lit "jpg" ++ lit ";base64," ++ payload))
        with (@None (jsstring * jsstring)) by reflexivity.
      now rewrite (tryAlternative_app (lit "jpg") Hne Hl).
Qed.

(** * Properties of [generateImage] *)

(** One turn of the loop. *)
Lemma scanParts_cons (part : Part) (rest : list Part) (d : option jsstring)
    (f : jsstring) :
  scanParts (part :: rest) d f
  = if isImagePart part
    then
      match inlineData part with
      | Some blob =>
          (Some (lit "data:" ++ JsString.interpolate (mimeType blob)
                   ++ lit ";base64," ++ JsString.interpolate (data blob)),
           JsString.replace (lit "jpeg") (lit "jpg")
             (JsString.replace (lit "image/") []
                (JsString.interpolate (mimeType blob))))
      | None => scanParts rest d f
      end
    else scanParts rest d f.
Proof.
  unfold isImagePart. cbn [scanParts].
  destruct (inlineData part) as [blob|]; [| reflexivity].
  destruct (mimeType blob) as [mime|]; [| reflexivity].
  reflexivity.
Qed.

(** The loop leaves its variables alone while no part carries an image. *)
Lemma scanParts_no_image (ps : list Part) (d : option jsstring) (f : jsstring) :
  hasImagePart ps = false -> scanParts ps d f = (d, f).
Proof.
  induction ps as [|part ps IH]; [reflexivity |].
  intros H. apply orb_false_iff in H as [Hp Hps].
  rewrite scanParts_cons, Hp. now apply IH.
Qed.

Lemma isImagePart_true (part : Part) (blob : Blob) (mime : jsstring) :
  inlineData part = Some blob ->
  mimeType blob = Some mime ->
  JsString.startsWith (lit "image/") mime = true ->
  isImagePart part = true.
Proof. intros Hi Hm Hs. unfold isImagePart. now rewrite Hi, Hm. Qed.

(** The loop stops at the first part that carries an image. *)
Lemma scanParts_first_image (before after : list Part) (part : Part)
    (blob : Blob) (mime : jsstring) (d : option jsstring) (f : jsstring) :
  hasImagePart before = false ->
  inlineData part = Some blob ->
  mimeType blob = Some mime ->
  JsString.startsWith (lit "image/") mime = true ->
  scanParts (before ++ part :: after) d f
  = (Some (lit "data:" ++ mime ++ lit ";base64,"
             ++ JsString.interpolate (data blob)),
     JsString.replace (lit "jpeg") (lit "jpg")
       (skipn 6 mime)).
Proof.
  intros Hb Hi Hm Hs.
  induction before as [|p before IH].
  - change ([] ++ part :: after) with (part :: after).
    rewrite scanParts_cons, (isImagePart_true _ Hi Hm Hs), Hi, Hm.
    cbn [JsString.interpolate].
    rewrite (startsWith_split _ _ Hs) at 2.
    rewrite replace_prefix. reflexivity.
  - apply orb_false_iff in Hb as [Hp Hb].
    change ((p :: before) ++ part :: after)
      with (p :: (before ++ part :: after)).
    rewrite scanParts_cons, Hp. now apply IH.
Qed.

(** What the loop can leave in [imageData]: nothing, or a data URL. *)
Lemma scanParts_data_url (ps : list Part) (f : jsstring) :
  match fst (scanParts ps None f) with
  | Some d => isDataUrl d = true /\ JsString.truthy d = true
  | None => hasImagePart ps = false
  end.
Proof.
  induction ps as [|part ps IH]; [reflexivity |].
  rewrite scanParts_cons.
  change (hasImagePart (part :: ps))
    with (isImagePart part || hasImagePart ps).
  destruct (isImagePart part) eqn:Hp; [| exact IH].
  unfold isImagePart in Hp.
  destruct (inlineData part) as [blob|]; [| discriminate].
  cbn [fst]. split; [| reflexivity].
  unfold isDataUrl.
  rewrite startsWith_app.
  change 5 with (List.length (lit "data:")).
  rewrite skipn_prefix. apply includes_app.
Qed.

Lemma prepareContents_early (prompt : jsstring) (inputImage : option jsstring)
    (res : ImageGenerationResult) :
  prepareContents prompt inputImage = inl res -> res = failure msgInvalidInput.
Proof.
  unfold prepareContents.
  destruct inputImage as [img|]; [| discriminate].
  destruct (JsString.truthy img); [| discriminate].
  destruct (DataUrlPattern.matchDataUrl img) as [[g1 g2]|]; [discriminate |].
  now intros [= <-].
Qed.

(** Every outcome of the statements after the call. *)
Lemma extractImage_cases (r : GenerateContentResponse) :
  extractImage r = failure msgNoCandidates \/
  extractImage r = failure msgNoContentParts \/
  extractImage r = failure msgNoImageData \/
  exists d f, extractImage r = generated d f /\ isDataUrl d = true.
Proof.
  unfold extractImage.
  destruct (candidates r) as [[|c rest]|]; auto.
  destruct (content c) as [ct|]; auto.
  destruct (parts ct) as [ps|]; auto.
  pose proof (scanParts_data_url ps (lit "png")) as H.
  destruct (scanParts ps None (lit "png")) as [[d|] f]; simpl in H; auto.
  destruct H as [Hd Ht]. rewrite Ht. right; right; right. eauto.
Qed.

Section GenerateImageFacts.

Variable transport : Transport.
Variable this : GeminiHandler.
Variables prompt model : jsstring.
Variables apiKey inputImage : option jsstring.
Variable w : World.

(** An early [return] leaves the world as it was. *)
Lemma generateImage_early (res : ImageGenerationResult) :
  prepareContents prompt inputImage = inl res ->
  generateImage transport this prompt model apiKey inputImage w
  = (Normal res, w).
Proof.
  intros H. unfold generateImage, tryCatch, generateImage_try.
  now rewrite H.
Qed.

(** An answered call: one more entry in the record, the answer parsed. *)
Lemma generateImage_answered (contents : list Content)
    (r : GenerateContentResponse) :
  prepareContents prompt inputImage = inr contents ->
  transport (chooseClient this apiKey) (requestParams this model contents)
    = Normal r ->
  generateImage transport this prompt model apiKey inputImage w
  = (Normal (extractImage r),
         mkWorld (calls w ++ [(chooseClient this apiKey,
                               requestParams this model contents)])
                 (console w)).
Proof.
  intros H Ht.
  unfold generateImage, tryCatch, generateImage_try.
  rewrite H. unfold bind, generateContent. now rewrite Ht.
Qed.

(** A call that throws: the [catch] block builds the result. *)
Lemma generateImage_failed (contents : list Content) (t : Thrown) :
  prepareContents prompt inputImage = inr contents ->
  transport (chooseClient this apiKey) (requestParams this model contents)
    = Abrupt t ->
  generateImage transport this prompt model apiKey inputImage w
  = (Normal (failure (msgFailedPrefix ++ errorMessageOf t)),
         mkWorld (calls w ++ [(chooseClient this apiKey,
                               requestParams this model contents)])
                 (console w ++ [[lit "Gemini image generation error:";
                                 errorMessageOf t]])).
Proof.
  intros H Ht.
  unfold generateImage, tryCatch, generateImage_try.
  rewrite H. unfold bind, generateContent. now rewrite Ht.
Qed.

(** Whatever the [try] block throws ends in the [catch] block's result. *)
Lemma generateImage_caught (t : Thrown) (w1 : World) :
  generateImage_try transport this prompt model apiKey inputImage w
    = (Abrupt t, w1) ->
  fst (generateImage transport this prompt model apiKey inputImage w)
  = Normal (failure (msgFailedPrefix ++ errorMessageOf t)).
Proof.
  intros H. unfold generateImage, tryCatch. now rewrite H.
Qed.

(** The three ways through the method. *)
Lemma generateImage_cases :
  generateImage transport this prompt model apiKey inputImage w
  = (Normal (failure msgInvalidInput), w) \/
  (exists r, Answered transport this prompt model apiKey inputImage r /\
             fst (generateImage transport this prompt model apiKey inputImage w)
             = Normal (extractImage r)) \/
  (exists t, Failed transport this prompt model apiKey inputImage t /\
             fst (generateImage transport this prompt model apiKey inputImage w)
             = Normal (failure (msgFailedPrefix ++ errorMessageOf t))).
Proof.
  destruct (prepareContents prompt inputImage) as [res|contents] eqn:H.
  - left. rewrite (generateImage_early H).
    now rewrite (prepareContents_early _ _ H).
  - destruct (transport (chooseClient this apiKey)
                (requestParams this model contents)) as [r|t] eqn:Ht.
    + right; left. exists r. split; [now exists contents |].
      now rewrite (generateImage_answered H Ht).
    + right; right. exists t. split; [now exists contents |].
      now rewrite (generateImage_failed H Ht).
Qed.

End GenerateImageFacts.

(** Runs on stub providers. *)

Example audio_part_is_not_an_image :
  fst (generateImage (respondWith (responseOf [textPart; audioPart])) plainHandler
         (lit "a red kite") (lit "gemini-2.5-flash-image-preview") None None
         emptyWorld)
  = Normal (failure (lit "No image data found in the response")).
Proof. reflexivity. Qed.

Example empty_parts_array_has_no_image :
  fst (generateImage (respondWith (responseOf [])) plainHandler
         (lit "a red kite") (lit "gemini-2.5-flash-image-preview") None None
         emptyWorld)
  = Normal (failure (lit "No image data found in the response")).
Proof. reflexivity. Qed.

Example missing_data_prints_as_undefined :
  fst (generateImage (respondWith (responseOf [undataPart])) plainHandler
         (lit "a red kite") (lit "gemini-2.5-flash-image-preview") None None
         emptyWorld)
  = Normal (generated (lit "data:image/png;base64,undefined") (lit "png")).
Proof. reflexivity. Qed.

Example jpg_input_goes_out_as_jpeg :
  prepareContents (lit "make it blue") (Some (lit "data:image/jpg;base64,/9j/4AAQ"))
  = inr [ mkContent (Some (lit "user"))
            (Some [ mkPart (Some (lit "make it blue")) None
                  ; mkPart None (Some (mkBlob (Some (lit "image/jpeg"))
                                               (Some (lit "/9j/4AAQ")))) ]) ].
Proof. reflexivity. Qed.

Example payload_with_line_break_is_rejected :
  DataUrlPattern.matchDataUrl
    (lit "data:image/png;base64,iVBOR" ++ [10%N] ++ lit "w0KGgo=") = None.
Proof. reflexivity. Qed.

(** [generateImage] always completes normally. *)
Lemma generateImage_total (transport : Transport) (this : GeminiHandler)
    (prompt model : jsstring) (apiKey inputImage : option jsstring) (w : World) :
  exists res w',
    generateImage transport this prompt model apiKey inputImage w
    = (Normal res, w').
Proof.
  destruct (generateImage_cases transport this prompt model apiKey inputImage w)
    as [H | [(r & _ & H) | (t & _ & H)]];
    destruct (generateImage transport this prompt model apiKey inputImage w)
      as [[res|t'] w'] eqn:E; try discriminate; eauto.
Qed.

(** C2. [generateImage] never completes abruptly: on every input, every
    world and every behaviour of the provider it returns a result. Whatever
    is thrown inside the [try] block -- in particular by the provider call --
    comes back as [success: false] with error
    ["Failed to generate image: " ++ message], where the message is the
    thrown error's own, or ["Unknown error occurred"] when the thrown value
    is not an [Error]. *)
Theorem C2_no_exception_escapes (transport : Transport) (this : GeminiHandler)
    (prompt model : jsstring) (apiKey inputImage : option jsstring) (w : World) :
  (exists res w',
      generateImage transport this prompt model apiKey inputImage w
      = (Normal res, w')) /\
  (forall t w1,
      generateImage_try transport this prompt model apiKey inputImage w
      = (Abrupt t, w1) ->
      fst (generateImage transport this prompt model apiKey inputImage w)
      = Normal (mkResult false None None
                  (Some (lit "Failed to generate image: " ++ errorMessageOf t)))) /\
  (forall t,
      Failed transport this prompt model apiKey inputImage t ->
      fst (generateImage transport this prompt model apiKey inputImage w)
      = Normal (mkResult false None None
                  (Some (lit "Failed to generate image: " ++ errorMessageOf t)))) /\
  (forall message, errorMessageOf (ThrownError message) = message) /\
  errorMessageOf ThrownOther = lit "Unknown error occurred".
Proof.
  split; [apply generateImage_total |].
  split; [intros t w1 H;
          exact (@generateImage_caught transport this prompt model apiKey
                   inputImage w t w1 H) |].
  split; [| split; reflexivity].
  intros t (contents & H & Ht).
  now rewrite (@generateImage_failed transport this prompt model apiKey
                 inputImage w contents t H Ht).
Qed.

Lemma C2_no_exception_escapes_witness :
  Failed (failWith (ThrownError (lit "fetch failed"))) plainHandler
    (lit "a red kite") (lit "gemini-2.5-flash-image-preview") None None
    (ThrownError (lit "fetch failed")) /\
  fst (generateImage (failWith (ThrownError (lit "fetch failed"))) plainHandler
         (lit "a red kite") (lit "gemini-2.5-flash-image-preview") None None
         emptyWorld)
  = Normal (failure (lit "Failed to generate image: fetch failed")).
Proof.
  assert (F : Failed (failWith (ThrownError (lit "fetch failed"))) plainHandler
                (lit "a red kite") (lit "gemini-2.5-flash-image-preview")
                None None (ThrownError (lit "fetch failed"))).
  { eexists. split; reflexivity. }
  split; [exact F |].
  exact (proj1 (proj2 (proj2
           (C2_no_exception_escapes
              (failWith (ThrownError (lit "fetch failed"))) plainHandler
              (lit "a red kite") (lit "gemini-2.5-flash-image-preview")
              None None emptyWorld))) _ F).
Defined.

(** C3 (as stated, refuted). The empty string is an input image that does
    not match the pattern, yet the method does not reject it: the guard
    [if (inputImage)] takes it for "no image", the request goes out (one
    recorded call) and the provider's image comes back. *)
Lemma C3_empty_input_image_reaches_provider :
  DataUrlPattern.matchDataUrl [] = None /\
  fst (generateImage (respondWith (responseOf [pngPart])) plainHandler
         (lit "a red kite") (lit "gemini-2.5-flash-image-preview")
         (Some (lit "key")) (Some []) emptyWorld)
  = Normal (generated (lit "data:image/png;base64,iVBORw0KGgo=") (lit "png")) /\
  List.length
    (calls (snd (generateImage (respondWith (responseOf [pngPart])) plainHandler
                   (lit "a red kite") (lit "gemini-2.5-flash-image-preview")
                   (Some (lit "key")) (Some []) emptyWorld)))
  = 1.
Proof. repeat split. Qed.

(** C3 (amended). A non-empty [inputImage] that does not match
    [/^data:image\/(png|jpeg|jpg);base64,(.+)$/] makes [generateImage] return
    [{ success: false,
       error: "Invalid input image format. Expected base64 data URL." }]
    with the world untouched: no call reaches the provider. The empty string
    is taken by the guard [if (inputImage)] for no image at all: the call
    behaves exactly as the call without [inputImage], and the one request it
    sends carries the prompt as its only part. *)
Theorem C3_malformed_input_image_rejected (transport : Transport)
    (this : GeminiHandler) (prompt model : jsstring) (apiKey : option jsstring)
    (w : World) :
  (forall img : jsstring,
      img <> [] ->
      DataUrlPattern.matchDataUrl img = None ->
      generateImage transport this prompt model apiKey (Some img) w
      = (Normal (mkResult false None None
                   (Some (lit "Invalid input image format. Expected base64 data URL."))),
         w) /\
      calls (snd (generateImage transport this prompt model apiKey (Some img) w))
      = calls w)
  /\
  (generateImage transport this prompt model apiKey (Some []) w
   = generateImage transport this prompt model apiKey None w /\
   calls (snd (generateImage transport this prompt model apiKey (Some []) w))
   = calls w
     ++ [ (chooseClient this apiKey,
           requestParams this model
             [ mkContent (Some (lit "user"))
                 (Some [ mkPart (Some prompt) None ]) ]) ]).
Proof.
  split.
  - intros img Hne Hm.
    assert (E : generateImage transport this prompt model apiKey (Some img) w
                = (Normal (failure msgInvalidInput), w)).
    { apply generateImage_early. unfold prepareContents.
      apply truthy_nonempty in Hne. now rewrite Hne, Hm. }
    split; [exact E | now rewrite E].
  - split; [reflexivity |].
    set (contents := [ mkContent (Some (lit "user"))
                         (Some [ mkPart (Some prompt) None ]) ]).
    assert (P : prepareContents prompt (Some []) = inr contents)
      by reflexivity.
    destruct (transport (chooseClient this apiKey)
                (requestParams this model contents)) as [r|t] eqn:Ht.
    + now rewrite (@generateImage_answered transport this prompt model apiKey
                     (Some []) w contents r P Ht).
    + now rewrite (@generateImage_failed transport this prompt model apiKey
                     (Some []) w contents t P Ht).
Qed.

Lemma C3_malformed_input_image_rejected_witness :
  lit "data:image/gif;base64,R0lGODlh" <> [] /\
  DataUrlPattern.matchDataUrl (lit "data:image/gif;base64,R0lGODlh") = None /\
  generateImage (respondWith (responseOf [pngPart])) plainHandler
    (lit "a red kite") (lit "gemini-2.5-flash-image-preview")
    (Some (lit "key")) (Some (lit "data:image/gif;base64,R0lGODlh")) emptyWorld
  = (Normal (failure msgInvalidInput), emptyWorld).
Proof.
  split; [discriminate |]. split; [reflexivity |].
  apply (proj1 (C3_malformed_input_image_rejected
                  (respondWith (responseOf [pngPart])) plainHandler
                  (lit "a red kite") (lit "gemini-2.5-flash-image-preview")
                  (Some (lit "key")) emptyWorld)
           (lit "data:image/gif;base64,R0lGODlh")).
  - discriminate.
  - reflexivity.
Defined.

(** C4 (as stated, refuted). Two answers of the provider. A first candidate
    whose parts array is empty has no content parts, yet the result is the
    no-image-data message, not the no-content-parts one. A first candidate
    whose only part is typed [image/png] and carries no data has no part with
    image data, yet the result is a success whose data URL ends in the word
    [undefined]. *)
Lemma C4_empty_parts_and_missing_data :
  (fst (generateImage (respondWith (responseOf [])) plainHandler
          (lit "a red kite") (lit "gemini-2.5-flash-image-preview") None None
          emptyWorld)
   = Normal (failure (lit "No image data found in the response")) /\
   lit "No image data found in the response"
   <> lit "No content parts in the response") /\
  (inlineData undataPart = Some (mkBlob (Some (lit "image/png")) None) /\
   fst (generateImage (respondWith (responseOf [undataPart])) plainHandler
          (lit "a red kite") (lit "gemini-2.5-flash-image-preview") None None
          emptyWorld)
   = Normal (mkResult true (Some (lit "data:image/png;base64,undefined"))
               (Some (lit "png")) None)).
Proof.
  split; split; try reflexivity.
  intros H. vm_compute in H. discriminate H.
Qed.

(** C4 (amended). When the provider answers, each of these three response
    shapes gives a structured failure with a message of its own: no
    candidates (the array missing or empty) gives
    ["No candidates returned in the response"]; a first candidate whose
    [content] is missing, or whose [content] has no [parts] array, gives
    ["No content parts in the response"]; a first candidate with a parts
    array (the empty one included) in which no part has inline data with a
    MIME type starting with [image/] gives
    ["No image data found in the response"]. The three messages differ from
    one another and none is the catch-all ["Failed to generate image: ..."]. *)
Theorem C4_response_shape_failures (transport : Transport) (this : GeminiHandler)
    (prompt model : jsstring) (apiKey inputImage : option jsstring) (w : World)
    (r : GenerateContentResponse) :
  Answered transport this prompt model apiKey inputImage r ->
  let result :=
    fst (generateImage transport this prompt model apiKey inputImage w) in
  (NoCandidates r ->
   result = Normal (mkResult false None None
                      (Some (lit "No candidates returned in the response")))) /\
  (forall c rest,
      candidates r = Some (c :: rest) -> NoContentParts c ->
      result = Normal (mkResult false None None
                         (Some (lit "No content parts in the response")))) /\
  (forall c rest ct ps,
      candidates r = Some (c :: rest) -> content c = Some ct ->
      parts ct = Some ps -> hasImagePart ps = false ->
      result = Normal (mkResult false None None
                         (Some (lit "No image data found in the response")))) /\
  (msgNoCandidates <> msgNoContentParts /\
   msgNoCandidates <> msgNoImageData /\
   msgNoContentParts <> msgNoImageData /\
   forallb (fun m => negb (JsString.startsWith msgFailedPrefix m))
     [msgNoCandidates; msgNoContentParts; msgNoImageData] = true).
Proof.
  intros (contents & H & Ht) result.
  assert (E : result = Normal (extractImage r)).
  { unfold result.
    now rewrite (@generateImage_answered transport this prompt model apiKey
                   inputImage w contents r H Ht). }
  rewrite E. unfold extractImage.
  split; [| split; [| split]].
  - intros [Hc | Hc]; now rewrite Hc.
  - intros c rest Hc [Hn | (ct & Hct & Hp)]; rewrite Hc.
    + now rewrite Hn.
    + now rewrite Hct, Hp.
  - intros c rest ct ps Hc Hct Hp Hno.
    rewrite Hc, Hct, Hp, (scanParts_no_image ps None (lit "png") Hno).
    reflexivity.
  - repeat split; try (intros Hx; vm_compute in Hx; discriminate Hx).
Qed.

Lemma C4_response_shape_failures_witness :
  Answered (respondWith (mkResponse (Some []))) plainHandler
    (lit "a red kite") (lit "gemini-2.5-flash-image-preview") None None
    (mkResponse (Some [])) /\
  fst (generateImage (respondWith (mkResponse (Some []))) plainHandler
         (lit "a red kite") (lit "gemini-2.5-flash-image-preview") None None
         emptyWorld)
  = Normal (failure (lit "No candidates returned in the response")).
Proof.
  assert (A : Answered (respondWith (mkResponse (Some []))) plainHandler
                (lit "a red kite") (lit "gemini-2.5-flash-image-preview")
                None None (mkResponse (Some []))).
  { eexists. split; reflexivity. }
  split; [exact A |].
  apply (proj1 (C4_response_shape_failures emptyWorld A)).
  right; reflexivity.
Defined.

(** C5. When the provider answers and the first candidate's parts contain a
    part with inline data whose MIME type starts with [image/], the first
    such part decides the result: [success: true], [imageFormat] the MIME
    subtype with [jpeg] replaced by [jpg], and [imageData] the data URL
    [data:<mime>;base64,<payload>] whose payload is that part's data (the
    word [undefined] should the part have none). *)
Theorem C5_first_image_part_returned (transport : Transport)
    (this : GeminiHandler) (prompt model : jsstring)
    (apiKey inputImage : option jsstring) (w : World)
    (r : GenerateContentResponse) (c : Candidate) (rest : list Candidate)
    (ct : Content) (before after : list Part) (part : Part) (blob : Blob)
    (mime : jsstring) :
  Answered transport this prompt model apiKey inputImage r ->
  candidates r = Some (c :: rest) ->
  content c = Some ct ->
  parts ct = Some (before ++ part :: after) ->
  hasImagePart before = false ->
  inlineData part = Some blob ->
  mimeType blob = Some mime ->
  JsString.startsWith (lit "image/") mime = true ->
  exists subtype payload,
    mime = lit "image/" ++ subtype /\
    payload = JsString.interpolate (data blob) /\
    (forall d, data blob = Some d -> payload = d) /\
    fst (generateImage transport this prompt model apiKey inputImage w)
    = Normal (mkResult true
                (Some (lit "data:" ++ mime ++ lit ";base64," ++ payload))
                (Some (JsString.replace (lit "jpeg") (lit "jpg") subtype))
                None).
Proof.
  intros (contents & H & Ht) Hc Hct Hp Hb Hi Hm Hs.
  exists (skipn 6 mime), (JsString.interpolate (data blob)).
  split; [exact (startsWith_split _ _ Hs) |].
  split; [reflexivity |].
  split; [intros d Hd; now rewrite Hd |].
  rewrite (@generateImage_answered transport this prompt model apiKey
             inputImage w contents r H Ht).
  cbn [fst]. unfold extractImage.
  rewrite Hc, Hct, Hp.
  rewrite (@scanParts_first_image before after part blob mime None (lit "png")
             Hb Hi Hm Hs).
  reflexivity.
Qed.

Lemma C5_first_image_part_returned_witness :
  Answered (respondWith (responseOf [textPart; jpegPart; pngPart])) plainHandler
    (lit "a red kite") (lit "gemini-2.5-flash-image-preview") None None
    (responseOf [textPart; jpegPart; pngPart]) /\
  hasImagePart [textPart] = false /\
  JsString.startsWith (lit "image/") (lit "image/jpeg") = true /\
  fst (generateImage (respondWith (responseOf [textPart; jpegPart; pngPart]))
         plainHandler (lit "a red kite")
         (lit "gemini-2.5-flash-image-preview") None None emptyWorld)
  = Normal (generated (lit "data:image/jpeg;base64,/9j/4AAQ") (lit "jpg")).
Proof.
  assert (A : Answered (respondWith (responseOf [textPart; jpegPart; pngPart]))
                plainHandler (lit "a red kite")
                (lit "gemini-2.5-flash-image-preview") None None
                (responseOf [textPart; jpegPart; pngPart])).
  { eexists. split; reflexivity. }
  split; [exact A |]. split; [reflexivity |]. split; [reflexivity |].
  destruct (@C5_first_image_part_returned
              (respondWith (responseOf [textPart; jpegPart; pngPart]))
              plainHandler (lit "a red kite")
              (lit "gemini-2.5-flash-image-preview") None None emptyWorld
              (responseOf [textPart; jpegPart; pngPart])
              (mkCandidate
                 (Some (mkContent (Some (lit "model"))
                          (Some [textPart; jpegPart; pngPart]))))
              []
              (mkContent (Some (lit "model"))
                 (Some [textPart; jpegPart; pngPart]))
              [textPart] [pngPart] jpegPart
              (mkBlob (Some (lit "image/jpeg")) (Some (lit "/9j/4AAQ")))
              (lit "image/jpeg")
              A eq_refl eq_refl eq_refl eq_refl eq_refl eq_refl eq_refl)
    as (subtype & payload & _ & _ & _ & E).
  reflexivity.
Defined.

(** C9. Whatever the input and whatever the provider does, the result that
    [generateImage] returns populates exactly one of [imageData] and
    [error]: with [success = true] it has [imageData], of the shape
    [data:<mime>;base64,<payload>], and no [error]; with [success = false] it
    has a non-empty [error] and no [imageData]. *)
Theorem C9_exactly_one_of_image_and_error (transport : Transport)
    (this : GeminiHandler) (prompt model : jsstring)
    (apiKey inputImage : option jsstring) (w : World) :
  exists res w',
    generateImage transport this prompt model apiKey inputImage w
    = (Normal res, w') /\
    (success res = true ->
     exists d, imageData res = Some d /\ isDataUrl d = true /\
               error res = None) /\
    (success res = false ->
     exists e, error res = Some e /\ e <> [] /\ imageData res = None).
Proof.
  destruct (generateImage_total transport this prompt model apiKey inputImage w)
    as (res & w' & E).
  exists res, w'. split; [exact E |].
  assert (Hshape :
            (exists e, res = failure e /\ e <> []) \/
            (exists d f, res = generated d f /\ isDataUrl d = true)).
  { destruct (generateImage_cases transport this prompt model apiKey
                inputImage w)
      as [H | [(r & _ & H) | (t & _ & H)]]; rewrite E in H; cbn [fst] in H.
    - injection H as -> _. left. eexists. split; [reflexivity |].
      intros Hx; vm_compute in Hx; discriminate Hx.
    - injection H as ->.
      destruct (extractImage_cases r) as [X | [X | [X | (d & f & X & Hd)]]];
        rewrite X;
        [left | left | left | right; exists d, f; split; auto];
        (eexists; split; [reflexivity |]);
        intros Hx; vm_compute in Hx; discriminate Hx.
    - injection H as ->. left. eexists. split; [reflexivity |].
      unfold msgFailedPrefix, lit. simpl. discriminate. }
  destruct Hshape as [(e & -> & Hne) | (d & f & -> & Hd)]; simpl; split;
    intros Hs; try discriminate; eauto.
Qed.

(** * Properties of the model catalog and the settings panel *)

Lemma orElse_cases (a : option jsstring) (b : jsstring) :
  (exists v, a = Some v /\ v <> [] /\ orElse a b = v) \/
  ((a = None \/ a = Some []) /\ orElse a b = b).
Proof.
  destruct a as [[|c v]|]; simpl; auto.
  left. exists (c :: v). repeat split. discriminate.
Qed.

(** X1. Every provider has at least one model in the catalog, and every
    model listed under a provider names that provider. *)
Theorem catalog_lists_models_by_provider (p : ImageGenerationProvider) :
  getImageGenerationModelsForProvider p <> [] /\
  Forall (fun m => ImageGenerationModelInfo.provider m = p)
    (getImageGenerationModelsForProvider p).
Proof.
  destruct p; (split; [discriminate | repeat constructor]).
Qed.

(** X2. The list of all models is the providers' lists one after the other,
    so a model is in it exactly when it is in the list of its own provider;
    and no model id occurs twice in it. *)
Theorem catalog_all_models_partitioned :
  getAllImageGenerationModels
  = getImageGenerationModelsForProvider openrouter
    ++ getImageGenerationModelsForProvider gemini /\
  (forall m,
      In m getAllImageGenerationModels <->
      In m (getImageGenerationModelsForProvider
              (ImageGenerationModelInfo.provider m))) /\
  NoDup (List.map ImageGenerationModelInfo.modelId getAllImageGenerationModels).
Proof.
  split; [reflexivity |]. split.
  - intros m. split.
    + intros [<- | [<- | [<- | []]]]; simpl; auto.
    + intros Hin.
      change getAllImageGenerationModels
        with (getImageGenerationModelsForProvider openrouter
              ++ getImageGenerationModelsForProvider gemini).
      apply in_or_app.
      destruct (ImageGenerationModelInfo.provider m); auto.
  - vm_compute.
    repeat (constructor; [simpl; intuition discriminate |]). constructor.
Qed.

Lemma getDefaultModel_first (p : ImageGenerationProvider) :
  Settings.getDefaultModel p <> [] /\
  exists first rest,
    getImageGenerationModelsForProvider p = first :: rest /\
    Settings.getDefaultModel p = ImageGenerationModelInfo.modelId first.
Proof.
  destruct p; (split; [discriminate | eexists; eexists; split; reflexivity]).
Qed.

Lemma getCurrentSelectedModel_nonempty (props : Settings.Props)
    (p : ImageGenerationProvider) :
  Settings.getCurrentSelectedModel props p <> [].
Proof.
  destruct (getDefaultModel_first p) as [Hne _].
  destruct p; simpl;
    match goal with |- orElse ?a ?b <> [] =>
      destruct (orElse_cases a b) as [(v & _ & Hv & ->) | (_ & ->)]; auto
    end.
Qed.

(** X3. The model shown as selected is never the empty string: it is the
    stored selection of the provider when that is a non-empty string, and
    otherwise the first model of the provider's catalog list. *)
Theorem selected_model_is_stored_or_first_of_catalog
    (props : Settings.Props) (p : ImageGenerationProvider) :
  let stored :=
    match p with
    | openrouter => Settings.openRouterImageGenerationSelectedModel props
    | gemini => Settings.geminiImageGenerationSelectedModel props
    end in
  let shown := Settings.getCurrentSelectedModel props p in
  shown <> [] /\
  (forall s, stored = Some s -> s <> [] -> shown = s) /\
  (stored = None \/ stored = Some [] ->
   exists first rest,
     getImageGenerationModelsForProvider p = first :: rest /\
     shown = ImageGenerationModelInfo.modelId first).
Proof.
  intros stored shown.
  destruct (getDefaultModel_first p) as [Hne Hfirst].
  assert (E : shown = orElse stored (Settings.getDefaultModel p))
    by (destruct p; reflexivity).
  split; [apply getCurrentSelectedModel_nonempty |].
  destruct (orElse_cases stored (Settings.getDefaultModel p))
    as [(v & Hs & Hv & Ho) | (Hs & Ho)]; rewrite E, Ho.
  - split.
    + intros s Hs' _. congruence.
    + intros [Hn | Hn]; congruence.
  - split.
    + intros s Hs' Hnz. destruct Hs as [Hs | Hs]; congruence.
    + intros _. exact Hfirst.
Qed.

(** X4. Changing the provider in the panel selects the model at the head of
    the new provider's catalog list, which is a model of that provider; the
    API keys typed so far are kept; and the last setter called receives
    exactly the model now held in the panel's state. *)
Theorem provider_change_selects_a_model_of_the_provider
    (props : Settings.Props) (value : ImageGenerationProvider)
    (st : Settings.State) :
  let st' := fst (Settings.handleProviderChange props value st) in
  let calls := snd (Settings.handleProviderChange props value st) in
  Settings.provider st' = value /\
  (exists first rest,
      getImageGenerationModelsForProvider value = first :: rest /\
      ImageGenerationModelInfo.provider first = value /\
      Settings.selectedModel st' = ImageGenerationModelInfo.modelId first) /\
  Settings.openRouterApiKeyLocal st' = Settings.openRouterApiKeyLocal st /\
  Settings.geminiApiKeyLocal st' = Settings.geminiApiKeyLocal st /\
  List.last calls (Settings.SetImageGenerationProvider value)
  = Settings.SetImageGenerationSelectedModel (Settings.selectedModel st').
Proof.
  simpl. split; [reflexivity |]. split.
  - destruct value; eexists; eexists; repeat split.
  - repeat split.
    destruct (Settings.hasSetImageGenerationProvider props); reflexivity.
Qed.

(** X5. The effect that copies the props into the state picks the model
    with the provider of the render it runs in. One run can therefore leave
    a model of the previous provider selected, but two runs bring any state
    to the state of a fresh mount with the same props. *)
Theorem props_sync_settles_in_two_runs :
  (forall props st,
      Settings.syncFromProps props (Settings.syncFromProps props st)
      = Settings.initialState props) /\
  (forall props st,
      Settings.provider st = Settings.providerProp props ->
      Settings.syncFromProps props st = Settings.initialState props) /\
  (exists props st,
      Settings.syncFromProps props st <> Settings.initialState props /\
      Settings.provider (Settings.syncFromProps props st) = gemini /\
      Settings.selectedModel (Settings.syncFromProps props st)
      = lit "google/gemini-2.5-flash-image-preview").
Proof.
  split; [reflexivity |]. split.
  - intros props st H. unfold Settings.syncFromProps. now rewrite H.
  - exists (Settings.mkProps true None None None None (Some gemini) true true),
           (Settings.mkState openrouter [] [] []).
    split; [| split; reflexivity].
    intros H. vm_compute in H. discriminate H.
Qed.

(** With the feature switched on the panel shows exactly one status box:
    the missing-key warning of the current provider when that provider's
    key is empty, the success note otherwise. Switched off, it shows
    none. *)
Lemma exactly_one_status_box_when_enabled
    (props : Settings.Props) (st : Settings.State) :
  Settings.statusBoxes props st
  = if Settings.enabled props
    then
      match Settings.getCurrentApiKey st with
      | [] => [Settings.WarningMissingKey (Settings.provider st)]
      | _ :: _ => [Settings.SuccessConfigured]
      end
    else [].
Proof.
  unfold Settings.statusBoxes.
  destruct (Settings.enabled props); [| reflexivity].
  destruct (Settings.getCurrentApiKey st); reflexivity.
Qed.

(** * Properties of the grounding sources *)

Lemma sourceOfChunk_Some (chunk : Grounding.GroundingChunk)
    (s : Grounding.GroundingSource) :
  Grounding.sourceOfChunk chunk = Some s ->
  exists w,
    Grounding.web chunk = Some w /\
    Grounding.uri w = Some (Grounding.url s) /\
    Grounding.url s <> [] /\
    Grounding.title s = orElse (Grounding.webTitle w) (Grounding.url s) /\
    Grounding.title s <> [].
Proof.
  unfold Grounding.sourceOfChunk.
  destruct (Grounding.web chunk) as [w|]; [| discriminate].
  destruct (Grounding.uri w) as [[|c u]|] eqn:Hu; simpl; try discriminate.
  intros [= <-]. exists w. simpl.
  split; [reflexivity |]. split; [exact Hu |]. split; [discriminate |].
  destruct (Grounding.webTitle w) as [[|c' ti]|]; simpl; split;
    try reflexivity; discriminate.
Qed.

Lemma sourceOfChunk_url (chunk : Grounding.GroundingChunk) :
  List.map Grounding.url
    (match Grounding.sourceOfChunk chunk with Some s => [s] | None => [] end)
  = Grounding.linkOf chunk.
Proof.
  unfold Grounding.sourceOfChunk, Grounding.linkOf.
  destruct (Grounding.web chunk) as [w|]; [| reflexivity].
  destruct (Grounding.uri w) as [[|c u]|]; reflexivity.
Qed.

Lemma In_dropNulls (A B : Type) (f : A -> option B) (l : list A) (b : B) :
  In b (Grounding.dropNulls (List.map f l)) ->
  exists a, In a l /\ f a = Some b.
Proof.
  induction l as [|a l IH]; simpl; [tauto |].
  destruct (f a) as [b'|] eqn:E; simpl.
  - intros [<- | H]; [eauto |]. destruct (IH H) as (a' & ? & ?); eauto.
  - intros H. destruct (IH H) as (a' & ? & ?); eauto.
Qed.

(** X6. Every grounding source handed out has a non-empty address, which is
    the [web.uri] of one of the chunks, and a non-empty title, which is that
    chunk's [web.title] when it has one and the address itself otherwise:
    the ["Unknown Source"] fallback never reaches a caller. *)
Theorem grounding_sources_have_address_and_title
    (groundingMetadata : option Grounding.GroundingMetadata)
    (s : Grounding.GroundingSource) :
  In s (Grounding.extractGroundingSources groundingMetadata) ->
  Grounding.url s <> [] /\
  Grounding.title s <> [] /\
  exists md chunks chunk w,
    groundingMetadata = Some md /\
    Grounding.groundingChunks md = Some chunks /\
    In chunk chunks /\
    Grounding.web chunk = Some w /\
    Grounding.uri w = Some (Grounding.url s) /\
    Grounding.title s = orElse (Grounding.webTitle w) (Grounding.url s).
Proof.
  unfold Grounding.extractGroundingSources.
  destruct groundingMetadata as [md|]; [| intros []].
  destruct (Grounding.groundingChunks md) as [chunks|] eqn:Hc; [| intros []].
  intros H. apply In_dropNulls in H as (chunk & Hin & Hs).
  apply sourceOfChunk_Some in Hs as (w & Hw & Hu & Hne & Ht & Htne).
  split; [exact Hne |]. split; [exact Htne |].
  exists md, chunks, chunk, w. auto 6.
Qed.

Lemma grounding_sources_have_address_and_title_witness :
  In (Grounding.mkSource (lit "https://example.org/a") (lit "https://example.org/a"))
     (Grounding.extractGroundingSources
        (Some (Grounding.mkMetadata
                 (Some [ Grounding.mkChunk None
                       ; Grounding.mkChunk
                           (Some (Grounding.mkWeb
                                    (Some (lit "https://example.org/a"))
                                    (Some []))) ])))) /\
  lit "https://example.org/a" <> [].
Proof.
  assert (H : In (Grounding.mkSource (lit "https://example.org/a")
                    (lit "https://example.org/a"))
                 (Grounding.extractGroundingSources
                    (Some (Grounding.mkMetadata
                             (Some [ Grounding.mkChunk None
                                   ; Grounding.mkChunk
                                       (Some (Grounding.mkWeb
                                                (Some (lit "https://example.org/a"))
                                                (Some []))) ])))))
    by (left; reflexivity).
  split; [exact H |].
  exact (proj1 (grounding_sources_have_address_and_title _ _ H)).
Defined.

(** X7. The sources come out in the order of the chunks, one for every chunk
    with a non-empty [web.uri] and none for the others: nothing is
    reordered, merged or dropped on the way. *)
Theorem grounding_sources_follow_the_chunks
    (chunks : list Grounding.GroundingChunk) :
  List.map Grounding.url
    (Grounding.extractGroundingSources
       (Some (Grounding.mkMetadata (Some chunks))))
  = List.flat_map Grounding.linkOf chunks.
Proof.
  unfold Grounding.extractGroundingSources. simpl.
  induction chunks as [|chunk chunks IH]; [reflexivity |].
  simpl. rewrite <- sourceOfChunk_url, <- IH.
  destruct (Grounding.sourceOfChunk chunk); reflexivity.
Qed.

Lemma join_cons (sep x : jsstring) (rest : list jsstring) :
  exists tail, join sep (x :: rest) = x ++ tail.
Proof.
  destruct rest as [|y rest].
  - exists []. simpl. now rewrite app_nil_r.
  - eexists. reflexivity.
Qed.

Lemma citations_text_starts_with_first_link
    (first : Grounding.GroundingSource) (rest : list Grounding.GroundingSource) :
  exists tail,
    join (lit ", ") (Grounding.citationLinks 0 (first :: rest))
    = lit "[1](" ++ Grounding.url first ++ lit ")" ++ tail.
Proof.
  destruct (join_cons (lit ", ")
              (lit "[1](" ++ Grounding.url first ++ lit ")")
              (Grounding.citationLinks 1 rest)) as (tail & Ht).
  exists tail.
  transitivity ((lit "[1](" ++ Grounding.url first ++ lit ")") ++ tail).
  - rewrite <- Ht. reflexivity.
  - now rewrite <- !app_assoc.
Qed.

(** X8. [extractCitationsOnly] answers [null] exactly when there is no
    source (no metadata, no chunk array, or no chunk with a non-empty
    address); otherwise its text starts with the link numbered 1 to the
    first source, so it is never empty. *)
Theorem citations_absent_exactly_without_sources
    (groundingMetadata : option Grounding.GroundingMetadata) :
  (Grounding.extractCitationsOnly groundingMetadata = None <->
   Grounding.extractGroundingSources groundingMetadata = []) /\
  (forall citations,
      Grounding.extractCitationsOnly groundingMetadata = Some citations ->
      exists first rest tail,
        Grounding.extractGroundingSources groundingMetadata = first :: rest /\
        citations = lit "[1](" ++ Grounding.url first ++ lit ")" ++ tail).
Proof.
  unfold Grounding.extractCitationsOnly.
  destruct (Grounding.extractGroundingSources groundingMetadata)
    as [|first rest].
  - split; [tauto | discriminate].
  - split; [split; discriminate |].
    intros citations Hc. injection Hc as Hc.
    destruct (citations_text_starts_with_first_link first rest) as (tail & Ht).
    exists first, rest, tail. split; [reflexivity |].
    rewrite <- Hc. exact Ht.
Qed.

(** * Properties of the streaming path *)

Lemma runLoop_events (chunks : list Stream.Chunk) (st : Stream.LoopState) :
  fst (Stream.runLoop chunks st) = List.flat_map Stream.chunkEvents chunks.
Proof.
  revert st. induction chunks as [|chunk chunks IH]; intros st; [reflexivity |].
  simpl. specialize (IH (Stream.stepLoop st chunk)).
  destruct (Stream.runLoop chunks (Stream.stepLoop st chunk)) as [events st'].
  simpl in *. now rewrite IH.
Qed.

Lemma runLoop_state (chunks : list Stream.Chunk) (st : Stream.LoopState) :
  snd (Stream.runLoop chunks st)
  = Stream.mkLoop
      (Stream.lastSome Stream.usageMetadata chunks (Stream.lastUsageMetadata st))
      (Stream.lastSome Stream.groundingOf chunks
         (Stream.pendingGroundingMetadata st)).
Proof.
  revert st. induction chunks as [|chunk chunks IH]; intros st.
  - destruct st; reflexivity.
  - simpl. specialize (IH (Stream.stepLoop st chunk)).
    destruct (Stream.runLoop chunks (Stream.stepLoop st chunk)) as [events st'].
    simpl in *. rewrite IH. unfold Stream.stepLoop, Stream.groundingOf. simpl.
    f_equal. f_equal.
    destruct (Stream.candidates chunk) as [[|c cs]|]; try reflexivity.
Qed.

Lemma lastSome_none (A : Type) (f : Stream.Chunk -> option A)
    (chunks : list Stream.Chunk) (init : option A) :
  Forall (fun c => f c = None) chunks -> Stream.lastSome f chunks init = init.
Proof.
  intros H. revert init.
  induction H as [|c l Hc _ IH]; intros init; simpl; [reflexivity |].
  now rewrite Hc, IH.
Qed.

Lemma lastSome_last (A : Type) (f : Stream.Chunk -> option A)
    (before after : list Stream.Chunk) (c : Stream.Chunk) (a : A)
    (init : option A) :
  f c = Some a ->
  Forall (fun x => f x = None) after ->
  Stream.lastSome f (before ++ c :: after) init = Some a.
Proof.
  intros Hc Ha. revert init.
  induction before as [|b before IH]; intros init; simpl.
  - rewrite Hc. now apply lastSome_none.
  - apply IH.
Qed.

Lemma partEvents_text (part : Stream.Part) :
  forallb (fun e => Stream.isTextEvent e && Stream.carriesText e)
    (Stream.partEvents part) = true.
Proof.
  unfold Stream.partEvents.
  destruct (Stream.thought part) as [[|]|];
    destruct (Stream.text part) as [[|c t]|]; reflexivity.
Qed.

Lemma chunkEvents_text (chunk : Stream.Chunk) :
  forallb (fun e => Stream.isTextEvent e && Stream.carriesText e)
    (Stream.chunkEvents chunk) = true.
Proof.
  unfold Stream.chunkEvents.
  destruct (Stream.candidates chunk) as [[|c cs]|].
  - destruct (Stream.chunkText chunk) as [[|x t]|]; reflexivity.
  - destruct (Stream.content c) as [ct|]; [| reflexivity].
    destruct (Stream.parts ct) as [ps|]; [| reflexivity].
    induction ps as [|p ps IH]; [reflexivity |].
    simpl. now rewrite forallb_app, partEvents_text, IH.
  - destruct (Stream.chunkText chunk) as [[|x t]|]; reflexivity.
Qed.

Lemma streamEvents_text (chunks : list Stream.Chunk) :
  forallb (fun e => Stream.isTextEvent e && Stream.carriesText e)
    (List.flat_map Stream.chunkEvents chunks) = true.
Proof.
  induction chunks as [|c chunks IH]; [reflexivity |].
  simpl. now rewrite forallb_app, chunkEvents_text, IH.
Qed.

Lemma createMessage_normal (t : jsstring -> option jsstring -> jsstring)
    (info : ModelInfo.t) (chunks : list Stream.Chunk) :
  Stream.createMessage t info (Stream.mkDelivery chunks None)
  = (List.flat_map Stream.chunkEvents chunks
     ++ Stream.epilogue info
          (Stream.mkLoop
             (Stream.lastSome Stream.usageMetadata chunks None)
             (Stream.lastSome Stream.groundingOf chunks None)),
     None).
Proof.
  unfold Stream.createMessage. simpl.
  pose proof (runLoop_events chunks (Stream.mkLoop None None)) as He.
  pose proof (runLoop_state chunks (Stream.mkLoop None None)) as Hs.
  destruct (Stream.runLoop chunks (Stream.mkLoop None None)) as [events st].
  simpl in *. now rewrite He, Hs.
Qed.

Section StreamFacts.

Variable t : jsstring -> option jsstring -> jsstring.
Variable info : ModelInfo.t.

(** X9. A stream that ends normally yields, in this order: the text and
    reasoning of its chunks in arrival order, each with non-empty text; then
    at most one grounding event, whose source list is not empty; then at
    most one usage event. The generator then returns. *)
Theorem stream_yields_text_then_grounding_then_usage
    (chunks : list Stream.Chunk) :
  exists grounding usage,
    Stream.createMessage t info (Stream.mkDelivery chunks None)
    = (List.flat_map Stream.chunkEvents chunks ++ grounding ++ usage, None) /\
    forallb (fun e => Stream.isTextEvent e && Stream.carriesText e)
      (List.flat_map Stream.chunkEvents chunks) = true /\
    (grounding = [] \/
     exists sources, sources <> [] /\ grounding = [Stream.GroundingEvent sources]) /\
    (usage = [] \/
     exists e, Stream.isUsageEvent e = true /\ usage = [e]).
Proof.
  rewrite createMessage_normal. unfold Stream.epilogue.
  cbn [Stream.lastUsageMetadata Stream.pendingGroundingMetadata].
  eexists. eexists. split; [reflexivity |].
  split; [apply streamEvents_text |]. split.
  - destruct (Stream.lastSome Stream.groundingOf chunks None) as [md|]; auto.
    destruct (Grounding.extractGroundingSources (Some md)) as [|s l]; auto.
    right. exists (s :: l). split; [discriminate | reflexivity].
  - destruct (Stream.lastSome Stream.usageMetadata chunks None) as [u|]; auto.
    right. eexists. split; [| reflexivity]. reflexivity.
Qed.

(** X10. The usage event reports the usage metadata of the last chunk that
    carried any: missing prompt and candidate counts read as 0, the cached
    and thought counts are passed on as they are, and the total cost is
    [calculateCost] on exactly these counts. It is the last event, and the
    only usage event. Without usage metadata in the stream there is no usage
    event at all. *)
Theorem usage_event_reports_last_metadata :
  (forall (before after : list Stream.Chunk) (c : Stream.Chunk)
          (u : Stream.UsageMetadata),
      Stream.usageMetadata c = Some u ->
      Forall (fun x => Stream.usageMetadata x = None) after ->
      exists earlier,
        fst (Stream.createMessage t info
               (Stream.mkDelivery (before ++ c :: after) None))
        = earlier
          ++ [Stream.Usage
                (Stream.promptTokenCount u ?? 0%float)
                (Stream.candidatesTokenCount u ?? 0%float)
                (Stream.cachedContentTokenCount u)
                (Stream.thoughtsTokenCount u)
                (calculateCost info
                   (Stream.promptTokenCount u ?? 0%float)
                   (Stream.candidatesTokenCount u ?? 0%float)
                   (Stream.cachedContentTokenCount u))] /\
        forallb (fun e => negb (Stream.isUsageEvent e)) earlier = true)
  /\
  (forall chunks : list Stream.Chunk,
      Forall (fun x => Stream.usageMetadata x = None) chunks ->
      forallb (fun e => negb (Stream.isUsageEvent e))
        (fst (Stream.createMessage t info (Stream.mkDelivery chunks None)))
      = true).
Proof.
  assert (Htext : forall chunks,
             forallb (fun e => negb (Stream.isUsageEvent e))
               (List.flat_map Stream.chunkEvents chunks) = true).
  { intros chunks. pose proof (streamEvents_text chunks) as H.
    rewrite forallb_forall in *. intros e He. specialize (H e He).
    destruct e; simpl in *; auto; discriminate. }
  assert (Hg : forall md,
             forallb (fun e => negb (Stream.isUsageEvent e))
               (match md with
                | Some m =>
                    match Grounding.extractGroundingSources (Some m) with
                    | [] => []
                    | sources => [Stream.GroundingEvent sources]
                    end
                | None => []
                end) = true).
  { intros [m|]; [| reflexivity].
    destruct (Grounding.extractGroundingSources (Some m)); reflexivity. }
  split.
  - intros before after c u Hc Ha.
    rewrite createMessage_normal. cbn [fst]. unfold Stream.epilogue.
    rewrite (@lastSome_last _ Stream.usageMetadata before after c u None Hc Ha).
    cbn [Stream.lastUsageMetadata Stream.pendingGroundingMetadata].
    eexists. rewrite app_assoc. split; [reflexivity |].
    now rewrite forallb_app, Htext, Hg.
  - intros chunks Hn.
    rewrite createMessage_normal. cbn [fst]. unfold Stream.epilogue.
    rewrite (@lastSome_none _ Stream.usageMetadata chunks None Hn).
    cbn [Stream.lastUsageMetadata Stream.pendingGroundingMetadata].
    now rewrite app_nil_r, forallb_app, Htext, Hg.
Qed.

(** X11. When the stream fails, what was yielded before is exactly the text
    and reasoning of the chunks that had arrived; no grounding and no usage
    event follows, even if usage metadata had arrived. The generator throws:
    an [Error] is replaced by a new one whose message is the translation of
    [common:errors.gemini.generate_stream] for the old message, anything
    else is thrown on unchanged. *)
Theorem failed_stream_keeps_text_and_rethrows
    (chunks : list Stream.Chunk) (error : Thrown) :
  Stream.createMessage t info (Stream.mkDelivery chunks (Some error))
  = (List.flat_map Stream.chunkEvents chunks,
     Some (match error with
           | ThrownError message =>
               ThrownError (t (lit "common:errors.gemini.generate_stream")
                              (Some message))
           | ThrownOther => ThrownOther
           end)) /\
  forallb Stream.isTextEvent (List.flat_map Stream.chunkEvents chunks) = true.
Proof.
  split.
  - unfold Stream.createMessage. simpl.
    pose proof (runLoop_events chunks (Stream.mkLoop None None)) as He.
    destruct (Stream.runLoop chunks (Stream.mkLoop None None)) as [events st].
    simpl in He. rewrite He. destruct error; reflexivity.
  - pose proof (streamEvents_text chunks) as H.
    rewrite forallb_forall in *. intros e He. specialize (H e He).
    now apply andb_true_iff in H.
Qed.

(** X12. The grounding event carries the sources of the grounding metadata
    seen last, on the first candidate of a chunk; it is yielded exactly when
    that metadata has at least one source, after all text. *)
Theorem grounding_event_reports_last_metadata
    (before after : list Stream.Chunk) (c : Stream.Chunk)
    (md : Grounding.GroundingMetadata) :
  Stream.groundingOf c = Some md ->
  Forall (fun x => Stream.groundingOf x = None) after ->
  exists usage,
    fst (Stream.createMessage t info
           (Stream.mkDelivery (before ++ c :: after) None))
    = List.flat_map Stream.chunkEvents (before ++ c :: after)
      ++ (match Grounding.extractGroundingSources (Some md) with
          | [] => []
          | sources => [Stream.GroundingEvent sources]
          end)
      ++ usage /\
    forallb (fun e => negb (Stream.isGroundingEvent e)) usage = true.
Proof.
  intros Hc Ha.
  rewrite createMessage_normal. cbn [fst]. unfold Stream.epilogue.
  rewrite (@lastSome_last _ Stream.groundingOf before after c md None Hc Ha).
  cbn [Stream.lastUsageMetadata Stream.pendingGroundingMetadata].
  eexists. split; [reflexivity |].
  destruct (Stream.lastSome Stream.usageMetadata (before ++ c :: after) None);
    reflexivity.
Qed.

End StreamFacts.

(** A chunk with at least one candidate yields only what the parts of
    its first candidate hold -- its own [text] is not looked at, and further
    candidates are ignored; the chunk's [text] is yielded only when the
    chunk has no candidate, and only when it is not empty. *)
Lemma first_candidate_shadows_chunk_text :
  (forall (c : Stream.Candidate) (others : list Stream.Candidate)
          (chunkText : option jsstring) (u : option Stream.UsageMetadata),
      Stream.chunkEvents (Stream.mkChunk (Some (c :: others)) chunkText u)
      = match Stream.content c with
        | Some ct =>
            match Stream.parts ct with
            | Some ps => List.flat_map Stream.partEvents ps
            | None => []
            end
        | None => []
        end) /\
  (forall (cs : option (list Stream.Candidate)) (text : jsstring)
          (u : option Stream.UsageMetadata),
      cs = None \/ cs = Some [] ->
      Stream.chunkEvents (Stream.mkChunk cs (Some text) u)
      = if JsString.truthy text then [Stream.Text text] else []).
Proof.
  split; [reflexivity |].
  intros cs text u [-> | ->]; reflexivity.
Qed.

(** X13. [completePrompt] returns the answer's text (the empty string when
    there is none) and appends a sources paragraph exactly when the first
    candidate has grounding metadata with at least one source; the paragraph
    is a blank line, the translated heading, a space and the numbered
    links. A failure of the call is thrown on, an [Error] with its message
    translated under [common:errors.gemini.generate_complete_prompt]. *)
Theorem completePrompt_appends_sources_only_when_present
    (t : jsstring -> option jsstring -> jsstring) :
  (forall (result : Stream.PromptResponse),
      let md :=
        match Stream.responseCandidates result with
        | Some (candidate :: _) => Stream.groundingMetadata candidate
        | _ => None
        end in
      Stream.completePrompt t (Normal result)
      = match Grounding.extractGroundingSources md with
        | [] => Normal (Stream.responseText result ?? [])
        | sources =>
            Normal ((Stream.responseText result ?? [])
                    ++ [10%N; 10%N]
                    ++ t (lit "common:errors.gemini.sources") None
                    ++ lit " "
                    ++ join (lit ", ") (Grounding.citationLinks 0 sources))
        end) /\
  (forall message,
      Stream.completePrompt t (Abrupt (ThrownError message))
      = Abrupt (ThrownError
                  (t (lit "common:errors.gemini.generate_complete_prompt")
                     (Some message)))) /\
  Stream.completePrompt t (Abrupt ThrownOther) = Abrupt ThrownOther.
Proof.
  split; [| split; reflexivity].
  intros result md. unfold Stream.completePrompt. fold md.
  destruct md as [m|] eqn:Hmd; [| reflexivity].
  unfold Grounding.extractCitationsOnly.
  destruct (Grounding.extractGroundingSources (Some m)) as [|first rest];
    [reflexivity |].
  destruct (citations_text_starts_with_first_link first rest) as (tail & Ht).
  rewrite Ht. reflexivity.
Qed.

(** * Properties of the [generate_image] tool *)

Lemma skipn_length_app (A : Type) (a b : list A) :
  skipn (List.length a) (a ++ b) = b.
Proof. induction a as [|x a IH]; simpl; auto. Qed.

Lemma doneBy_extends (s s' : Tool.Task) (done : list Tool.Action) :
  Tool.actions s' = Tool.actions s ++ done -> Tool.doneBy s s' = done.
Proof. intros H. unfold Tool.doneBy. rewrite H. apply skipn_length_app. Qed.

Lemma reportError_exit (env : Tool.Env) (msg : jsstring) (s : Tool.Task) :
  Tool.reportError env msg s
  = Tool.mkTask
      (Tool.actions s
       ++ [Tool.Say (lit "error") msg; Tool.PushToolResult (Tool.toolError env msg)])
      (Tool.consecutiveMistakeCount s) (Tool.didEditFile s) (Tool.world s).
Proof.
  unfold Tool.reportError, Tool.emit. simpl. now rewrite <- app_assoc.
Qed.

Lemma reportIgnored_exit (env : Tool.Env) (p : jsstring) (s : Tool.Task) :
  Tool.reportIgnored env p s
  = Tool.mkTask
      (Tool.actions s
       ++ [Tool.Say (lit "rooignore_error") p;
           Tool.PushToolResult (Tool.toolError env (Tool.rooIgnoreError env p))])
      (Tool.consecutiveMistakeCount s) (Tool.didEditFile s) (Tool.world s).
Proof.
  unfold Tool.reportIgnored, Tool.emit. simpl. now rewrite <- app_assoc.
Qed.

Lemma reportMissing_exit (env : Tool.Env) (param : jsstring) (s : Tool.Task) :
  Tool.reportMissing env param s
  = Tool.mkTask
      (Tool.actions s
       ++ [ Tool.RecordToolError (lit "generate_image")
          ; Tool.SayMissingParam (lit "generate_image") param
          ; Tool.PushToolResult
              (Tool.missingParamError env (lit "generate_image") param) ])
      (Tool.consecutiveMistakeCount s + 1) (Tool.didEditFile s) (Tool.world s).
Proof.
  unfold Tool.reportMissing, Tool.emit. simpl. now rewrite <- !app_assoc.
Qed.

Lemma exited_silent (s : Tool.Task) :
  s = exited s [] (Tool.consecutiveMistakeCount s).
Proof. destruct s. unfold exited. simpl. now rewrite app_nil_r. Qed.

Lemma readInputImage_exit (env : Tool.Env) (block : Tool.ToolUse)
    (s s' : Tool.Task) :
  Tool.readInputImage env block s = inl s' ->
  exists kind text content,
    s' = exited s [Tool.Say kind text; Tool.PushToolResult content]
           (Tool.consecutiveMistakeCount s).
Proof.
  unfold Tool.readInputImage.
  destruct (Tool.present (Tool.image block)) as [p|]; [| discriminate].
  cbv zeta.
  destruct (Tool.fileExistsAtPath env _); cbn [negb].
  - destruct (Tool.accessAllowed env p); cbn [negb].
    + destruct (Tool.readFileBase64 env _) as [b64|e].
      * destruct (Tool.isSupportedFormat _); cbn [negb]; [discriminate |].
        intros [= <-]. rewrite reportError_exit. unfold exited. eauto.
      * intros [= <-]. rewrite reportError_exit. unfold exited. eauto.
    + intros [= <-]. rewrite reportIgnored_exit. unfold exited. eauto.
  - intros [= <-]. rewrite reportError_exit. unfold exited. eauto.
Qed.

(** Every exit of the pre-flight checks is one of four kinds. *)
Lemma preflight_exit (env : Tool.Env) (block : Tool.ToolUse) (s s' : Tool.Task) :
  Tool.preflight env block s = inl s' ->
  exists done count,
    PreflightExit env block s done count /\ s' = exited s done count.
Proof.
  unfold Tool.preflight.
  destruct (Tool.isImageGenerationEnabled env) eqn:Hen; cbn [negb].
  2:{ intros [= <-]. eexists; eexists.
      split; [apply ExitPush; [exact Hen | reflexivity] |]. reflexivity. }
  destruct (Tool.partial block) eqn:Hpart.
  { intros [= <-]. eexists; eexists. split; [now apply ExitSilent |].
    apply exited_silent. }
  destruct (Tool.present (Tool.prompt block)) as [prompt|] eqn:Hprompt.
  2:{ intros [= <-]. rewrite reportMissing_exit.
      eexists; eexists. split; [apply ExitMissing; auto |]. reflexivity. }
  destruct (Tool.present (Tool.path block)) as [relPath|] eqn:Hpath.
  2:{ intros [= <-]. rewrite reportMissing_exit.
      eexists; eexists. split; [apply ExitMissing; auto |]. reflexivity. }
  destruct (Tool.accessAllowed env relPath); cbn [negb].
  2:{ intros [= <-]. rewrite reportIgnored_exit.
      eexists; eexists. split; [apply ExitSay; auto |]. reflexivity. }
  destruct (Tool.readInputImage env block s) as [exit|data] eqn:E.
  { intros [= <-]. apply readInputImage_exit in E as (k & t & c & ->).
    eexists; eexists. split; [apply ExitSay; auto |]. reflexivity. }
  destruct (Tool.selectProvider env) as [msg|[[p key] model]].
  - intros [= <-]. rewrite reportError_exit.
    eexists; eexists. split; [apply ExitSay; auto |]. reflexivity.
  - discriminate.
Qed.

(** What a request that passed the pre-flight checks says about the block
    and the settings. *)
Lemma preflight_request (env : Tool.Env) (block : Tool.ToolUse) (s : Tool.Task)
    (rq : Tool.Request) :
  Tool.preflight env block s = inr rq ->
  Tool.isImageGenerationEnabled env = true /\
  Tool.partial block = false /\
  Tool.present (Tool.prompt block) = Some (Tool.rq_prompt rq) /\
  Tool.present (Tool.path block) = Some (Tool.rq_relPath rq) /\
  Tool.accessAllowed env (Tool.rq_relPath rq) = true /\
  Tool.readInputImage env block s = inr (Tool.rq_inputImageData rq) /\
  Tool.rq_inputImagePath rq = Tool.present (Tool.image block) /\
  Tool.rq_isWriteProtected rq = Tool.isWriteProtected env (Tool.rq_relPath rq) /\
  Tool.selectProvider env
  = inr (Tool.rq_provider rq, Tool.rq_apiKey rq, Tool.rq_model rq).
Proof.
  unfold Tool.preflight.
  destruct (Tool.isImageGenerationEnabled env); cbn [negb]; [| discriminate].
  destruct (Tool.partial block); [discriminate |].
  destruct (Tool.present (Tool.prompt block)) as [prompt|]; [| discriminate].
  destruct (Tool.present (Tool.path block)) as [relPath|]; [| discriminate].
  destruct (Tool.accessAllowed env relPath) eqn:Ha; cbn [negb]; [| discriminate].
  destruct (Tool.readInputImage env block s) as [exit|data]; [discriminate |].
  destruct (Tool.selectProvider env) as [msg|[[p key] model]]; [discriminate |].
  intros [= <-]. simpl. auto 10.
Qed.

Ltac tool_lists :=
  unfold Tool.reportError, Tool.emit; simpl; rewrite <- ?app_assoc; simpl.

(** The provider call adds at most the OpenRouter action and keeps the
    counters. *)
Lemma callProvider_trace (env : Tool.Env) (rq : Tool.Request) (s : Tool.Task) :
  exists call,
    Tool.actions (snd (Tool.callProvider env rq s)) = Tool.actions s ++ call /\
    (call = [] /\ Tool.rq_provider rq = gemini \/
     call = [Tool.OpenRouterGenerateImage (Tool.rq_prompt rq) (Tool.rq_model rq)
               (Tool.rq_apiKey rq) (Tool.rq_inputImageData rq)] /\
     Tool.rq_provider rq = openrouter /\
     Tool.world (snd (Tool.callProvider env rq s)) = Tool.world s) /\
    Tool.consecutiveMistakeCount (snd (Tool.callProvider env rq s))
    = Tool.consecutiveMistakeCount s /\
    Tool.didEditFile (snd (Tool.callProvider env rq s)) = Tool.didEditFile s.
Proof.
  unfold Tool.callProvider.
  destruct (Tool.rq_provider rq).
  - eexists. simpl. split; [reflexivity |]. auto.
  - destruct (generateImage _ _ _ _ _ _ _) as [outcome w].
    exists []. simpl. rewrite app_nil_r. auto.
Qed.

(** What saving adds to the record: three possible endings. *)
Lemma saveImage_trace (env : Tool.Env) (rq : Tool.Request)
    (imageFormat base64Data : jsstring) (s : Tool.Task) :
  let finalPath := Tool.finalPathOf (Tool.rq_relPath rq) imageFormat in
  let absolutePath := Tool.resolve env (Tool.cwd env) finalPath in
  let s' := Tool.saveImage env rq imageFormat base64Data s in
  Tool.world s' = Tool.world s /\
  Tool.consecutiveMistakeCount s' = Tool.consecutiveMistakeCount s /\
  exists tail,
    Tool.actions s'
    = Tool.actions s ++ Tool.Mkdir (Tool.dirname env absolutePath) :: tail /\
    ((exists e, tail = [Tool.HandleError (lit "generating image") e]) \/
     (exists e, tail = [Tool.WriteFile absolutePath base64Data;
                        Tool.HandleError (lit "generating image") e]) \/
     (exists uri,
         tail = [ Tool.WriteFile absolutePath base64Data
                ; Tool.TrackFileContext finalPath
                ; Tool.RecordToolUsage (lit "generate_image")
                ; Tool.SayImage uri (Tool.pathJoin env (Tool.cwd env) finalPath)
                ; Tool.PushToolResult
                    (Tool.toolResult env
                       (Tool.getReadablePath env (Tool.cwd env) finalPath)) ] /\
         Tool.didEditFile s' = true)).
Proof.
  intros finalPath absolutePath s'. unfold s', Tool.saveImage.
  fold finalPath. fold absolutePath.
  assert (Hfp : JsString.truthy finalPath = true \/ Tool.rq_relPath rq = []).
  { unfold finalPath, Tool.finalPathOf.
    destruct (Tool.rq_relPath rq) as [|c r]; auto.
    left. destruct (Tool.hasImageExtension (c :: r)); reflexivity. }
  destruct (Tool.mkdir env _) as [e|].
  { tool_lists. repeat split. eexists. split; [reflexivity |]. eauto. }
  destruct (Tool.writeFile env _ _) as [e|].
  { tool_lists. repeat split. eexists. split; [reflexivity |]. eauto. }
  destruct (JsString.truthy finalPath) eqn:T.
  - tool_lists. repeat split. eexists. split; [reflexivity |].
    right; right. eexists. split; reflexivity.
  - destruct Hfp as [Hfp | Hfp]; [discriminate |].
    exfalso. unfold finalPath, Tool.finalPathOf in T. rewrite Hfp in T.
    destruct (Tool.hasImageExtension []) eqn:Hx; [discriminate Hx |].
    discriminate T.
Qed.

(** What the [try] block adds to the record. *)
Lemma execute_trace (env : Tool.Env) (rq : Tool.Request) (s : Tool.Task) :
  let message := Tool.approvalMessageOf env rq in
  let ask := Tool.AskApproval message (Tool.rq_isWriteProtected rq) in
  let s1 :=
    Tool.emit ask
      (Tool.mkTask (Tool.actions s) 0 (Tool.didEditFile s) (Tool.world s)) in
  let s2 := snd (Tool.callProvider env rq s1) in
  let s' := Tool.execute env rq s in
  Tool.consecutiveMistakeCount s' = 0%N /\
  exists rest,
    Tool.actions s' = Tool.actions s ++ ask :: rest /\
    ((Tool.askApproval env message (Tool.rq_isWriteProtected rq) = false /\
      rest = [] /\ Tool.world s' = Tool.world s) \/
     (Tool.askApproval env message (Tool.rq_isWriteProtected rq) = true /\
      Tool.world s' = Tool.world s2 /\
      exists call ending,
        rest = call ++ ending /\
        Tool.actions s2 = Tool.actions s1 ++ call /\
        ((exists e, fst (Tool.callProvider env rq s1) = Abrupt e /\
                    ending = [Tool.HandleError (lit "generating image") e]) \/
         (exists result msg,
             fst (Tool.callProvider env rq s1) = Normal result /\
             (success result = false \/
              Tool.present (imageData result) = None \/
              exists d, Tool.present (imageData result) = Some d /\
                        DataUrlPattern.matchDataUrl d = None) /\
             ending = [Tool.Say (lit "error") msg;
                       Tool.PushToolResult (Tool.toolError env msg)]) \/
         (exists result d imageFormat base64Data,
             fst (Tool.callProvider env rq s1) = Normal result /\
             success result = true /\
             Tool.present (imageData result) = Some d /\
             DataUrlPattern.matchDataUrl d = Some (imageFormat, base64Data) /\
             Tool.actions (Tool.saveImage env rq imageFormat base64Data s2)
             = Tool.actions s2 ++ ending /\
             s' = Tool.saveImage env rq imageFormat base64Data s2)))).
Proof.
  intros message ask s1 s2 s'. unfold s', Tool.execute.
  fold message. fold ask. fold s1.
  destruct (Tool.askApproval env message (Tool.rq_isWriteProtected rq)) eqn:Hask;
    cbn [negb].
  2:{ split; [reflexivity |]. exists []. split; [reflexivity |]. left. auto. }
  destruct (callProvider_trace env rq s1) as (call & Hcall & _ & Hcount & _).
  fold s2 in Hcall, Hcount.
  assert (Hs1 : Tool.actions s1 = Tool.actions s ++ [ask]) by reflexivity.
  assert (Hc1 : Tool.consecutiveMistakeCount s1 = 0%N) by reflexivity.
  unfold s2 in *.
  destruct (Tool.callProvider env rq s1) as [[result|e] t2] eqn:Hp;
    cbn [fst snd] in *.
  2:{ split; [now rewrite <- Hc1, <- Hcount |].
      exists (call ++ [Tool.HandleError (lit "generating image") e]).
      split.
      { unfold Tool.emit. cbn [Tool.actions]. rewrite Hcall, Hs1.
        now rewrite <- !app_assoc. }
      right. split; [reflexivity |]. split; [reflexivity |].
      exists call, [Tool.HandleError (lit "generating image") e].
      split; [reflexivity |]. split; [exact Hcall |]. left. eauto. }
  assert (Hreport : forall msg,
             (success result = false \/
              Tool.present (imageData result) = None \/
              exists d, Tool.present (imageData result) = Some d /\
                        DataUrlPattern.matchDataUrl d = None) ->
             Tool.consecutiveMistakeCount (Tool.reportError env msg t2) = 0%N /\
             Tool.world (Tool.reportError env msg t2) = Tool.world t2 /\
             Tool.actions (Tool.reportError env msg t2)
             = Tool.actions s
               ++ ask :: call ++ [Tool.Say (lit "error") msg;
                                  Tool.PushToolResult (Tool.toolError env msg)]).
  { intros msg Hwhy. rewrite reportError_exit. cbn.
    split; [now rewrite <- Hc1, <- Hcount |]. split; [reflexivity |].
    rewrite Hcall, Hs1. now rewrite <- !app_assoc. }
  assert (Hfinish : forall msg,
             (success result = false \/
              Tool.present (imageData result) = None \/
              exists d, Tool.present (imageData result) = Some d /\
                        DataUrlPattern.matchDataUrl d = None) ->
             Tool.consecutiveMistakeCount (Tool.reportError env msg t2) = 0%N /\
             exists rest,
               Tool.actions (Tool.reportError env msg t2)
               = Tool.actions s ++ ask :: rest /\
               ((true = false /\ rest = [] /\
                 Tool.world (Tool.reportError env msg t2) = Tool.world s) \/
                (true = true /\
                 Tool.world (Tool.reportError env msg t2) = Tool.world t2 /\
                 exists call0 ending,
                   rest = call0 ++ ending /\
                   Tool.actions t2 = Tool.actions s1 ++ call0 /\
                   ((exists e, Normal result = Abrupt e /\
                               ending
                               = [Tool.HandleError (lit "generating image") e]) \/
                    (exists result0 msg0,
                        Normal result = Normal result0 /\
                        (success result0 = false \/
                         Tool.present (imageData result0) = None \/
                         exists d, Tool.present (imageData result0) = Some d /\
                                   DataUrlPattern.matchDataUrl d = None) /\
                        ending = [Tool.Say (lit "error") msg0;
                                  Tool.PushToolResult (Tool.toolError env msg0)]) \/
                    (exists result0 d imageFormat base64Data,
                        Normal result = Normal result0 /\
                        success result0 = true /\
                        Tool.present (imageData result0) = Some d /\
                        DataUrlPattern.matchDataUrl d
                        = Some (imageFormat, base64Data) /\
                        Tool.actions
                          (Tool.saveImage env rq imageFormat base64Data t2)
                        = Tool.actions t2 ++ ending /\
                        Tool.reportError env msg t2
                        = Tool.saveImage env rq imageFormat base64Data t2))))).
  { intros msg Hwhy. destruct (Hreport msg Hwhy) as (H0 & Hw & Ha).
    split; [exact H0 |]. eexists. split; [exact Ha |].
    right. split; [reflexivity |]. split; [exact Hw |].
    eexists; eexists. split; [reflexivity |]. split; [exact Hcall |].
    right; left. exists result, msg. auto. }
  destruct (success result) eqn:Hs; cbn [negb].
  2:{ apply Hfinish. auto. }
  destruct (Tool.present (imageData result)) as [d|] eqn:Hd.
  2:{ apply Hfinish. auto. }
  destruct (DataUrlPattern.matchDataUrl d) as [[imageFormat base64Data]|] eqn:Hm.
  2:{ apply Hfinish. right; right. eauto. }
  destruct (saveImage_trace env rq imageFormat base64Data t2)
    as (Hw & Hc & tail & Htail & _).
  split; [now rewrite Hc, <- Hc1, <- Hcount |].
  eexists. split.
  { rewrite Htail, Hcall, Hs1. rewrite <- !app_assoc. reflexivity. }
  right. split; [reflexivity |]. split; [exact Hw |].
  eexists; eexists. split; [reflexivity |]. split; [exact Hcall |].
  right; right. exists result, d, imageFormat, base64Data.
  repeat split; auto.
Qed.

Lemma tool_after_exit (env : Tool.Env) (block : Tool.ToolUse) (s s' : Tool.Task) :
  Tool.preflight env block s = inl s' ->
  Tool.generateImageTool env block s = s'.
Proof. intros H. unfold Tool.generateImageTool. now rewrite H. Qed.

Lemma tool_after_request (env : Tool.Env) (block : Tool.ToolUse) (s : Tool.Task)
    (rq : Tool.Request) :
  Tool.preflight env block s = inr rq ->
  Tool.generateImageTool env block s = Tool.execute env rq s.
Proof. intros H. unfold Tool.generateImageTool. now rewrite H. Qed.

(** X14. Nothing reaches outside the conversation without the user's
    consent: if a run of the tool calls a provider, creates a directory,
    writes a file or registers one, then the experiment is enabled, the block
    is complete, its path passed the ignore check, and the first thing the
    run did was to ask for approval, which was granted. *)
Theorem outward_effects_follow_a_granted_approval
    (env : Tool.Env) (block : Tool.ToolUse) (s : Tool.Task) :
  exists done,
    Tool.actions (Tool.generateImageTool env block s) = Tool.actions s ++ done /\
    (existsb Tool.isOutward done = true \/
     calls (Tool.world (Tool.generateImageTool env block s))
     <> calls (Tool.world s) ->
     Tool.isImageGenerationEnabled env = true /\
     Tool.partial block = false /\
     (exists relPath,
         Tool.present (Tool.path block) = Some relPath /\
         Tool.accessAllowed env relPath = true) /\
     exists message isProtected rest,
       done = Tool.AskApproval message isProtected :: rest /\
       Tool.askApproval env message isProtected = true).
Proof.
  destruct (Tool.preflight env block s) as [exit|rq] eqn:Hp.
  - rewrite (tool_after_exit _ _ _ Hp).
    destruct (preflight_exit _ _ _ Hp) as (done & count & Hexit & ->).
    exists done. split; [reflexivity |].
    intros [Hout | Hw]; [| now elim Hw].
    destruct Hexit; discriminate Hout.
  - rewrite (tool_after_request _ _ _ Hp).
    destruct (preflight_request _ _ _ Hp)
      as (Hen & Hpa & _ & Hpath & Hacc & _).
    destruct (execute_trace env rq s) as (_ & rest & Hact & Hcase).
    eexists. split; [exact Hact |].
    intros Hprem.
    destruct Hcase as [(Hdeny & -> & Hw) | (Hgrant & _)].
    + exfalso. destruct Hprem as [Hout | Hne]; [discriminate Hout |].
      apply Hne. now rewrite Hw.
    + repeat split; auto; eauto.
Qed.

Lemma filter_isPush_call (call : list Tool.Action) (rq : Tool.Request)
    (ending : list Tool.Action) :
  call = [] \/
  call = [Tool.OpenRouterGenerateImage (Tool.rq_prompt rq) (Tool.rq_model rq)
            (Tool.rq_apiKey rq) (Tool.rq_inputImageData rq)] ->
  List.filter Tool.isPush (call ++ ending) = List.filter Tool.isPush ending.
Proof. intros [-> | ->]; reflexivity. Qed.

(** X15. A run of the tool pushes at most one tool result. It pushes none
    only in three cases: the block is still partial, the user declined the
    approval, or an exception was handed to the error handler. *)
Theorem tool_pushes_at_most_one_result
    (env : Tool.Env) (block : Tool.ToolUse) (s : Tool.Task) :
  let done := Tool.doneBy s (Tool.generateImageTool env block s) in
  let pushes := List.length (List.filter Tool.isPush done) in
  pushes <= 1 /\
  (pushes = 0 ->
   (Tool.isImageGenerationEnabled env = true /\ Tool.partial block = true /\
    done = []) \/
   (exists message isProtected,
       done = [Tool.AskApproval message isProtected] /\
       Tool.askApproval env message isProtected = false) \/
   (exists before e,
       done = before ++ [Tool.HandleError (lit "generating image") e])).
Proof.
  intros done pushes. unfold pushes, done. clear pushes done.
  destruct (Tool.preflight env block s) as [exit|rq] eqn:Hp.
  - rewrite (tool_after_exit _ _ _ Hp).
    destruct (preflight_exit _ _ _ Hp) as (done & count & Hexit & ->).
    rewrite (@doneBy_extends s (exited s done count) done eq_refl).
    destruct Hexit; simpl; (split; [lia |]); try discriminate.
    intros _. left. auto.
  - rewrite (tool_after_request _ _ _ Hp).
    destruct (execute_trace env rq s) as (_ & rest & Hact & Hcase).
    rewrite (@doneBy_extends _ _ _ Hact).
    cbn [List.filter Tool.isPush].
    destruct Hcase as [(Hdeny & -> & _) | (_ & _ & call & ending & -> & Hcall & Hend)].
    + simpl. split; [lia |]. intros _. right; left. eauto.
    + destruct (callProvider_trace env rq
                  (Tool.emit
                     (Tool.AskApproval (Tool.approvalMessageOf env rq)
                        (Tool.rq_isWriteProtected rq))
                     (Tool.mkTask (Tool.actions s) 0 (Tool.didEditFile s)
                        (Tool.world s))))
        as (call' & Hcall' & Hshape & _).
      rewrite Hcall in Hcall'. apply app_inv_head in Hcall'. subst call'.
      assert (Hc : call = [] \/
                   call = [Tool.OpenRouterGenerateImage (Tool.rq_prompt rq)
                             (Tool.rq_model rq) (Tool.rq_apiKey rq)
                             (Tool.rq_inputImageData rq)])
        by (destruct Hshape as [[? _] | [? _]]; auto).
      rewrite (filter_isPush_call rq ending Hc).
      destruct Hend as [(e & _ & ->) | [(result & msg & _ & _ & ->) |
                          (result & d & fmt & b64 & _ & _ & _ & _ & Hsave & _)]].
      * simpl. split; [lia |]. intros _. right; right.
        exists (Tool.AskApproval (Tool.approvalMessageOf env rq)
                  (Tool.rq_isWriteProtected rq) :: call), e.
        now rewrite <- app_comm_cons.
      * simpl. split; [lia | discriminate].
      * destruct (saveImage_trace env rq fmt b64
                    (snd (Tool.callProvider env rq
                            (Tool.emit
                               (Tool.AskApproval (Tool.approvalMessageOf env rq)
                                  (Tool.rq_isWriteProtected rq))
                               (Tool.mkTask (Tool.actions s) 0
                                  (Tool.didEditFile s) (Tool.world s))))))
          as (_ & _ & tail & Htail & Hshape').
        rewrite Hsave in Htail. apply app_inv_head in Htail. subst ending.
        destruct Hshape' as [(e & ->) | [(e & ->) | (uri & -> & _)]]; simpl.
        -- split; [lia |]. intros _. right; right.
           exists (Tool.AskApproval (Tool.approvalMessageOf env rq)
                     (Tool.rq_isWriteProtected rq)
                   :: call ++ [Tool.Mkdir
                                 (Tool.dirname env
                                    (Tool.resolve env (Tool.cwd env)
                                       (Tool.finalPathOf (Tool.rq_relPath rq) fmt)))]),
                  e.
           simpl. now rewrite <- app_assoc.
        -- split; [lia |]. intros _. right; right.
           exists (Tool.AskApproval (Tool.approvalMessageOf env rq)
                     (Tool.rq_isWriteProtected rq)
                   :: call ++ [Tool.Mkdir
                                 (Tool.dirname env
                                    (Tool.resolve env (Tool.cwd env)
                                       (Tool.finalPathOf (Tool.rq_relPath rq) fmt)));
                               Tool.WriteFile
                                 (Tool.resolve env (Tool.cwd env)
                                    (Tool.finalPathOf (Tool.rq_relPath rq) fmt))
                                 b64]),
                  e.
           simpl. now rewrite <- app_assoc.
        -- split; [lia | discriminate].
Qed.

(** X16. The mistake counter follows the input. With the experiment on and
    a complete block, a missing (absent or empty) prompt or path makes the
    run record the tool error, say the missing parameter, push one result
    and raise the counter by exactly one. When every pre-flight check passes
    the run asks for approval and leaves the counter at zero, whatever
    happens afterwards; and a run that asked for approval always leaves it at
    zero. Every other run -- experiment off, partial block, refused path,
    input image or key in default -- leaves the counter as it found it. *)
Theorem mistake_counter_reset_or_incremented
    (env : Tool.Env) (block : Tool.ToolUse) (s : Tool.Task) :
  let s' := Tool.generateImageTool env block s in
  (Tool.isImageGenerationEnabled env = true ->
   Tool.partial block = false ->
   Tool.present (Tool.prompt block) = None \/
   Tool.present (Tool.path block) = None ->
   Tool.consecutiveMistakeCount s' = (Tool.consecutiveMistakeCount s + 1)%N /\
   exists param,
     Tool.doneBy s s'
     = [ Tool.RecordToolError (lit "generate_image")
       ; Tool.SayMissingParam (lit "generate_image") param
       ; Tool.PushToolResult
           (Tool.missingParamError env (lit "generate_image") param) ] /\
     (Tool.present (Tool.prompt block) = None /\ param = lit "prompt" \/
      Tool.present (Tool.prompt block) <> None /\ param = lit "path"))
  /\
  (forall (prompt relPath : jsstring) (inputImageData : option jsstring)
          (selected : ImageGenerationProvider * jsstring * jsstring),
      Tool.isImageGenerationEnabled env = true ->
      Tool.partial block = false ->
      Tool.present (Tool.prompt block) = Some prompt ->
      Tool.present (Tool.path block) = Some relPath ->
      Tool.accessAllowed env relPath = true ->
      Tool.readInputImage env block s = inr inputImageData ->
      Tool.selectProvider env = inr selected ->
      Tool.consecutiveMistakeCount s' = 0%N /\
      exists message isProtected rest,
        Tool.doneBy s s' = Tool.AskApproval message isProtected :: rest)
  /\
  ((exists message isProtected,
       In (Tool.AskApproval message isProtected) (Tool.doneBy s s')) ->
   Tool.consecutiveMistakeCount s' = 0%N)
  /\
  ((forall message isProtected,
       ~ In (Tool.AskApproval message isProtected) (Tool.doneBy s s')) ->
   ~ (Tool.isImageGenerationEnabled env = true /\
      Tool.partial block = false /\
      (Tool.present (Tool.prompt block) = None \/
       Tool.present (Tool.path block) = None)) ->
   Tool.consecutiveMistakeCount s' = Tool.consecutiveMistakeCount s).
Proof.
  cbv zeta. split; [| split; [| split]].
  - intros Hen Hpart Hmiss.
    unfold Tool.generateImageTool, Tool.preflight.
    rewrite Hen, Hpart. cbn [negb].
    destruct (Tool.present (Tool.prompt block)) as [prompt|] eqn:Hprompt.
    + destruct Hmiss as [Hm | Hm]; [discriminate Hm |]. rewrite Hm.
      rewrite reportMissing_exit. split; [reflexivity |].
      exists (lit "path"). split.
      * apply doneBy_extends. reflexivity.
      * right. split; [discriminate | reflexivity].
    + rewrite reportMissing_exit. split; [reflexivity |].
      exists (lit "prompt"). split.
      * apply doneBy_extends. reflexivity.
      * left. split; reflexivity.
  - intros prompt relPath inputImageData [[provider apiKey] model]
      Hen Hpart Hprompt Hpath Hacc Hread Hsel.
    unfold Tool.generateImageTool, Tool.preflight.
    rewrite Hen, Hpart, Hprompt, Hpath, Hacc, Hread, Hsel. cbn [negb].
    match goal with
    | |- context [Tool.execute env ?rq s] =>
        destruct (execute_trace env rq s) as (Hzero & rest & Hact & _)
    end.
    split; [exact Hzero |].
    eexists; eexists; exists rest.
    apply doneBy_extends. exact Hact.
  - intros (message & isProtected & Hin).
    destruct (Tool.preflight env block s) as [exit|rq] eqn:Hp.
    + rewrite (tool_after_exit _ _ _ Hp) in *.
      destruct (preflight_exit _ _ _ Hp) as (done & count & Hexit & ->).
      rewrite (@doneBy_extends s (exited s done count) done eq_refl) in Hin.
      exfalso.
      destruct Hexit; simpl in Hin;
        repeat (destruct Hin as [Hin | Hin]; [discriminate Hin |]);
        exact Hin.
    + rewrite (tool_after_request _ _ _ Hp).
      exact (proj1 (execute_trace env rq s)).
  - intros Hnot Hnm.
    destruct (Tool.preflight env block s) as [exit|rq] eqn:Hp.
    + rewrite (tool_after_exit _ _ _ Hp) in *.
      destruct (preflight_exit _ _ _ Hp) as (done & count & Hexit & ->).
      destruct Hexit; try reflexivity.
      exfalso. apply Hnm. auto.
    + rewrite (tool_after_request _ _ _ Hp) in *.
      destruct (execute_trace env rq s) as (_ & rest & Hact & _).
      rewrite (@doneBy_extends _ _ _ Hact) in Hnot.
      exfalso. eapply Hnot. left. reflexivity.
Qed.

Lemma mistake_counter_reset_or_incremented_witness :
  Tool.present (Tool.prompt
                  (Tool.mkToolUse (Some []) (Some (lit "kite.png")) None false))
  = None /\
  Tool.consecutiveMistakeCount
    (Tool.generateImageTool (sampleEnv (respondWith (responseOf [pngPart])))
       (Tool.mkToolUse (Some []) (Some (lit "kite.png")) None false)
       emptyTask)
  = 1%N.
Proof.
  split; [reflexivity |].
  exact (proj1 (proj1 (mistake_counter_reset_or_incremented
                         (sampleEnv (respondWith (responseOf [pngPart])))
                         (Tool.mkToolUse (Some []) (Some (lit "kite.png"))
                            None false)
                         emptyTask)
                  eq_refl eq_refl (or_introl eq_refl))).
Defined.

(** X17. A task without an ignore controller gets no image: once the
    experiment is on and the block is complete with prompt and path, the run
    ends on the ignore error for the path and does nothing else. *)
Theorem without_ignore_controller_every_path_is_refused
    (env : Tool.Env) (block : Tool.ToolUse) (s : Tool.Task)
    (prompt relPath : jsstring) :
  Tool.rooIgnoreController env = None ->
  Tool.isImageGenerationEnabled env = true ->
  Tool.partial block = false ->
  Tool.present (Tool.prompt block) = Some prompt ->
  Tool.present (Tool.path block) = Some relPath ->
  Tool.generateImageTool env block s
  = Tool.mkTask
      (Tool.actions s
       ++ [ Tool.Say (lit "rooignore_error") relPath
          ; Tool.PushToolResult
              (Tool.toolError env (Tool.rooIgnoreError env relPath)) ])
      (Tool.consecutiveMistakeCount s) (Tool.didEditFile s) (Tool.world s).
Proof.
  intros Hc Hen Hpart Hprompt Hpath.
  unfold Tool.generateImageTool, Tool.preflight, Tool.accessAllowed.
  rewrite Hen, Hpart, Hprompt, Hpath, Hc. cbn [negb].
  apply reportIgnored_exit.
Qed.

Lemma without_ignore_controller_every_path_is_refused_witness :
  Tool.doneBy emptyTask
    (Tool.generateImageTool
       (Tool.withIgnore (sampleEnv (respondWith (responseOf [pngPart]))) None)
       (Tool.mkToolUse (Some (lit "a red kite")) (Some (lit "kite.png")) None false)
       emptyTask)
  = [ Tool.Say (lit "rooignore_error") (lit "kite.png")
    ; Tool.PushToolResult
        (lit "ERROR: Access blocked by .rooignore: kite.png") ].
Proof.
  rewrite (@without_ignore_controller_every_path_is_refused
             (Tool.withIgnore (sampleEnv (respondWith (responseOf [pngPart]))) None)
             (Tool.mkToolUse (Some (lit "a red kite")) (Some (lit "kite.png"))
                None false)
             emptyTask (lit "a red kite") (lit "kite.png")
             eq_refl eq_refl eq_refl eq_refl eq_refl).
  reflexivity.
Defined.

(** X18. The ignore controller is asked about the two paths written in the
    block and about nothing else: two controllers that agree on the block's
    [path] and [image] give the same run. In particular the path that the
    image is finally written to, when an extension is appended, is not
    shown to the controller. *)
Theorem ignore_controller_sees_only_the_paths_of_the_block
    (env : Tool.Env) (block : Tool.ToolUse) (s : Tool.Task)
    (c c' : jsstring -> bool) :
  (forall p,
      Tool.present (Tool.path block) = Some p \/
      Tool.present (Tool.image block) = Some p ->
      c p = c' p) ->
  Tool.generateImageTool (Tool.withIgnore env (Some c)) block s
  = Tool.generateImageTool (Tool.withIgnore env (Some c')) block s.
Proof.
  intros Hagree.
  unfold Tool.generateImageTool, Tool.preflight.
  change (Tool.isImageGenerationEnabled (Tool.withIgnore env (Some c)))
    with (Tool.isImageGenerationEnabled env).
  change (Tool.isImageGenerationEnabled (Tool.withIgnore env (Some c')))
    with (Tool.isImageGenerationEnabled env).
  destruct (Tool.isImageGenerationEnabled env); cbn [negb]; [| reflexivity].
  destruct (Tool.partial block); [reflexivity |].
  destruct (Tool.present (Tool.prompt block)) as [prompt|]; [| reflexivity].
  destruct (Tool.present (Tool.path block)) as [relPath|] eqn:Hpath;
    [| reflexivity].
  change (Tool.accessAllowed (Tool.withIgnore env (Some c)) relPath)
    with (c relPath).
  change (Tool.accessAllowed (Tool.withIgnore env (Some c')) relPath)
    with (c' relPath).
  rewrite <- (Hagree relPath (or_introl eq_refl)).
  destruct (c relPath); cbn [negb]; [| reflexivity].
  assert (Hread : Tool.readInputImage (Tool.withIgnore env (Some c)) block s
                  = Tool.readInputImage (Tool.withIgnore env (Some c')) block s).
  { unfold Tool.readInputImage.
    destruct (Tool.present (Tool.image block)) as [p|] eqn:Himg; [| reflexivity].
    change (Tool.accessAllowed (Tool.withIgnore env (Some c)) p) with (c p).
    change (Tool.accessAllowed (Tool.withIgnore env (Some c')) p) with (c' p).
    rewrite <- (Hagree p (or_intror eq_refl)). reflexivity. }
  rewrite Hread.
  destruct (Tool.readInputImage (Tool.withIgnore env (Some c')) block s);
    reflexivity.
Qed.

Lemma ignore_controller_sees_only_the_paths_of_the_block_witness :
  (forall p,
      Tool.present (Some (lit "kite")) = Some p \/ Tool.present None = Some p ->
      (fun _ => true) p = JsString.eqb (lit "kite") p) /\
  JsString.eqb (lit "kite") (lit "kite.png") = false /\
  Tool.generateImageTool
    (Tool.withIgnore (sampleEnv (respondWith (responseOf [pngPart])))
       (Some (JsString.eqb (lit "kite"))))
    (Tool.mkToolUse (Some (lit "a red kite")) (Some (lit "kite")) None false)
    emptyTask
  = Tool.generateImageTool
      (Tool.withIgnore (sampleEnv (respondWith (responseOf [pngPart])))
         (Some (fun _ => true)))
      (Tool.mkToolUse (Some (lit "a red kite")) (Some (lit "kite")) None false)
      emptyTask /\
  In (Tool.WriteFile (lit "/work/kite.png") (lit "iVBORw0KGgo="))
     (Tool.actions
        (Tool.generateImageTool
           (Tool.withIgnore (sampleEnv (respondWith (responseOf [pngPart])))
              (Some (JsString.eqb (lit "kite"))))
           (Tool.mkToolUse (Some (lit "a red kite")) (Some (lit "kite")) None
              false)
           emptyTask)).
Proof.
  assert (H : forall p,
             Tool.present (Some (lit "kite")) = Some p \/
             Tool.present None = Some p ->
             (fun _ => true) p = JsString.eqb (lit "kite") p).
  { intros p [[= <-] | [=]]. reflexivity. }
  split; [exact H |]. split; [reflexivity |]. split.
  - symmetry.
    apply (@ignore_controller_sees_only_the_paths_of_the_block
             (sampleEnv (respondWith (responseOf [pngPart])))
             (Tool.mkToolUse (Some (lit "a red kite")) (Some (lit "kite")) None
                false)
             emptyTask (fun _ => true) (JsString.eqb (lit "kite")) H).
  - vm_compute. auto 10.
Defined.

Lemma jsstring_eqb_eq (a b : jsstring) : JsString.eqb a b = true <-> a = b.
Proof.
  revert b. induction a as [|x a IH]; intros [|y b]; simpl; split;
    try congruence; try discriminate.
  - intros H. apply andb_true_iff in H as [Hx Hab].
    apply N.eqb_eq in Hx. apply IH in Hab. congruence.
  - intros [= -> ->]. rewrite N.eqb_refl. now apply IH.
Qed.

Lemma isSupportedFormat_cases (ext : jsstring) :
  Tool.isSupportedFormat ext = true ->
  ext = lit "png" \/ ext = lit "jpg" \/ ext = lit "jpeg" \/
  ext = lit "gif" \/ ext = lit "webp".
Proof.
  unfold Tool.isSupportedFormat, Tool.supportedFormats. cbn [existsb].
  rewrite !orb_true_iff, !jsstring_eqb_eq. intuition discriminate.
Qed.

Lemma present_Some (x : option jsstring) (v : jsstring) :
  Tool.present x = Some v <-> x = Some v /\ v <> [].
Proof.
  unfold Tool.present. destruct x as [[|c r]|]; simpl.
  - split; [discriminate | intros [[= <-] H]; congruence].
  - split; [intros [= <-]; split; [reflexivity | discriminate] |
            intros [H _]; exact H].
  - split; [discriminate | intros [H _]; discriminate].
Qed.

(** The data URLs that the Gemini adapter will not take. *)
Lemma unmatched_input_image (ext base64 : jsstring) :
  ext = lit "gif" \/ ext = lit "webp" \/
  (Tool.isSupportedFormat ext = true /\ base64 = []) ->
  DataUrlPattern.matchDataUrl (Tool.inputImageDataUrl ext base64) = None.
Proof.
  intros [-> | [-> | [Hs ->]]]; try reflexivity.
  destruct (isSupportedFormat_cases ext Hs) as [-> | [-> | [-> | [-> | ->]]]];
    reflexivity.
Qed.

Lemma inputImageDataUrl_truthy (ext base64 : jsstring) :
  JsString.truthy (Tool.inputImageDataUrl ext base64) = true.
Proof. reflexivity. Qed.

(** X19. For the Gemini provider, an input image with extension [gif] or
    [webp] -- both on the tool's list of supported formats -- and an empty
    input file of any supported format always end the same way: after the
    approval the run reports ["Invalid input image format. Expected base64
    data URL."], and the provider is not called. *)
Theorem gemini_refuses_gif_webp_and_empty_input_images
    (env : Tool.Env) (rq : Tool.Request) (s : Tool.Task) (ext base64 : jsstring) :
  Tool.rq_provider rq = gemini ->
  Tool.rq_inputImageData rq = Some (Tool.inputImageDataUrl ext base64) ->
  ext = lit "gif" \/ ext = lit "webp" \/
  (Tool.isSupportedFormat ext = true /\ base64 = []) ->
  Tool.askApproval env (Tool.approvalMessageOf env rq)
    (Tool.rq_isWriteProtected rq) = true ->
  Tool.isSupportedFormat (lit "gif") = true /\
  Tool.isSupportedFormat (lit "webp") = true /\
  Tool.doneBy s (Tool.execute env rq s)
  = [ Tool.AskApproval (Tool.approvalMessageOf env rq)
        (Tool.rq_isWriteProtected rq)
    ; Tool.Say (lit "error")
        (lit "Invalid input image format. Expected base64 data URL.")
    ; Tool.PushToolResult
        (Tool.toolError env
           (lit "Invalid input image format. Expected base64 data URL.")) ] /\
  Tool.world (Tool.execute env rq s) = Tool.world s.
Proof.
  intros Hprov Hdata Hext Hask.
  split; [reflexivity |]. split; [reflexivity |].
  assert (Hcall : forall t,
             Tool.callProvider env rq t
             = (Normal (failure msgInvalidInput), t)).
  { intros t. unfold Tool.callProvider. rewrite Hprov, Hdata.
    rewrite (@generateImage_early (Tool.geminiTransport env)
               (Tool.newGeminiHandler (Tool.rq_apiKey rq)) (Tool.rq_prompt rq)
               (Tool.rq_model rq) (Some (Tool.rq_apiKey rq))
               (Some (Tool.inputImageDataUrl ext base64)) (Tool.world t)
               (failure msgInvalidInput)).
    - destruct t; reflexivity.
    - unfold prepareContents.
      now rewrite inputImageDataUrl_truthy, (unmatched_input_image Hext). }
  assert (E : Tool.execute env rq s
              = Tool.mkTask
                  (Tool.actions s
                   ++ [ Tool.AskApproval (Tool.approvalMessageOf env rq)
                          (Tool.rq_isWriteProtected rq)
                      ; Tool.Say (lit "error") msgInvalidInput
                      ; Tool.PushToolResult (Tool.toolError env msgInvalidInput) ])
                  0 (Tool.didEditFile s) (Tool.world s)).
  { unfold Tool.execute. rewrite Hask, Hcall. cbn [negb success failure].
    cbn [error]. change (orElse (Some msgInvalidInput)
                           (lit "Failed to generate image"))
      with msgInvalidInput.
    rewrite reportError_exit. unfold Tool.emit. cbn.
    now rewrite <- !app_assoc. }
  rewrite E. split; [| reflexivity].
  now apply doneBy_extends.
Qed.

Lemma gemini_refuses_gif_webp_and_empty_input_images_witness :
  Tool.preflight (sampleEnv (respondWith (responseOf [pngPart])))
    (Tool.mkToolUse (Some (lit "make it blue")) (Some (lit "kite.png"))
       (Some (lit "old.gif")) false) emptyTask
  = inr (Tool.mkRequest (lit "make it blue") (lit "kite.png")
           (Some (lit "old.gif"))
           (Some (Tool.inputImageDataUrl (lit "gif") (lit "R0lGODlh")))
           false gemini (lit "key") (lit "gemini-2.5-flash-image-preview")) /\
  Tool.world
    (Tool.generateImageTool (sampleEnv (respondWith (responseOf [pngPart])))
       (Tool.mkToolUse (Some (lit "make it blue")) (Some (lit "kite.png"))
          (Some (lit "old.gif")) false) emptyTask)
  = emptyWorld.
Proof.
  split; [reflexivity |].
  pose (env := sampleEnv (respondWith (responseOf [pngPart]))).
  pose (block := Tool.mkToolUse (Some (lit "make it blue")) (Some (lit "kite.png"))
                   (Some (lit "old.gif")) false).
  pose (rq := Tool.mkRequest (lit "make it blue") (lit "kite.png")
                (Some (lit "old.gif"))
                (Some (Tool.inputImageDataUrl (lit "gif") (lit "R0lGODlh")))
                false gemini (lit "key") (lit "gemini-2.5-flash-image-preview")).
  change (Tool.world (Tool.generateImageTool env block emptyTask) = emptyWorld).
  rewrite (@tool_after_request env block emptyTask rq eq_refl).
  apply (@gemini_refuses_gif_webp_and_empty_input_images
           env rq emptyTask (lit "gif") (lit "R0lGODlh") eq_refl eq_refl
           (or_introl eq_refl) eq_refl).
Defined.

(** X20. An input image with extension [png], [jpg] or [jpeg] and a
    non-empty base64 text goes from the tool to the provider request intact:
    the adapter decodes the tool's data URL into an inline part with the
    same base64 text and MIME type [image/png] or [image/jpeg], next to the
    prompt. *)
Theorem supported_input_image_reaches_the_request_intact
    (prompt ext base64 : jsstring) :
  In ext [lit "png"; lit "jpg"; lit "jpeg"] ->
  base64 <> [] ->
  forallb (fun c => negb (DataUrlPattern.isLineTerminator c)) base64 = true ->
  prepareContents prompt (Some (Tool.inputImageDataUrl ext base64))
  = inr [ mkContent (Some (lit "user"))
            (Some [ mkPart (Some prompt) None
                  ; mkPart None
                      (Some (mkBlob
                               (Some (if JsString.eqb ext (lit "png")
                                      then lit "image/png"
                                      else lit "image/jpeg"))
                               (Some base64))) ]) ].
Proof.
  intros Hext Hne Hline.
  assert (Hm : forall sub,
             In sub [lit "png"; lit "jpeg"; lit "jpg"] ->
             DataUrlPattern.matchDataUrl
               (lit "data:image/" ++ sub ++ lit ";base64," ++ base64)
             = Some (sub, base64)).
  { intros sub Hsub. apply matchDataUrl_spec. repeat split; auto. }
  unfold prepareContents. rewrite inputImageDataUrl_truthy.
  destruct Hext as [<- | [<- | [<- | []]]].
  - change (Tool.inputImageDataUrl (lit "png") base64)
      with (lit "data:image/" ++ lit "png" ++ lit ";base64," ++ base64).
    rewrite (Hm (lit "png")) by (simpl; auto). reflexivity.
  - change (Tool.inputImageDataUrl (lit "jpg") base64)
      with (lit "data:image/" ++ lit "jpeg" ++ lit ";base64," ++ base64).
    rewrite (Hm (lit "jpeg")) by (simpl; auto). reflexivity.
  - change (Tool.inputImageDataUrl (lit "jpeg") base64)
      with (lit "data:image/" ++ lit "jpeg" ++ lit ";base64," ++ base64).
    rewrite (Hm (lit "jpeg")) by (simpl; auto). reflexivity.
Qed.

Lemma supported_input_image_reaches_the_request_intact_witness :
  In (lit "jpg") [lit "png"; lit "jpg"; lit "jpeg"] /\
  lit "/9j/4AAQ" <> [] /\
  prepareContents (lit "make it blue")
    (Some (Tool.inputImageDataUrl (lit "jpg") (lit "/9j/4AAQ")))
  = inr [ mkContent (Some (lit "user"))
            (Some [ mkPart (Some (lit "make it blue")) None
                  ; mkPart None
                      (Some (mkBlob (Some (lit "image/jpeg"))
                               (Some (lit "/9j/4AAQ")))) ]) ].
Proof.
  assert (Hin : In (lit "jpg") [lit "png"; lit "jpg"; lit "jpeg"])
    by (right; left; reflexivity).
  assert (Hne : lit "/9j/4AAQ" <> []) by discriminate.
  split; [exact Hin |]. split; [exact Hne |].
  exact (@supported_input_image_reaches_the_request_intact
           (lit "make it blue") (lit "jpg") (lit "/9j/4AAQ") Hin Hne eq_refl).
Defined.

Lemma hasImageExtension_added (p ext : jsstring) :
  In ext [lit "png"; lit "jpg"; lit "jpeg"] ->
  Tool.hasImageExtension (p ++ lit "." ++ ext) = true.
Proof.
  intros Hin. unfold Tool.hasImageExtension, Tool.endsWithCI. cbn [existsb].
  rewrite !rev_app_distr.
  destruct Hin as [<- | [<- | [<- | []]]]; reflexivity.
Qed.

(** X21. The file name that the image is saved under: a path that already
    ends in [.png], [.jpg] or [.jpeg], in any letter case, is kept as it is,
    whatever the format of the image; any other path gets [.png] or [.jpg]
    appended ([jpeg] is written [jpg]). The result always has an image
    extension, and naming it again changes nothing. *)
Theorem final_path_keeps_or_adds_an_image_extension
    (relPath imageFormat : jsstring) :
  In imageFormat [lit "png"; lit "jpeg"; lit "jpg"] ->
  (Tool.hasImageExtension relPath = true ->
   Tool.finalPathOf relPath imageFormat = relPath) /\
  (Tool.hasImageExtension relPath = false ->
   Tool.finalPathOf relPath imageFormat
   = relPath ++ lit "."
       ++ (if JsString.eqb imageFormat (lit "png") then lit "png" else lit "jpg")) /\
  Tool.hasImageExtension (Tool.finalPathOf relPath imageFormat) = true /\
  (forall other,
      Tool.finalPathOf (Tool.finalPathOf relPath imageFormat) other
      = Tool.finalPathOf relPath imageFormat).
Proof.
  intros Hin.
  assert (Hadd : Tool.hasImageExtension relPath = false ->
                 Tool.finalPathOf relPath imageFormat
                 = relPath ++ lit "."
                     ++ (if JsString.eqb imageFormat (lit "png")
                         then lit "png" else lit "jpg")).
  { intros H. unfold Tool.finalPathOf. rewrite H.
    destruct Hin as [<- | [<- | [<- | []]]]; reflexivity. }
  assert (Hhas : Tool.hasImageExtension (Tool.finalPathOf relPath imageFormat)
                 = true).
  { destruct (Tool.hasImageExtension relPath) eqn:H.
    - unfold Tool.finalPathOf. now rewrite H.
    - rewrite (Hadd eq_refl). apply hasImageExtension_added.
      destruct (JsString.eqb imageFormat (lit "png")); simpl; auto. }
  split; [| split; [exact Hadd | split; [exact Hhas |]]].
  - intros H. unfold Tool.finalPathOf. now rewrite H.
  - intros other. unfold Tool.finalPathOf at 1. now rewrite Hhas.
Qed.

Lemma final_path_keeps_or_adds_an_image_extension_witness :
  In (lit "jpeg") [lit "png"; lit "jpeg"; lit "jpg"] /\
  Tool.finalPathOf (lit "out/kite") (lit "jpeg") = lit "out/kite.jpg" /\
  Tool.finalPathOf (lit "out/KITE.PNG") (lit "jpeg") = lit "out/KITE.PNG".
Proof.
  assert (Hin : In (lit "jpeg") [lit "png"; lit "jpeg"; lit "jpg"])
    by (right; left; reflexivity).
  split; [exact Hin |].
  destruct (@final_path_keeps_or_adds_an_image_extension
              (lit "out/kite") (lit "jpeg") Hin) as (_ & Hadd & _).
  destruct (@final_path_keeps_or_adds_an_image_extension
              (lit "out/KITE.PNG") (lit "jpeg") Hin) as (Hkeep & _).
  split; [exact (Hadd eq_refl) | exact (Hkeep eq_refl)].
Defined.

(** X22. Whatever file a run writes holds what the provider sent: the tool
    got past its pre-flight checks, the provider call returned a successful
    result whose image data is [data:image/<format>;base64,<payload>] with
    format [png], [jpeg] or [jpg] and a non-empty payload, the written
    content is the decoding of exactly that payload, and the file is the
    final path for the block's path and that format, resolved against the
    working directory. *)
Theorem written_file_holds_the_provider_payload
    (env : Tool.Env) (block : Tool.ToolUse) (s : Tool.Task)
    (absolutePath base64Data : jsstring) :
  In (Tool.WriteFile absolutePath base64Data)
     (Tool.doneBy s (Tool.generateImageTool env block s)) ->
  exists rq result d imageFormat,
    Tool.preflight env block s = inr rq /\
    Tool.askApproval env (Tool.approvalMessageOf env rq)
      (Tool.rq_isWriteProtected rq) = true /\
    fst (Tool.callProvider env rq
           (Tool.emit
              (Tool.AskApproval (Tool.approvalMessageOf env rq)
                 (Tool.rq_isWriteProtected rq))
              (Tool.mkTask (Tool.actions s) 0 (Tool.didEditFile s)
                 (Tool.world s))))
    = Normal result /\
    success result = true /\
    imageData result = Some d /\
    MatchesPattern d imageFormat base64Data /\
    absolutePath
    = Tool.resolve env (Tool.cwd env)
        (Tool.finalPathOf (Tool.rq_relPath rq) imageFormat).
Proof.
  destruct (Tool.preflight env block s) as [exit|rq] eqn:Hp.
  - rewrite (tool_after_exit _ _ _ Hp).
    destruct (preflight_exit _ _ _ Hp) as (done & count & Hexit & ->).
    rewrite (@doneBy_extends s (exited s done count) done eq_refl).
    intros Hin. exfalso. destruct Hexit; simpl in Hin; intuition discriminate.
  - rewrite (tool_after_request _ _ _ Hp).
    destruct (execute_trace env rq s) as (_ & rest & Hact & Hcase).
    rewrite (@doneBy_extends _ _ _ Hact).
    destruct Hcase as [(_ & -> & _) | (Hask & _ & call & ending & -> & Hcall & Hend)].
    { intros [H | []]. discriminate H. }
    destruct (callProvider_trace env rq
                (Tool.emit
                   (Tool.AskApproval (Tool.approvalMessageOf env rq)
                      (Tool.rq_isWriteProtected rq))
                   (Tool.mkTask (Tool.actions s) 0 (Tool.didEditFile s)
                      (Tool.world s))))
      as (call' & Hcall' & Hshape & _).
    rewrite Hcall in Hcall'. apply app_inv_head in Hcall'. subst call'.
    intros [H | Hin]; [discriminate H |].
    apply in_app_or in Hin as [Hin | Hin].
    { exfalso. destruct Hshape as [[-> _] | [-> _]]; simpl in Hin;
        intuition discriminate. }
    destruct Hend as [(e & _ & ->) | [(result & msg & _ & _ & ->) |
                        (result & d & fmt & b64 & Hres & Hsucc & Hd & Hm & Hsave & _)]].
    { exfalso. simpl in Hin. intuition discriminate. }
    { exfalso. simpl in Hin. intuition discriminate. }
    destruct (saveImage_trace env rq fmt b64
                (snd (Tool.callProvider env rq
                        (Tool.emit
                           (Tool.AskApproval (Tool.approvalMessageOf env rq)
                              (Tool.rq_isWriteProtected rq))
                           (Tool.mkTask (Tool.actions s) 0 (Tool.didEditFile s)
                              (Tool.world s))))))
      as (_ & _ & tail & Htail & Hshape').
    rewrite Hsave in Htail. apply app_inv_head in Htail. subst ending.
    assert (Hw : absolutePath
                 = Tool.resolve env (Tool.cwd env)
                     (Tool.finalPathOf (Tool.rq_relPath rq) fmt) /\
                 base64Data = b64).
    { destruct Hin as [H | Hin]; [discriminate H |].
      destruct Hshape' as [(e & ->) | [(e & ->) | (uri & -> & _)]];
        simpl in Hin; intuition (try discriminate);
        match goal with H : Tool.WriteFile _ _ = Tool.WriteFile _ _ |- _ =>
          injection H as <- <- end; auto. }
    destruct Hw as [-> ->].
    apply present_Some in Hd as [Hd _].
    apply matchDataUrl_spec in Hm.
    exists rq, result, d, fmt. auto 10.
Qed.

Lemma written_file_holds_the_provider_payload_witness :
  In (Tool.WriteFile (lit "/work/kite.png") (lit "iVBORw0KGgo="))
     (Tool.doneBy emptyTask
        (Tool.generateImageTool (sampleEnv (respondWith (responseOf [pngPart])))
           (Tool.mkToolUse (Some (lit "a red kite")) (Some (lit "kite")) None
              false)
           emptyTask)) /\
  exists d imageFormat,
    MatchesPattern d imageFormat (lit "iVBORw0KGgo=").
Proof.
  assert (Hin : In (Tool.WriteFile (lit "/work/kite.png") (lit "iVBORw0KGgo="))
                   (Tool.doneBy emptyTask
                      (Tool.generateImageTool
                         (sampleEnv (respondWith (responseOf [pngPart])))
                         (Tool.mkToolUse (Some (lit "a red kite"))
                            (Some (lit "kite")) None false)
                         emptyTask))).
  { vm_compute. auto 10. }
  split; [exact Hin |].
  destruct (written_file_holds_the_provider_payload _ _ _ _ _ Hin)
    as (rq & result & d & fmt & _ & _ & _ & _ & _ & Hm & _).
  exists d, fmt. exact Hm.
Defined.

Lemma startsWith_before_semicolon (alt sub rest : jsstring) :
  forallb (fun c => negb (N.eqb c 59)) alt = true ->
  JsString.startsWith alt (sub ++ 59%N :: rest) = true ->
  JsString.startsWith alt sub = true.
Proof.
  revert sub. induction alt as [|a alt IH]; intros sub Hno H; [reflexivity |].
  simpl in Hno. apply andb_true_iff in Hno as [Ha Hno].
  destruct sub as [|b sub]; simpl in *.
  - apply andb_true_iff in H as [H _].
    rewrite H in Ha. discriminate Ha.
  - apply andb_true_iff in H as [Hab H].
    rewrite Hab. simpl. now apply IH.
Qed.

(** A MIME subtype that does not begin with one of the three accepted
    names gives a data URL outside the pattern. *)
Lemma unmatched_output_image (sub payload : jsstring) :
  forallb (fun alt => negb (JsString.startsWith alt sub))
    [lit "png"; lit "jpeg"; lit "jpg"] = true ->
  DataUrlPattern.matchDataUrl
    (lit "data:" ++ (lit "image/" ++ sub) ++ lit ";base64," ++ payload) = None.
Proof.
  intros Hsub.
  destruct (DataUrlPattern.matchDataUrl _) as [[g1 g2]|] eqn:E; [| reflexivity].
  exfalso. apply matchDataUrl_spec in E as (Hin & Heq & _).
  change (lit "data:" ++ (lit "image/" ++ sub) ++ lit ";base64," ++ payload)
    with (lit "data:image/" ++ sub ++ 59%N :: lit "base64," ++ payload) in Heq.
  apply app_inv_head in Heq.
  assert (Hstart : JsString.startsWith g1
                     (sub ++ 59%N :: lit "base64," ++ payload) = true)
    by (rewrite Heq; apply startsWith_app).
  cbn [forallb] in Hsub.
  apply andb_true_iff in Hsub as [H1 Hsub].
  apply andb_true_iff in Hsub as [H2 Hsub].
  apply andb_true_iff in Hsub as [H3 _].
  destruct Hin as [<- | [<- | [<- | []]]];
    apply startsWith_before_semicolon in Hstart; try reflexivity;
    rewrite Hstart in *; discriminate.
Qed.

(** X23. An image that the Gemini adapter accepts can still be refused by
    the tool. When the provider's first image part has a MIME type
    [image/<subtype>] whose subtype does not begin with [png], [jpeg] or
    [jpg] -- [webp] or [gif], say -- the adapter returns success, and the
    tool, after one call to the provider, reports ["Invalid image format
    received"] and writes nothing. *)
Theorem gemini_image_of_another_type_is_not_saved
    (env : Tool.Env) (rq : Tool.Request) (s : Tool.Task)
    (r : GenerateContentResponse) (c : Candidate) (rest : list Candidate)
    (ct : Content) (before after : list Part) (part : Part) (blob : Blob)
    (sub : jsstring) :
  Tool.rq_provider rq = gemini ->
  Tool.askApproval env (Tool.approvalMessageOf env rq)
    (Tool.rq_isWriteProtected rq) = true ->
  Answered (Tool.geminiTransport env) (Tool.newGeminiHandler (Tool.rq_apiKey rq))
    (Tool.rq_prompt rq) (Tool.rq_model rq) (Some (Tool.rq_apiKey rq))
    (Tool.rq_inputImageData rq) r ->
  candidates r = Some (c :: rest) ->
  content c = Some ct ->
  parts ct = Some (before ++ part :: after) ->
  hasImagePart before = false ->
  inlineData part = Some blob ->
  mimeType blob = Some (lit "image/" ++ sub) ->
  forallb (fun alt => negb (JsString.startsWith alt sub))
    [lit "png"; lit "jpeg"; lit "jpg"] = true ->
  Tool.doneBy s (Tool.execute env rq s)
  = [ Tool.AskApproval (Tool.approvalMessageOf env rq)
        (Tool.rq_isWriteProtected rq)
    ; Tool.Say (lit "error") (lit "Invalid image format received")
    ; Tool.PushToolResult
        (Tool.toolError env (lit "Invalid image format received")) ] /\
  List.length (calls (Tool.world (Tool.execute env rq s)))
  = S (List.length (calls (Tool.world s))).
Proof.
  intros Hprov Hask (contents & Hprep & Htr) Hc Hct Hp Hb Hi Hm Hsub.
  assert (Hext : extractImage r
                 = generated
                     (lit "data:" ++ (lit "image/" ++ sub) ++ lit ";base64,"
                        ++ JsString.interpolate (data blob))
                     (JsString.replace (lit "jpeg") (lit "jpg")
                        (skipn 6 (lit "image/" ++ sub)))).
  { unfold extractImage. rewrite Hc, Hct, Hp.
    rewrite (@scanParts_first_image before after part blob
               (lit "image/" ++ sub) None (lit "png") Hb Hi Hm
               (startsWith_app (lit "image/") sub)).
    reflexivity. }
  assert (Hcall : forall t,
             Tool.world t = Tool.world s ->
             Tool.callProvider env rq t
             = (Normal (extractImage r),
                Tool.mkTask (Tool.actions t) (Tool.consecutiveMistakeCount t)
                  (Tool.didEditFile t)
                  (mkWorld
                     (calls (Tool.world s)
                      ++ [(chooseClient (Tool.newGeminiHandler (Tool.rq_apiKey rq))
                             (Some (Tool.rq_apiKey rq)),
                           requestParams (Tool.newGeminiHandler (Tool.rq_apiKey rq))
                             (Tool.rq_model rq) contents)])
                     (console (Tool.world s))))).
  { intros t Ht. unfold Tool.callProvider. rewrite Hprov.
    rewrite (@generateImage_answered (Tool.geminiTransport env)
               (Tool.newGeminiHandler (Tool.rq_apiKey rq)) (Tool.rq_prompt rq)
               (Tool.rq_model rq) (Some (Tool.rq_apiKey rq))
               (Tool.rq_inputImageData rq) (Tool.world t) contents r Hprep Htr).
    now rewrite Ht. }
  unfold Tool.execute. rewrite Hask. cbn [negb].
  rewrite Hcall by reflexivity. rewrite Hext.
  cbn [success generated negb imageData Tool.present].
  change (JsString.truthy
            (lit "data:" ++ (lit "image/" ++ sub) ++ lit ";base64,"
               ++ JsString.interpolate (data blob))) with true.
  cbv iota. rewrite (@unmatched_output_image sub _ Hsub).
  rewrite reportError_exit. cbn [Tool.actions Tool.world Tool.emit].
  split.
  - apply doneBy_extends. cbn [Tool.actions]. now rewrite <- !app_assoc.
  - cbn [calls]. rewrite length_app. simpl. lia.
Qed.

Lemma gemini_image_of_another_type_is_not_saved_witness :
  Tool.doneBy emptyTask
    (Tool.execute
       (sampleEnv
          (respondWith
             (responseOf
                [ textPart
                ; mkPart None
                    (Some (mkBlob (Some (lit "image/" ++ lit "webp"))
                             (Some (lit "UklGRg==")))) ])))
       (Tool.mkRequest (lit "a red kite") (lit "kite") None None false gemini
          (lit "key") (lit "gemini-2.5-flash-image-preview"))
       emptyTask)
  = [ Tool.AskApproval
        (Tool.mkApprovalMessage (lit "generateImage") (lit "kite")
           (lit "a red kite") false false None) false
    ; Tool.Say (lit "error") (lit "Invalid image format received")
    ; Tool.PushToolResult (lit "ERROR: Invalid image format received") ].
Proof.
  pose (webpPart :=
          mkPart None
            (Some (mkBlob (Some (lit "image/" ++ lit "webp"))
                     (Some (lit "UklGRg=="))))).
  pose (r := responseOf [textPart; webpPart]).
  pose (env := sampleEnv (respondWith r)).
  pose (rq := Tool.mkRequest (lit "a red kite") (lit "kite") None None false
                gemini (lit "key") (lit "gemini-2.5-flash-image-preview")).
  assert (A : Answered (Tool.geminiTransport env)
                (Tool.newGeminiHandler (Tool.rq_apiKey rq)) (Tool.rq_prompt rq)
                (Tool.rq_model rq) (Some (Tool.rq_apiKey rq))
                (Tool.rq_inputImageData rq) r).
  { eexists. split; reflexivity. }
  exact (proj1
           (@gemini_image_of_another_type_is_not_saved env rq emptyTask r
              (mkCandidate
                 (Some (mkContent (Some (lit "model"))
                          (Some [textPart; webpPart]))))
              []
              (mkContent (Some (lit "model")) (Some [textPart; webpPart]))
              [textPart] [] webpPart
              (mkBlob (Some (lit "image/" ++ lit "webp")) (Some (lit "UklGRg==")))
              (lit "webp")
              eq_refl eq_refl A eq_refl eq_refl eq_refl eq_refl eq_refl eq_refl
              eq_refl)).
Defined.

(** X24. The tool generates with the model that the settings panel shows:
    for the same stored selections, the model that the tool resolves for a
    provider is the panel's current model for that provider. The model and
    the API key it goes with are never empty. *)
Theorem tool_uses_the_model_the_panel_shows
    (env : Tool.Env) (props : Settings.Props) (p : ImageGenerationProvider)
    (apiKey model : jsstring) :
  Tool.selectProvider env = inr (p, apiKey, model) ->
  Settings.openRouterImageGenerationSelectedModel props
  = Tool.stateField env Tool.openRouterImageGenerationSelectedModel ->
  Settings.geminiImageGenerationSelectedModel props
  = Tool.stateField env Tool.geminiImageGenerationSelectedModel ->
  model = Settings.getCurrentSelectedModel props p /\
  model <> [] /\
  apiKey <> [].
Proof.
  intros Hsel Ho Hg.
  assert (Hmodel : model = Settings.getCurrentSelectedModel props p /\
                   apiKey <> []).
  { unfold Tool.selectProvider in Hsel.
    destruct (JsString.eqb _ (lit "openrouter")).
    - destruct (Tool.present (Tool.stateField env Tool.openRouterImageApiKey))
        as [k|] eqn:Hk; [| discriminate].
      injection Hsel as <- <- <-.
      apply present_Some in Hk as [_ Hk]. split; [| exact Hk].
      simpl. now rewrite Ho.
    - destruct (JsString.eqb _ (lit "gemini")); [| discriminate].
      destruct (Tool.present _) as [k|] eqn:Hk; [| discriminate].
      injection Hsel as <- <- <-.
      apply present_Some in Hk as [_ Hk]. split; [| exact Hk].
      simpl. now rewrite Hg. }
  destruct Hmodel as [-> Hkey].
  split; [reflexivity |]. split; [| exact Hkey].
  apply getCurrentSelectedModel_nonempty.
Qed.

Lemma tool_uses_the_model_the_panel_shows_witness :
  Tool.selectProvider (sampleEnv (respondWith (responseOf [pngPart])))
  = inr (gemini, lit "key", lit "gemini-2.5-flash-image-preview") /\
  lit "gemini-2.5-flash-image-preview"
  = Settings.getCurrentSelectedModel
      (Settings.mkProps true None None None None (Some gemini) true true) gemini.
Proof.
  split; [reflexivity |].
  exact (proj1
           (@tool_uses_the_model_the_panel_shows
              (sampleEnv (respondWith (responseOf [pngPart])))
              (Settings.mkProps true None None None None (Some gemini) true true)
              gemini (lit "key") (lit "gemini-2.5-flash-image-preview")
              eq_refl eq_refl eq_refl)).
Defined.

(** X25. Where the API key of a run comes from. For OpenRouter it is the
    stored OpenRouter image key. For Gemini it is the dedicated image key
    when that is not empty, and otherwise the Gemini key of the chat
    configuration, which is used only when that configuration's provider is
    ["gemini"]. With no provider stored, or an empty one, the provider is
    OpenRouter. *)
Theorem api_key_comes_from_the_matching_setting
    (env : Tool.Env) (p : ImageGenerationProvider) (apiKey model : jsstring) :
  Tool.selectProvider env = inr (p, apiKey, model) ->
  match p with
  | openrouter =>
      Tool.stateField env Tool.openRouterImageApiKey = Some apiKey /\
      orElse (Tool.stateField env Tool.imageGenerationProvider) (lit "openrouter")
      = lit "openrouter"
  | gemini =>
      Tool.stateField env Tool.imageGenerationProvider = Some (lit "gemini") /\
      (Tool.stateField env Tool.geminiImageApiKey = Some apiKey \/
       (Tool.present (Tool.stateField env Tool.geminiImageApiKey) = None /\
        exists c,
          Tool.stateField env Tool.apiConfiguration = Some c /\
          Tool.apiProvider c = Some (lit "gemini") /\
          Tool.geminiApiKey c = Some apiKey))
  end.
Proof.
  unfold Tool.selectProvider.
  destruct (JsString.eqb _ (lit "openrouter")) eqn:Eo.
  - destruct (Tool.present (Tool.stateField env Tool.openRouterImageApiKey))
      as [k|] eqn:Hk; [| discriminate].
    intros [= <- <- <-]. apply present_Some in Hk as [Hk _].
    apply jsstring_eqb_eq in Eo. auto.
  - destruct (JsString.eqb _ (lit "gemini")) eqn:Eg; [| discriminate].
    destruct (Tool.present _) as [k|] eqn:Hk; [| discriminate].
    intros [= <- <- <-].
    apply jsstring_eqb_eq in Eg. split.
    + destruct (Tool.stateField env Tool.imageGenerationProvider)
        as [[|x v]|]; simpl in Eg; try discriminate Eg. now rewrite Eg.
    + apply present_Some in Hk as [Hk Hne].
      destruct (Tool.stateField env Tool.geminiImageApiKey) as [[|x v]|];
        simpl in Hk.
      * right. split; [reflexivity |].
        destruct (Tool.stateField env Tool.apiConfiguration) as [c|];
          [| discriminate].
        destruct (Tool.apiProvider c) as [ap|] eqn:Hap; [| discriminate].
        destruct (JsString.eqb ap (lit "gemini")) eqn:E; [| discriminate].
        apply jsstring_eqb_eq in E. subst ap. eauto.
      * left. exact Hk.
      * right. split; [reflexivity |].
        destruct (Tool.stateField env Tool.apiConfiguration) as [c|];
          [| discriminate].
        destruct (Tool.apiProvider c) as [ap|] eqn:Hap; [| discriminate].
        destruct (JsString.eqb ap (lit "gemini")) eqn:E; [| discriminate].
        apply jsstring_eqb_eq in E. subst ap. eauto.
Qed.

Lemma api_key_comes_from_the_matching_setting_witness :
  Tool.selectProvider (sampleEnv (respondWith (responseOf [pngPart])))
  = inr (gemini, lit "key", lit "gemini-2.5-flash-image-preview") /\
  Tool.stateField (sampleEnv (respondWith (responseOf [pngPart])))
    Tool.imageGenerationProvider = Some (lit "gemini").
Proof.
  split; [reflexivity |].
  exact (proj1
           (@api_key_comes_from_the_matching_setting
              (sampleEnv (respondWith (responseOf [pngPart])))
              gemini (lit "key") (lit "gemini-2.5-flash-image-preview")
              eq_refl)).
Defined.

(** * Witnesses on a sample stream *)

Lemma usage_event_reports_last_metadata_witness :
  Stream.usageMetadata
    (Stream.mkChunk None None
       (Some (Stream.mkUsage (Some 2000000%float) (Some 500000%float)
                (Some 1000000%float) None)))
  = Some (Stream.mkUsage (Some 2000000%float) (Some 500000%float)
            (Some 1000000%float) None) /\
  exists earlier,
    fst (Stream.createMessage (fun key _ => key) flatModel
           (Stream.mkDelivery
              ([Stream.mkChunk None (Some (lit "Hello")) None]
               ++ Stream.mkChunk None None
                    (Some (Stream.mkUsage (Some 2000000%float)
                             (Some 500000%float) (Some 1000000%float) None))
                  :: [])
              None))
    = earlier
      ++ [Stream.Usage 2000000 500000 (Some 1000000%float) None (JsNumber 8)].
Proof.
  split; [reflexivity |].
  destruct (proj1 (usage_event_reports_last_metadata (fun key _ => key) flatModel)
              [Stream.mkChunk None (Some (lit "Hello")) None] []
              (Stream.mkChunk None None
                 (Some (Stream.mkUsage (Some 2000000%float) (Some 500000%float)
                          (Some 1000000%float) None)))
              (Stream.mkUsage (Some 2000000%float) (Some 500000%float)
                 (Some 1000000%float) None)
              eq_refl (Forall_nil _)) as (earlier & He & _).
  exists earlier. exact He.
Defined.

Lemma grounding_event_reports_last_metadata_witness :
  Stream.groundingOf
    (Stream.mkChunk
       (Some [Stream.mkCandidate
                (Some (Grounding.mkMetadata
                         (Some [Grounding.mkChunk
                                  (Some (Grounding.mkWeb
                                           (Some (lit "https://example.org/a"))
                                           None))])))
                None])
       None None)
  = Some (Grounding.mkMetadata
            (Some [Grounding.mkChunk
                     (Some (Grounding.mkWeb (Some (lit "https://example.org/a"))
                              None))])) /\
  exists usage,
    fst (Stream.createMessage (fun key _ => key) flatModel
           (Stream.mkDelivery
              ([] ++ Stream.mkChunk
                       (Some [Stream.mkCandidate
                                (Some (Grounding.mkMetadata
                                         (Some [Grounding.mkChunk
                                                  (Some (Grounding.mkWeb
                                                           (Some (lit "https://example.org/a"))
                                                           None))])))
                                None])
                       None None
                  :: [Stream.mkChunk None (Some (lit "Hello")) None])
              None))
    = [ Stream.Text (lit "Hello")
      ; Stream.GroundingEvent
          [Grounding.mkSource (lit "https://example.org/a")
             (lit "https://example.org/a")] ]
      ++ usage.
Proof.
  split; [reflexivity |].
  assert (F : Forall (fun x => Stream.groundingOf x = None)
                [Stream.mkChunk None (Some (lit "Hello")) None])
    by (constructor; [reflexivity | constructor]).
  destruct (@grounding_event_reports_last_metadata (fun key _ => key) flatModel
              []
              [Stream.mkChunk None (Some (lit "Hello")) None]
              (Stream.mkChunk
                 (Some [Stream.mkCandidate
                          (Some (Grounding.mkMetadata
                                   (Some [Grounding.mkChunk
                                            (Some (Grounding.mkWeb
                                                     (Some (lit "https://example.org/a"))
                                                     None))])))
                          None])
                 None None)
              (Grounding.mkMetadata
                 (Some [Grounding.mkChunk
                          (Some (Grounding.mkWeb
                                   (Some (lit "https://example.org/a")) None))]))
              eq_refl F)
    as (usage & He & _).
  exists usage. exact He.
Defined.

(** * More on [generateImage] and its pattern *)

(** X26. The data-URL pattern and the string it is read from determine each
    other: when the pattern matches, putting the two captured groups back
    between [data:image/], [;base64,] gives the string that was matched;
    and a string so assembled from [png], [jpeg] or [jpg] and a non-empty
    payload without line breaks matches with exactly those two groups. *)
Theorem data_url_pattern_round_trip :
  (forall s sub payload,
      DataUrlPattern.matchDataUrl s = Some (sub, payload) ->
      s = lit "data:image/" ++ sub ++ lit ";base64," ++ payload /\
      In sub [lit "png"; lit "jpeg"; lit "jpg"] /\
      payload <> []) /\
  (forall sub payload,
      In sub [lit "png"; lit "jpeg"; lit "jpg"] ->
      payload <> [] ->
      forallb (fun c => negb (DataUrlPattern.isLineTerminator c)) payload = true ->
      DataUrlPattern.matchDataUrl
        (lit "data:image/" ++ sub ++ lit ";base64," ++ payload)
      = Some (sub, payload)).
Proof.
  split.
  - intros s sub payload H.
    apply matchDataUrl_spec in H as (Hin & Hs & Hne & _). auto.
  - intros sub payload Hin Hne Hl. apply matchDataUrl_spec.
    repeat split; auto.
Qed.

Lemma data_url_pattern_round_trip_witness :
  DataUrlPattern.matchDataUrl (lit "data:image/jpeg;base64,/9j/4AAQ")
  = Some (lit "jpeg", lit "/9j/4AAQ") /\
  lit "data:image/jpeg;base64,/9j/4AAQ"
  = lit "data:image/" ++ lit "jpeg" ++ lit ";base64," ++ lit "/9j/4AAQ".
Proof.
  split; [reflexivity |].
  exact (proj1 (proj1 data_url_pattern_round_trip
                  (lit "data:image/jpeg;base64,/9j/4AAQ") (lit "jpeg")
                  (lit "/9j/4AAQ") eq_refl)).
Defined.

(** X27. One call of [generateImage] sends at most one request. When it
    sends one, the request names the model it was given, has temperature 1,
    and holds a single user message that starts with the prompt; it goes
    through a client made for the given API key when that key is not empty
    and the handler has no Vertex project, and through the handler's own
    client in every other case. *)
Theorem generateImage_sends_at_most_one_request
    (transport : Transport) (this : GeminiHandler) (prompt model : jsstring)
    (apiKey inputImage : option jsstring) (w : World) :
  let w' := snd (generateImage transport this prompt model apiKey inputImage w) in
  calls w' = calls w \/
  exists c params rest,
    calls w' = calls w ++ [(c, params)] /\
    GenAI.model params = model /\
    temperature (config params) = 1%float /\
    contents params
    = [mkContent (Some (lit "user")) (Some (mkPart (Some prompt) None :: rest))] /\
    c = match apiKey with
        | Some key =>
            if JsString.truthy key
               && negb (JsString.truthy_opt (vertexProjectId (options this)))
            then NewGoogleGenAI key
            else client this
        | None => client this
        end.
Proof.
  cbv zeta.
  destruct (prepareContents prompt inputImage) as [early|contents] eqn:Hp.
  - left. now rewrite (@generateImage_early transport this prompt model apiKey
                         inputImage w early Hp).
  - right.
    assert (Hshape : exists rest,
               contents
               = [mkContent (Some (lit "user"))
                    (Some (mkPart (Some prompt) None :: rest))]).
    { unfold prepareContents in Hp.
      destruct inputImage as [img|].
      - destruct (JsString.truthy img).
        + destruct (DataUrlPattern.matchDataUrl img) as [[g1 g2]|];
            [| discriminate].
          injection Hp as <-. eexists. reflexivity.
        + injection Hp as <-. eexists. reflexivity.
      - injection Hp as <-. eexists. reflexivity. }
    destruct Hshape as (rest & Hc).
    exists (chooseClient this apiKey), (requestParams this model contents), rest.
    split; [| split; [reflexivity | split; [reflexivity |
                      split; [exact Hc | reflexivity]]]].
    destruct (transport (chooseClient this apiKey)
                (requestParams this model contents)) as [r|t] eqn:Ht.
    + now rewrite (@generateImage_answered transport this prompt model apiKey
                     inputImage w contents r Hp Ht).
    + now rewrite (@generateImage_failed transport this prompt model apiKey
                     inputImage w contents t Hp Ht).
Qed.
